(** * Evaluation engine of triage (catwalk): a shallow embedding

    Source: [src/triage/component/catwalk/evaluation.py].

    The Python code is embedded as pure functions.  Exceptions are values
    of an error monad, the database and the class-level metric registry are
    threaded explicitly, and Python [float] arithmetic is modelled as
    IEEE 754 binary64 arithmetic (round to nearest, ties to even) on exact
    rational values. *)

From Stdlib Require Import ZArith QArith Qround Qpower Lia Lqa Ascii String.
From Stdlib Require PrimFloat SpecFloat FloatOps Uint63.
From stdpp Require Import base option list strings gmap pretty.

Local Open Scope Z_scope.

(** ** Python exceptions and the error monad *)

Inductive exn : Set :=
  | ValueError
  | OverflowError
  | AttributeError
  | UnboundLocalError
  | IndexError
  | ZeroDivisionError
  | UnknownMetricError.

Inductive result (A : Type) : Type :=
  | Ok (a : A)
  | Raise (e : exn).
Arguments Ok {A} a.
Arguments Raise {A} e.

#[global] Instance result_ret : MRet result := fun _ a => Ok a.
#[global] Instance result_bind : MBind result := fun _ _ k r =>
  match r with
  | Ok a => k a
  | Raise e => Raise e
  end.

(** ** Python floats: IEEE 754 binary64 *)

Module Double.

(** A finite double is represented by its exact rational value; the two
    zeros are identified (the program only compares and truncates). *)
Inductive float : Type :=
  | Fin (v : Q)
  | Inf (negative : bool)
  | NaN.

Definition prec : Z := 53.
Definition emin : Z := -1074.
Definition emax : Z := 1024.

Definition pow2 (k : Z) : Q := (2 ^ k)%Q.

(** [ilog2 x] is the integer [k] with [2^k <= x < 2^(k+1)], for [0 < x]. *)
Definition ilog2 (x : Q) : Z :=
  let k := Z.log2 (Qnum x) - Z.log2 (Zpos (Qden x)) in
  if Qle_bool (pow2 k) x then k else k - 1.

(** Round to the nearest integer, ties to even. *)
Definition rne (s : Q) : Z :=
  let f := Qfloor s in
  match (s - inject_Z f ?= 1 # 2)%Q with
  | Lt => f
  | Gt => f + 1
  | Eq => if Z.even f then f else f + 1
  end.

(** Exponent of the last place of the binade of [x]. *)
Definition ulp_exp (x : Q) : Z := Z.max (ilog2 x - (prec - 1)) emin.

(** Rounding of a positive rational to 53 significant bits, with
    gradual underflow and an unbounded exponent range upwards. *)
Definition round_pos (x : Q) : Q :=
  let e := ulp_exp x in
  (inject_Z (rne (x / pow2 e)) * pow2 e)%Q.

Definition overflows (r : Q) : bool := Qle_bool (pow2 emax) r.

(** [round x] is the double nearest to the real number [x]. *)
Definition round (x : Q) : float :=
  match (x ?= 0)%Q with
  | Eq => Fin 0
  | Gt => let r := round_pos x in
          if overflows r then Inf false else Fin r
  | Lt => let r := round_pos (- x) in
          if overflows r then Inf true else Fin (- r)
  end.

Definition is_zero (v : Q) : bool := Qeq_bool v 0.
Definition is_neg (v : Q) : bool := negb (Qle_bool 0 v).

(** [a * b] on floats. *)
Definition mul (a b : float) : float :=
  match a, b with
  | NaN, _ | _, NaN => NaN
  | Fin x, Fin y => round (x * y)
  | Fin x, Inf s | Inf s, Fin x =>
      if is_zero x then NaN else Inf (xorb s (is_neg x))
  | Inf s, Inf t => Inf (xorb s t)
  end.

(** [a / b] on floats; Python raises on a zero divisor. *)
Definition div (a b : float) : result float :=
  match a, b with
  | _, Fin y =>
      if is_zero y then Raise ZeroDivisionError
      else match a with
           | Fin x => Ok (round (x / y))
           | Inf s => Ok (Inf (xorb s (is_neg y)))
           | NaN => Ok NaN
           end
  | NaN, _ | _, NaN => Ok NaN
  | Fin _, Inf _ => Ok (Fin 0)
  | Inf _, Inf _ => Ok NaN
  end.

(** [float(z)] for a Python [int]: correctly rounded, [OverflowError]
    when the integer is too large. *)
Definition of_int (z : Z) : result float :=
  match round (inject_Z z) with
  | Fin v => Ok (Fin v)
  | _ => Raise OverflowError
  end.

(** Truncation toward zero. *)
Definition Qtrunc (v : Q) : Z :=
  if Qle_bool 0 v then Qfloor v else Qceiling v.

(** [int(f)]. *)
Definition to_int (f : float) : result Z :=
  match f with
  | Fin v => Ok (Qtrunc v)
  | Inf _ => Raise OverflowError
  | NaN => Raise ValueError
  end.

(** [z < f] for a Python [int] and a [float] (an exact comparison). *)
Definition int_lt (z : Z) (f : float) : bool :=
  match f with
  | Fin v => negb (Qle_bool v (inject_Z z))
  | Inf s => negb s
  | NaN => false
  end.

(** [f < z] for a [float] and a Python [int]. *)
Definition lt_int (f : float) (z : Z) : bool :=
  match f with
  | Fin v => negb (Qle_bool (inject_Z z) v)
  | Inf s => s
  | NaN => false
  end.

(** [a < b] on floats. *)
Definition lt (a b : float) : bool :=
  match a, b with
  | NaN, _ | _, NaN => false
  | Fin x, Fin y => negb (Qle_bool y x)
  | Fin _, Inf t => negb t
  | Inf s, Fin _ => s
  | Inf s, Inf t => s && negb t
  end.

(** [a == b] on floats. *)
Definition eqb (a b : float) : bool :=
  match a, b with
  | Fin x, Fin y => Qeq_bool x y
  | Inf s, Inf t => Bool.eqb s t
  | _, _ => false
  end.

(** [math.isfinite], [numpy.isfinite]. *)
Definition isfinite (f : float) : bool :=
  match f with Fin _ => true | _ => false end.

(** The order of the extended reals on floats other than [NaN]. *)
Definition fle (a b : float) : Prop :=
  match a, b with
  | NaN, _ | _, NaN => False
  | Inf true, _ => True
  | _, Inf false => True
  | Fin x, Fin y => (x <= y)%Q
  | _, _ => False
  end.

(** The values of the type that are doubles. *)
Definition is_double (f : float) : bool :=
  match f with
  | Fin v => eqb (round v) (Fin v)
  | _ => true
  end.

End Double.

(** The value of a primitive float of Rocq, which is a hardware double;
    used to test the model of rounding against the hardware. *)
Definition of_prim (f : PrimFloat.float) : Double.float :=
  match FloatOps.Prim2SF f with
  | SpecFloat.S754_zero _ => Double.Fin 0
  | SpecFloat.S754_infinity s => Double.Inf s
  | SpecFloat.S754_nan => Double.NaN
  | SpecFloat.S754_finite s m e =>
      Double.Fin ((if s then - 1 else 1) * inject_Z (Zpos m)
                  * Double.pow2 e)%Q
  end.

(** ** Python numbers *)

Inductive pynum : Type :=
  | PyInt (z : Z)
  | PyFloat (f : Double.float).

Definition to_float (x : pynum) : result Double.float :=
  match x with
  | PyInt z => Double.of_int z
  | PyFloat f => Ok f
  end.

(** A number of the program: its float, when it is one, is a double. *)
Definition well_formed (x : pynum) : bool :=
  match x with
  | PyInt _ => true
  | PyFloat f => Double.is_double f
  end.

(** A finite number of absolute value at most [2^k]. *)
Definition magnitude_le (x : pynum) (k : Z) : Prop :=
  match x with
  | PyInt z => - 2 ^ k <= z <= 2 ^ k
  | PyFloat (Double.Fin v) => (- Double.pow2 k <= v <= Double.pow2 k)%Q
  | PyFloat _ => False
  end.

(** [x / y] (true division) when one operand is a float. *)
Definition truediv (x y : pynum) : result Double.float :=
  a ← to_float x; b ← to_float y; Double.div a b.

(** [x * y] when one operand is a float. *)
Definition fmul (x y : pynum) : result Double.float :=
  a ← to_float x; b ← to_float y; Ok (Double.mul a b).

(** [x < y]. *)
Definition py_lt (x y : pynum) : bool :=
  match x, y with
  | PyInt a, PyInt b => a <? b
  | PyInt a, PyFloat g => Double.int_lt a g
  | PyFloat f, PyInt b => Double.lt_int f b
  | PyFloat f, PyFloat g => Double.lt f g
  end.

(** ** [generate_binary_at_x] *)

(** [range(n)]. *)
Definition range (n : nat) : list Z := map Z.of_nat (seq 0 n).

(** The literal [100.00]. *)
Definition hundred : pynum := PyFloat (Double.Fin 100).

(** [int(len(test_predictions) * (x_value / 100.00))] when [unit] is
    ['percentile'], [x_value] itself with any other unit; [n] is
    [len(test_predictions)]. *)
Definition cutoff_index (n : nat) (x_value : pynum) (unit_ : string)
  : result pynum :=
  if String.eqb unit_ "percentile" then
    q ← truediv x_value hundred;
    p ← fmul (PyInt (Z.of_nat n)) (PyFloat q);
    c ← Double.to_int p;
    Ok (PyInt c)
  else Ok x_value.

(** [1 if x < cutoff_index else 0]. *)
Definition mark (cutoff_index : pynum) (x : Z) : Z :=
  if py_lt (PyInt x) cutoff_index then 1 else 0.

Definition generate_binary_at_x {A} (test_predictions : list A)
    (x_value : pynum) (unit_ : string) : result (list Z) :=
  c ← cutoff_index (length test_predictions) x_value unit_;
  Ok (map (mark c) (range (length test_predictions))).

(** ** Python values, strings and dictionaries *)

Inductive pyval : Type :=
  | VNone
  | VBool (b : bool)
  | VNum (x : pynum)
  | VStr (s : string).

(** [bool] is a subclass of [int]: [True] is [1] and [False] is [0]. *)
Definition num_of_bool (b : bool) : pynum := PyInt (if b then 1 else 0).

(** [x == y] on numbers. *)
Definition num_eqb (x y : pynum) : bool :=
  match x, y with
  | PyInt a, PyInt b => a =? b
  | PyInt a, PyFloat g => Double.eqb (Double.Fin (inject_Z a)) g
  | PyFloat f, PyInt b => Double.eqb f (Double.Fin (inject_Z b))
  | PyFloat f, PyFloat g => Double.eqb f g
  end.

(** [x == y] on values. *)
Definition py_eqb (x y : pyval) : bool :=
  match x, y with
  | VNone, VNone => true
  | VBool a, VBool b => Bool.eqb a b
  | VBool a, VNum n => num_eqb (num_of_bool a) n
  | VNum n, VBool b => num_eqb n (num_of_bool b)
  | VNum n, VNum m => num_eqb n m
  | VStr s, VStr t => String.eqb s t
  | _, _ => false
  end.

(** Truth value of an object, as [if x:] and [x or y] test it. *)
Definition truthy (x : pyval) : bool :=
  match x with
  | VNone => false
  | VBool b => b
  | VNum n => negb (num_eqb n (PyInt 0))
  | VStr s => negb (String.eqb s "")
  end.

(** [x or y]. *)
Definition py_or (x y : pyval) : pyval := if truthy x then x else y.

(** [x in (True, False)]. *)
Definition in_True_False (x : pyval) : bool :=
  py_eqb x (VBool true) || py_eqb x (VBool false).

Definition lower_ascii (c : ascii) : ascii :=
  let n := nat_of_ascii c in
  if (65 <=? n)%nat && (n <=? 90)%nat then ascii_of_nat (n + 32) else c.

(** [s.lower()], on the ASCII range. *)
Fixpoint lower (s : string) : string :=
  match s with
  | EmptyString => EmptyString
  | String c r => String (lower_ascii c) (lower r)
  end.

(** [sep.join(l)]. *)
Fixpoint join (sep : string) (l : list string) : string :=
  match l with
  | [] => ""
  | [s] => s
  | s :: r => s +:+ sep +:+ join sep r
  end.

(** A [dict] with string keys, in insertion order. *)
Definition dict : Type := list (string * pyval).

(** [d[k] = v]: an existing key keeps its place. *)
Fixpoint dict_set (k : string) (v : pyval) (d : dict) : dict :=
  match d with
  | [] => [(k, v)]
  | (k', v') :: r =>
      if String.eqb k k' then (k, v) :: r else (k', v') :: dict_set k v r
  end.

(** [d.update(other)]. *)
Definition dict_update (d other : dict) : dict :=
  fold_left (fun acc kv => dict_set kv.1 kv.2 acc) other d.

(** [l.count(1)] on a list of numbers. *)
Definition count_ones (l : list pynum) : Z :=
  Z.of_nat (length (filter (fun x => num_eqb x (PyInt 1) = true) l)).

(** [numpy.isfinite] on one entry. *)
Definition num_isfinite (x : pynum) : bool :=
  match x with
  | PyInt _ => true
  | PyFloat f => Double.isfinite f
  end.

(** [a[mask]] for a boolean mask: the shapes must agree. *)
Fixpoint mask_select {A} (a : list A) (mask : list bool) : result (list A) :=
  match a, mask with
  | [], [] => Ok []
  | x :: a', b :: mask' =>
      r ← mask_select a' mask';
      Ok (if b then x :: r else r)
  | _, _ => Raise IndexError
  end.

(** ** Metric functions and the registry *)

(** A metric function: called with
    [(predictions_proba, predictions_binary, labels, parameters)], and
    carrying the attribute [greater_is_better] when it has one. *)
Record metric_function : Type := {
  metric_call : option (list pynum) -> list Z -> list pynum -> dict -> pynum;
  greater_is_better : option pyval
}.

(** The two tests of [_validate_metrics] on one function. *)
Definition passes_validation (met : metric_function) : bool :=
  match greater_is_better met with
  | Some g => in_True_False g
  | None => false
  end.

(** The functions of the module [metrics], which the engine imports and
    which is not among the sources: they are parameters of the model. *)
Record metrics_module : Type := {
  precision : metric_function;
  recall : metric_function;
  fbeta : metric_function;
  f1 : metric_function;
  accuracy : metric_function;
  roc_auc : metric_function;
  avg_precision : metric_function;
  true_positives : metric_function;
  true_negatives : metric_function;
  false_positives : metric_function;
  false_negatives : metric_function;
  fpr : metric_function
}.

(** [ModelEvaluator.available_metrics] as the class statement creates it.
    It is one dictionary object, an attribute of the class: every instance
    reads it through [self.available_metrics], so the functions below take
    its current contents as the argument [registry]. *)
Definition available_metrics (metrics : metrics_module)
  : gmap string metric_function :=
  list_to_map [
    ("precision@", precision metrics);
    ("recall@", recall metrics);
    ("fbeta@", fbeta metrics);
    ("f1", f1 metrics);
    ("accuracy", accuracy metrics);
    ("roc_auc", roc_auc metrics);
    ("average precision score", avg_precision metrics);
    ("true positives@", true_positives metrics);
    ("true negatives@", true_negatives metrics);
    ("false positives@", false_positives metrics);
    ("false negatives@", false_negatives metrics);
    ("fpr@", fpr metrics)
  ].

(** ** Configuration and records *)

Record thresholds : Type := {
  percentiles : option (list pynum);
  top_n : option (list pynum)
}.

(** A metric group; ['parameters'] and ['thresholds'] are optional keys. *)
Record metric_group : Type := {
  group_metrics : list string;
  group_parameters : option (list dict);
  group_thresholds : option thresholds
}.

Module results_schema.

(** Modelled from the spec: the module [triage.component.results_schema]
    is not among the sources.  The two mapped classes of section 6 of the
    spec, one table each. *)
Inductive table : Set := TrainEvaluation | TestEvaluation.

(** Modelled from the spec: an ORM object of one of the two classes, with
    the columns of section 6 of the spec, which are the keyword arguments
    of the generator and the attributes that the writer binds; the key
    columns are unset until then. *)
Record Evaluation : Type := {
  class : table;
  metric : string;
  parameter : string;
  value : pynum;
  num_labeled_examples : Z;
  num_labeled_above_threshold : Z;
  num_positive_labels : Z;
  sort_seed : pyval;
  model_id : option Z;
  evaluation_start_time : option Z;
  evaluation_end_time : option Z;
  as_of_date_frequency : option string
}.

(** The committed contents of the two tables. *)
Record database : Type := {
  train_evaluations : list Evaluation;
  test_evaluations : list Evaluation
}.

Definition rows (t : table) (db : database) : list Evaluation :=
  match t with
  | TrainEvaluation => train_evaluations db
  | TestEvaluation => test_evaluations db
  end.

Definition set_rows (t : table) (l : list Evaluation) (db : database)
  : database :=
  match t with
  | TrainEvaluation =>
      {| train_evaluations := l; test_evaluations := test_evaluations db |}
  | TestEvaluation =>
      {| train_evaluations := train_evaluations db; test_evaluations := l |}
  end.

(** The [filter_by] condition of the writer. *)
Definition has_key (m : Z) (start_time end_time : Z) (frequency : string)
    (ev : Evaluation) : bool :=
  bool_decide (model_id ev = Some m)
  && bool_decide (evaluation_start_time ev = Some start_time)
  && bool_decide (evaluation_end_time ev = Some end_time)
  && bool_decide (as_of_date_frequency ev = Some frequency).

(** The rows that the writer's [delete] leaves in place. *)
Definition keep (m : Z) (start_time end_time : Z) (frequency : string)
    (ev : Evaluation) : bool :=
  negb (has_key m start_time end_time frequency ev).

(** [session.query(t).filter_by(...).delete()]. *)
Definition delete_by (t : table) (m start_time end_time : Z)
    (frequency : string) (db : database) : database :=
  set_rows t
    (List.filter (keep m start_time end_time frequency) (rows t db)) db.

(** [session.add(ev)]: the row goes to the table of the object's class. *)
Definition add (ev : Evaluation) (db : database) : database :=
  set_rows (class ev) (rows (class ev) db ++ [ev]) db.

(** The four assignments of the writer's loop. *)
Definition bind_key (m start_time end_time : Z) (frequency : string)
    (ev : Evaluation) : Evaluation :=
  {| class := class ev;
     metric := metric ev;
     parameter := parameter ev;
     value := value ev;
     num_labeled_examples := num_labeled_examples ev;
     num_labeled_above_threshold := num_labeled_above_threshold ev;
     num_positive_labels := num_positive_labels ev;
     sort_seed := sort_seed ev;
     model_id := Some m;
     evaluation_start_time := Some start_time;
     evaluation_end_time := Some end_time;
     as_of_date_frequency := Some frequency |}.

Definition other (t : table) : table :=
  match t with
  | TrainEvaluation => TestEvaluation
  | TestEvaluation => TrainEvaluation
  end.

End results_schema.

Import results_schema (table, TrainEvaluation, TestEvaluation,
                       Evaluation, database).

(** ** The co-sorter *)

(** [insert_desc item l] puts [item] in front of the first entry of [l]
    that ranks after it: a smaller score, or the same score and a larger
    tie key. *)
Fixpoint insert_desc (item : pynum * pynum * Z)
    (l : list (pynum * pynum * Z)) : list (pynum * pynum * Z) :=
  match l with
  | [] => [item]
  | other :: rest =>
      if py_lt other.1.1 item.1.1
         || (num_eqb other.1.1 item.1.1 && (item.2 <? other.2))
      then item :: other :: rest
      else other :: insert_desc item rest
  end.

(** Modelled from the spec: [utils.sort_predictions_and_labels] is not
    among the sources.  Section 4.1 of the spec asks for a joint ordering
    of scores and labels by descending score, equal scores being ordered
    by a deterministic function of the seed; [tie_key seed i] is the key
    that the seed gives to input position [i]. *)
Definition sort_predictions_and_labels_spec (tie_key : pyval -> nat -> Z)
    (predictions_proba labels : list pynum) (sort_seed : pyval)
  : list pynum * list pynum :=
  let keys := map (tie_key sort_seed) (seq 0 (length predictions_proba)) in
  let items := zip (zip predictions_proba labels) keys in
  let sorted := foldr insert_desc [] items in
  (map (fun item => item.1.1) sorted, map (fun item => item.1.2) sorted).

(** ** [ModelEvaluator] *)

Record ModelEvaluator : Type := {
  metric_groups : list metric_group;
  training_metric_groups : list metric_group;
  sort_seed : pyval;
  (** whether [__init__] set the attribute [sessionmaker] *)
  sessionmaker : bool
}.

(** The loop of [_validate_metrics] over [custom_metrics.items()]. *)
Fixpoint validate_items (items : list (string * metric_function))
  : result unit :=
  match items with
  | [] => Ok tt
  | (name, met) :: rest =>
      match greater_is_better met with
      | None => Raise ValueError
      | Some g =>
          if negb (in_True_False g) then Raise ValueError
          else validate_items rest
      end
  end.

Definition _validate_metrics (custom_metrics : gmap string metric_function)
  : result unit :=
  validate_items (map_to_list custom_metrics).

(** [ModelEvaluator(...)].  [now] is the reading of [time.time()];
    [registry] is the class dictionary, returned as the call leaves it. *)
Definition __init__ (metric_groups training_metric_groups : list metric_group)
    (db_engine : bool) (sort_seed : pyval)
    (custom_metrics : option (gmap string metric_function))
    (now : Q) (registry : gmap string metric_function)
  : result ModelEvaluator * gmap string metric_function :=
  let self :=
    {| metric_groups := metric_groups;
       training_metric_groups := training_metric_groups;
       sort_seed := py_or sort_seed (VNum (PyInt (Double.Qtrunc now)));
       sessionmaker := db_engine |} in
  match custom_metrics with
  | Some cm =>
      if bool_decide (cm = ∅) then (Ok self, registry)
      else match _validate_metrics cm with
           | Ok _ => (Ok self, cm ∪ registry)
           | Raise e => (Raise e, registry)
           end
  | None => (Ok self, registry)
  end.

(** The [if]/[elif] on [matrix_type.lower()] of the generator and of the
    writer has no [else]: [table_obj] stays unbound, and its use raises. *)
Definition table_obj (matrix_type : string) : result table :=
  if String.eqb (lower matrix_type) "train" then Ok TrainEvaluation
  else if String.eqb (lower matrix_type) "test" then Ok TestEvaluation
  else Raise UnboundLocalError.

(** [for x in l: evaluations = evaluations + f(x)]. *)
Fixpoint for_each {A B} (f : A -> result (list B)) (l : list A)
  : result (list B) :=
  match l with
  | [] => Ok []
  | x :: rest => e ← f x; es ← for_each f rest; Ok (e ++ es)
  end.

Section Engine.

(** Rendering of a value by [str.format]. *)
Variable format : pyval -> string.

(** [utils.sort_predictions_and_labels], which returns the two sorted
    sequences or raises. *)
Variable sort_predictions_and_labels :
  list pynum -> list pynum -> pyval -> result (list pynum * list pynum).

Definition parameter_string (full_params : dict) : string :=
  join "/" (map (fun kv => format kv.2 +:+ "_" +:+ kv.1) full_params).

Definition _generate_evaluations (self : ModelEvaluator)
    (registry : gmap string metric_function)
    (metrics : list string) (parameters : list dict)
    (threshold_config : dict)
    (predictions_proba : option (list pynum))
    (predictions_binary : list Z) (labels : list pynum)
    (matrix_type : string) : result (list Evaluation) :=
  let num_labeled_examples := Z.of_nat (length labels) in
  let num_labeled_above_threshold :=
    count_ones (map PyInt predictions_binary) in
  let num_positive_labels := count_ones labels in
  for_each (fun metric =>
    match registry !! metric with
    | Some fn =>
        for_each (fun parameter_combination =>
          let value :=
            metric_call fn predictions_proba predictions_binary labels
              parameter_combination in
          let full_params :=
            dict_update parameter_combination threshold_config in
          t ← table_obj matrix_type;
          Ok [ {| results_schema.class := t;
                  results_schema.metric := metric;
                  results_schema.parameter := parameter_string full_params;
                  results_schema.value := value;
                  results_schema.num_labeled_examples :=
                    num_labeled_examples;
                  results_schema.num_labeled_above_threshold :=
                    num_labeled_above_threshold;
                  results_schema.num_positive_labels := num_positive_labels;
                  results_schema.sort_seed := sort_seed self;
                  results_schema.model_id := None;
                  results_schema.evaluation_start_time := None;
                  results_schema.evaluation_end_time := None;
                  results_schema.as_of_date_frequency := None |} ])
          parameters
    | None =>
        (* [raise metrics.UnknownMetricError()]: here [metrics] is the
           argument, a list of names, which hides the module of that
           name, and a list has no attribute [UnknownMetricError]. *)
        Raise AttributeError
    end) metrics.

(** The writer.  The session's changes become visible at [commit], so
    the call returns the database it was given when it raises.  The
    decorator [db_retry] runs the call again on errors of the database
    connection, which the model does not have. *)
Definition _write_to_db (self : ModelEvaluator)
    (model_id evaluation_start_time evaluation_end_time : Z)
    (as_of_date_frequency : string) (evaluations : list Evaluation)
    (matrix_type : string) (db : database) : result unit * database :=
  if negb (sessionmaker self) then (Raise AttributeError, db)
  else match table_obj matrix_type with
       | Raise e => (Raise e, db)
       | Ok t =>
           let deleted :=
             results_schema.delete_by t model_id evaluation_start_time
               evaluation_end_time as_of_date_frequency db in
           (Ok tt,
            fold_left (fun session evaluation =>
              results_schema.add
                (results_schema.bind_key model_id evaluation_start_time
                   evaluation_end_time as_of_date_frequency evaluation)
                session)
              evaluations deleted)
       end.

(** The body of [for group in metrics_groups_to_compute]. *)
Definition evaluate_group (self : ModelEvaluator)
    (registry : gmap string metric_function)
    (predictions_proba predictions_proba_sorted labels_sorted : list pynum)
    (matrix_type : string) (group : metric_group)
  : result (list Evaluation) :=
  let parameters := default [[]] (group_parameters group) in
  let at_threshold (key unit_ : string) (thresh : pynum) :=
    binary ← generate_binary_at_x predictions_proba_sorted thresh unit_;
    let nan_mask := map num_isfinite labels_sorted in
    predicted_classes ← mask_select binary nan_mask;
    present_labels_sorted ← mask_select labels_sorted nan_mask;
    _generate_evaluations self registry (group_metrics group) parameters
      [(key, VNum thresh)] None predicted_classes present_labels_sorted
      matrix_type in
  full ←
    match group_thresholds group with
    | None =>
        binary ← generate_binary_at_x predictions_proba_sorted
                   (PyInt 100) "percentile";
        _generate_evaluations self registry (group_metrics group)
          parameters [] (Some predictions_proba) binary labels_sorted
          matrix_type
    | Some _ => Ok []
    end;
  pct ← for_each (at_threshold "pct" "percentile")
          (default [] (group_thresholds group ≫= percentiles));
  top ← for_each (at_threshold "abs" "top_n")
          (default [] (group_thresholds group ≫= top_n));
  Ok (full ++ pct ++ top).

Definition evaluate (self : ModelEvaluator)
    (registry : gmap string metric_function)
    (predictions_proba labels : list pynum)
    (model_id evaluation_start_time evaluation_end_time : Z)
    (as_of_date_frequency : string) (matrix_type : string)
    (db : database) : result unit * database :=
  match
    sort_predictions_and_labels predictions_proba labels (sort_seed self)
  with
  | Raise e => (Raise e, db)
  | Ok (predictions_proba_sorted, labels_sorted) =>
      let metrics_groups_to_compute :=
        if String.eqb (lower matrix_type) "train"
        then Ok (training_metric_groups self)
        else if String.eqb (lower matrix_type) "test"
        then Ok (metric_groups self)
        else Raise ValueError in
      match
        groups ← metrics_groups_to_compute;
        for_each (evaluate_group self registry predictions_proba
                    predictions_proba_sorted labels_sorted matrix_type)
          groups
      with
      | Raise e => (Raise e, db)
      | Ok evaluations =>
          _write_to_db self model_id evaluation_start_time
            evaluation_end_time as_of_date_frequency evaluations
            matrix_type db
      end
  end.

End Engine.

(** ** Sample objects *)

(** A rendering for the examples: that of [str.format] on [None],
    booleans, integers and strings. *)
Definition format_sample (v : pyval) : string :=
  match v with
  | VNone => "None"
  | VBool b => if b then "True" else "False"
  | VNum (PyInt z) => pretty z
  | VNum (PyFloat _) => "float"
  | VStr s => s
  end.

(** The co-sorter with ties kept in input order. *)
Definition sample_sort (predictions_proba labels : list pynum)
    (sort_seed : pyval) : result (list pynum * list pynum) :=
  Ok (sort_predictions_and_labels_spec (fun _ i => Z.of_nat i)
        predictions_proba labels sort_seed).

(** A co-sorter that raises [e]. *)
Definition failing_sort (e : exn) (predictions_proba labels : list pynum)
    (sort_seed : pyval) : result (list pynum * list pynum) :=
  Raise e.

(** A custom metric: the first score it is given. *)
Definition first_score : metric_function :=
  {| metric_call := fun predictions_proba _ _ _ =>
       match predictions_proba with
       | Some (x :: _) => x
       | _ => PyInt 0
       end;
     greater_is_better := Some (VBool true) |}.

(** A custom metric whose [greater_is_better] is the integer [1]. *)
Definition integer_flag_metric : metric_function :=
  {| metric_call := fun _ _ _ _ => PyInt 0;
     greater_is_better := Some (VNum (PyInt 1)) |}.

Definition quarter : pynum := PyFloat (Double.Fin (1 # 4)).
Definition three_quarters : pynum := PyFloat (Double.Fin (3 # 4)).

(** The group [{'metrics': [name]}]. *)
Definition plain_group (name : string) : metric_group :=
  {| group_metrics := [name];
     group_parameters := None;
     group_thresholds := None |}.

Definition sample_evaluator (groups : list metric_group) : ModelEvaluator :=
  {| metric_groups := groups;
     training_metric_groups := [];
     sort_seed := VNum (PyInt 1);
     sessionmaker := true |}.

Definition empty_database : database :=
  {| results_schema.train_evaluations := [];
     results_schema.test_evaluations := [] |}.

Definition sample_record : Evaluation :=
  {| results_schema.class := TestEvaluation;
     results_schema.metric := "f1";
     results_schema.parameter := "";
     results_schema.value := quarter;
     results_schema.num_labeled_examples := 2;
     results_schema.num_labeled_above_threshold := 2;
     results_schema.num_positive_labels := 1;
     results_schema.sort_seed := VNum (PyInt 1);
     results_schema.model_id := None;
     results_schema.evaluation_start_time := None;
     results_schema.evaluation_end_time := None;
     results_schema.as_of_date_frequency := None |}.

(** [len * (x_value / 100.00)] on the hardware, for machine integers. *)
Definition hardware_product (n x_value : Z) : Double.float :=
  of_prim (PrimFloat.mul (PrimFloat.of_uint63 (Uint63.of_Z n))
             (PrimFloat.div (PrimFloat.of_uint63 (Uint63.of_Z x_value))
                (PrimFloat.of_uint63 (Uint63.of_Z 100)))).

(** The same product in the model. *)
Definition model_product (n x_value : Z) : result Double.float :=
  q ← truediv (PyInt x_value) hundred;
  fmul (PyInt n) (PyFloat q).

Definition products_agree (n x_value : Z) : bool :=
  match model_product n x_value with
  | Ok f => Double.eqb f (hardware_product n x_value)
  | Raise _ => false
  end.

(** ** More sample objects *)

(** A finite number between [lo] and [hi]. *)
Definition num_between (lo hi : Z) (x : pynum) : Prop :=
  match x with
  | PyInt z => lo <= z <= hi
  | PyFloat (Double.Fin v) => (inject_Z lo <= v <= inject_Z hi)%Q
  | PyFloat _ => False
  end.

Definition sample_registry : gmap string metric_function :=
  {[ "first_score" := first_score ]}.

(** The group [{'metrics': [name], 'thresholds': {'percentiles': [50],
    'top_n': [1]}}]. *)
Definition thresholded_group (name : string) : metric_group :=
  {| group_metrics := [name];
     group_parameters := None;
     group_thresholds :=
       Some {| percentiles := Some [PyInt 50]; top_n := Some [PyInt 1] |} |}.

(** A missing label. *)
Definition unlabeled : pynum := PyFloat Double.NaN.

Definition sample_generation : result (list Evaluation) :=
  _generate_evaluations format_sample (sample_evaluator []) sample_registry
    ["first_score"; "first_score"] [[("beta", VNum (PyInt 2))]; []]
    [("abs", VNum (PyInt 3))] None [1; 1; 1; 0]
    [PyInt 1; PyInt 1; PyInt 0; PyInt 0] "Test".

(** The records of a call that returned. *)
Definition generated (r : result (list Evaluation)) : list Evaluation :=
  match r with
  | Ok evaluations => evaluations
  | Raise _ => []
  end.

(** A test table with one row under the key [(7, 0, 10, "1d")] and one
    under another key. *)
Definition populated_database : database :=
  {| results_schema.train_evaluations := [];
     results_schema.test_evaluations :=
       [results_schema.bind_key 7 0 10 "1d" sample_record;
        results_schema.bind_key 8 0 10 "1d" sample_record] |}.

(** [evaluate] on two scores, the second label missing. *)
Definition sample_run (self : ModelEvaluator) (matrix_type : string)
    (db : database) : result unit * database :=
  evaluate format_sample sample_sort self sample_registry
    [quarter; three_quarters] [PyInt 1; unlabeled] 7 0 10 "1d" matrix_type db.

(** The body of the loop of [evaluate] on the sorted sample. *)
Definition sample_group_run (group : metric_group)
  : result (list Evaluation) :=
  evaluate_group format_sample (sample_evaluator []) sample_registry
    [quarter; three_quarters] [three_quarters; quarter]
    [unlabeled; PyInt 1] "Test" group.

(** * Properties *)

(** ** Binary64 rounding *)

Module DoubleFacts.
Import Double.
Local Open Scope Q_scope.

Lemma pow2_pos k : 0 < pow2 k.
Proof. apply Qpower_0_lt. reflexivity. Qed.

Lemma pow2_add a b : pow2 (a + b) == pow2 a * pow2 b.
Proof. apply Qpower_plus. discriminate. Qed.

Lemma pow2_le a b : (a <= b)%Z -> pow2 a <= pow2 b.
Proof. intros H. apply Qpower_le_compat_l; [exact H | discriminate]. Qed.

Lemma pow2_lt a b : (a < b)%Z -> pow2 a < pow2 b.
Proof. intros H. apply Qpower_lt_compat_l; [exact H | reflexivity]. Qed.

Lemma pow2_le_inv a b : pow2 a < pow2 b -> (a < b)%Z.
Proof. intros H. apply (Qpower_lt_compat_l_inv 2); [exact H | reflexivity]. Qed.

Lemma pow2_succ a : pow2 (a + 1) == 2 * pow2 a.
Proof. rewrite pow2_add. unfold pow2 at 2. simpl. ring. Qed.

Lemma pow2_nonneg_inject k : (0 <= k)%Z -> pow2 k == inject_Z (2 ^ k).
Proof. intros H. unfold pow2. rewrite Zpower_Qpower by exact H. reflexivity. Qed.

Lemma Q_num_den (x : Q) : x * inject_Z (Zpos (Qden x)) == inject_Z (Qnum x).
Proof.
  destruct x as [n d]. unfold Qeq, Qmult, inject_Z. simpl. lia.
Qed.

Lemma Qnum_pos (x : Q) : 0 < x -> (0 < Qnum x)%Z.
Proof. destruct x as [n d]. unfold Qlt. simpl. lia. Qed.

Lemma log2_bounds_Q (n : Z) :
  (0 < n)%Z ->
  pow2 (Z.log2 n) <= inject_Z n /\ inject_Z n < pow2 (Z.log2 n + 1).
Proof.
  intros Hn. pose proof (Z.log2_spec n Hn) as [Hlo Hhi].
  pose proof (Z.log2_nonneg n) as Hnn.
  rewrite !pow2_nonneg_inject by lia.
  split.
  - rewrite <- Zle_Qle. exact Hlo.
  - rewrite <- Zlt_Qlt. replace (Z.log2 n + 1)%Z with (Z.succ (Z.log2 n)) by lia.
    exact Hhi.
Qed.

Lemma ilog2_spec (x : Q) :
  0 < x -> pow2 (ilog2 x) <= x /\ x < pow2 (ilog2 x + 1).
Proof.
  intros Hx.
  pose proof (Qnum_pos x Hx) as Hn.
  pose proof (log2_bounds_Q (Qnum x) Hn) as [Hn1 Hn2].
  pose proof (log2_bounds_Q (Zpos (Qden x)) eq_refl) as [Hd1 Hd2].
  pose proof (Q_num_den x) as Hxd.
  set (a := Z.log2 (Qnum x)) in *.
  set (b := Z.log2 (Z.pos (Qden x))) in *.
  set (d := inject_Z (Z.pos (Qden x))) in *.
  set (n := inject_Z (Qnum x)) in *.
  assert (Hb : 0 < pow2 b) by apply pow2_pos.
  assert (Hb1 : 0 < pow2 (b + 1)) by apply pow2_pos.
  assert (Hupper : x < pow2 (a - b + 1)).
  { assert (E : pow2 (a - b + 1) * pow2 b == pow2 (a + 1)).
    { rewrite <- pow2_add. replace (a - b + 1 + b)%Z with (a + 1)%Z by lia.
      reflexivity. }
    apply Qmult_lt_r with (z := pow2 b); [exact Hb|].
    rewrite E. apply Qle_lt_trans with (y := x * d).
    - apply Qmult_le_l; [exact Hx | exact Hd1].
    - rewrite Hxd. exact Hn2. }
  assert (Hlower : pow2 (a - b - 1) <= x).
  { assert (E : pow2 (a - b - 1) * pow2 (b + 1) == pow2 a).
    { rewrite <- pow2_add. replace (a - b - 1 + (b + 1))%Z with a by lia.
      reflexivity. }
    apply Qmult_le_r with (z := pow2 (b + 1)); [exact Hb1|].
    rewrite E. apply Qle_trans with (y := n); [exact Hn1|].
    rewrite <- Hxd. apply Qmult_le_l; [exact Hx|]. apply Qlt_le_weak. exact Hd2. }
  unfold ilog2. fold a. fold b.
  destruct (Qle_bool (pow2 (a - b)) x) eqn:E.
  - apply Qle_bool_iff in E. split; assumption.
  - split; [exact Hlower|].
    replace (a - b - 1 + 1)%Z with (a - b)%Z by lia.
    apply Qnot_le_lt. intros H. apply Qle_bool_iff in H. congruence.
Qed.

Lemma ilog2_unique (x : Q) (k : Z) :
  pow2 k <= x -> x < pow2 (k + 1) -> ilog2 x = k.
Proof.
  intros H1 H2.
  assert (Hx : 0 < x) by (eapply Qlt_le_trans; [apply pow2_pos | exact H1]).
  destruct (ilog2_spec x Hx) as [H3 H4].
  assert (ilog2 x < k + 1)%Z.
  { apply pow2_le_inv. eapply Qle_lt_trans; eassumption. }
  assert (k < ilog2 x + 1)%Z.
  { apply pow2_le_inv. eapply Qle_lt_trans; eassumption. }
  lia.
Qed.

Lemma ilog2_mono (x y : Q) : 0 < x -> x <= y -> (ilog2 x <= ilog2 y)%Z.
Proof.
  intros Hx Hxy.
  assert (Hy : 0 < y) by (eapply Qlt_le_trans; eassumption).
  destruct (ilog2_spec x Hx) as [H1 _].
  destruct (ilog2_spec y Hy) as [_ H2].
  assert (ilog2 x < ilog2 y + 1)%Z; [|lia].
  apply pow2_le_inv. eapply Qle_lt_trans; [exact H1|].
  eapply Qle_lt_trans; eassumption.
Qed.

Ltac compare_to_order :=
  repeat match goal with
  | H : (_ ?= _) = Eq |- _ => apply Qeq_alt in H
  | H : (_ ?= _) = Lt |- _ => apply Qlt_alt in H
  | H : (_ ?= _) = Gt |- _ => apply Qgt_alt in H
  end.

Lemma rne_floor (s : Q) : (Qfloor s <= rne s <= Qfloor s + 1)%Z.
Proof.
  unfold rne. destruct (s - inject_Z (Qfloor s) ?= 1 # 2);
    [destruct (Z.even (Qfloor s))|..]; lia.
Qed.

Lemma rne_inject_Z (z : Z) : rne (inject_Z z) = z.
Proof.
  unfold rne. rewrite Qfloor_Z.
  assert (E : (inject_Z z - inject_Z z ?= 1 # 2) = Lt).
  { apply Qlt_alt. unfold Qminus. rewrite Qplus_opp_r. reflexivity. }
  rewrite E. reflexivity.
Qed.

Lemma rne_mono (s t : Q) : s <= t -> (rne s <= rne t)%Z.
Proof.
  intros Hst.
  pose proof (Qfloor_resp_le s t Hst) as Hf.
  destruct (Z.eq_dec (Qfloor s) (Qfloor t)) as [E | NE].
  - unfold rne. rewrite <- E.
    destruct (s - inject_Z (Qfloor s) ?= 1 # 2) eqn:Cs;
    destruct (t - inject_Z (Qfloor s) ?= 1 # 2) eqn:Ct;
    try (destruct (Z.even (Qfloor s))); try lia;
    compare_to_order; exfalso; lra.
  - pose proof (rne_floor s). pose proof (rne_floor t). lia.
Qed.

Lemma rne_comp (s t : Q) : s == t -> rne s = rne t.
Proof.
  intros E. apply Z.le_antisymm; apply rne_mono; rewrite E; apply Qle_refl.
Qed.

Lemma rne_ge (s : Q) (k : Z) : inject_Z k <= s -> (k <= rne s)%Z.
Proof. intros H. rewrite <- (rne_inject_Z k). apply rne_mono. exact H. Qed.

Lemma rne_le (s : Q) (k : Z) : s <= inject_Z k -> (rne s <= k)%Z.
Proof. intros H. rewrite <- (rne_inject_Z k). apply rne_mono. exact H. Qed.

Lemma ulp_exp_mono (x y : Q) : 0 < x -> x <= y -> (ulp_exp x <= ulp_exp y)%Z.
Proof.
  intros Hx Hxy. unfold ulp_exp.
  pose proof (ilog2_mono x y Hx Hxy). lia.
Qed.

Lemma scaled_mul (x : Q) (e : Z) : x / pow2 e * pow2 e == x.
Proof.
  field. pose proof (pow2_pos e) as H. intros E. rewrite E in H.
  apply (Qlt_irrefl 0 H).
Qed.

Lemma scaled_mono (x y : Q) (e : Z) : x <= y -> x / pow2 e <= y / pow2 e.
Proof.
  intros H. apply Qmult_le_r with (z := pow2 e); [apply pow2_pos|].
  rewrite !scaled_mul. exact H.
Qed.

Lemma pow2_split (e k : Z) :
  (0 <= k)%Z -> pow2 (e + k) == inject_Z (2 ^ k) * pow2 e.
Proof.
  intros Hk. rewrite Z.add_comm, pow2_add, (pow2_nonneg_inject k Hk).
  reflexivity.
Qed.

Lemma round_pos_nonneg (x : Q) : 0 < x -> 0 <= round_pos x.
Proof.
  intros Hx. unfold round_pos.
  apply Qmult_le_0_compat; [| apply Qlt_le_weak, pow2_pos].
  change 0 with (inject_Z 0). rewrite <- Zle_Qle. apply rne_ge.
  apply Qmult_le_r with (z := pow2 (ulp_exp x)); [apply pow2_pos|].
  rewrite scaled_mul. simpl. rewrite Qmult_0_l. apply Qlt_le_weak, Hx.
Qed.

Lemma round_pos_upper (x : Q) :
  0 < x -> round_pos x <= pow2 (ulp_exp x + prec).
Proof.
  intros Hx. unfold round_pos. set (e := ulp_exp x).
  rewrite (pow2_split e prec) by (unfold prec; lia).
  apply Qmult_le_compat_r; [| apply Qlt_le_weak, pow2_pos].
  rewrite <- Zle_Qle. apply rne_le.
  apply Qmult_le_r with (z := pow2 e); [apply pow2_pos|].
  rewrite scaled_mul, <- pow2_split by (unfold prec; lia).
  destruct (ilog2_spec x Hx) as [_ H].
  apply Qlt_le_weak. eapply Qlt_le_trans; [exact H|].
  apply pow2_le. unfold e, ulp_exp, prec. lia.
Qed.

Lemma round_pos_lower (x : Q) :
  0 < x -> ulp_exp x = (ilog2 x - (prec - 1))%Z ->
  pow2 (ulp_exp x + (prec - 1)) <= round_pos x.
Proof.
  intros Hx He. unfold round_pos. set (e := ulp_exp x) in *.
  rewrite (pow2_split e (prec - 1)) by (unfold prec; lia).
  apply Qmult_le_compat_r; [| apply Qlt_le_weak, pow2_pos].
  rewrite <- Zle_Qle. apply rne_ge.
  apply Qmult_le_r with (z := pow2 e); [apply pow2_pos|].
  rewrite scaled_mul, <- pow2_split by (unfold prec; lia).
  destruct (ilog2_spec x Hx) as [H _].
  replace (e + (prec - 1))%Z with (ilog2 x) by lia. exact H.
Qed.

Lemma round_pos_mono (x y : Q) :
  0 < x -> x <= y -> round_pos x <= round_pos y.
Proof.
  intros Hx Hxy.
  assert (Hy : 0 < y) by (eapply Qlt_le_trans; eassumption).
  pose proof (ulp_exp_mono x y Hx Hxy) as He.
  destruct (Z.eq_dec (ulp_exp x) (ulp_exp y)) as [E | NE].
  - unfold round_pos. rewrite E.
    apply Qmult_le_compat_r; [| apply Qlt_le_weak, pow2_pos].
    rewrite <- Zle_Qle. apply rne_mono, scaled_mono, Hxy.
  - eapply Qle_trans; [apply round_pos_upper, Hx|].
    eapply Qle_trans; [| apply round_pos_lower; [exact Hy|]].
    + apply pow2_le. unfold prec. lia.
    + unfold ulp_exp in *. lia.
Qed.

Lemma round_pos_comp (x y : Q) : 0 < x -> x == y -> round_pos x == round_pos y.
Proof.
  intros Hx E.
  assert (Hy : 0 < y) by (rewrite <- E; exact Hx).
  apply Qle_antisym; apply round_pos_mono; try assumption;
    rewrite E; apply Qle_refl.
Qed.

Lemma round_of_pos (x : Q) :
  0 < x ->
  round x = if overflows (round_pos x) then Inf false else Fin (round_pos x).
Proof.
  intros H. unfold round.
  assert (E : (x ?= 0) = Gt) by (apply Qgt_alt; exact H).
  rewrite E. reflexivity.
Qed.

Lemma round_of_neg (x : Q) :
  x < 0 ->
  round x = if overflows (round_pos (- x)) then Inf true
            else Fin (- round_pos (- x)).
Proof.
  intros H. unfold round.
  assert (E : (x ?= 0) = Lt) by (apply Qlt_alt; exact H).
  rewrite E. reflexivity.
Qed.

Lemma round_of_zero (x : Q) : x == 0 -> round x = Fin 0.
Proof.
  intros H. unfold round.
  assert (E : (x ?= 0) = Eq) by (apply Qeq_alt; exact H).
  rewrite E. reflexivity.
Qed.

Lemma overflows_mono (r s : Q) :
  r <= s -> overflows r = true -> overflows s = true.
Proof.
  unfold overflows. intros H Hr. apply Qle_bool_iff in Hr.
  apply Qle_bool_iff. eapply Qle_trans; eassumption.
Qed.

Lemma round_mono (x y : Q) : x <= y -> fle (round x) (round y).
Proof.
  intros Hxy.
  destruct (Q_dec x 0) as [[Hx | Hx] | Hx];
  destruct (Q_dec y 0) as [[Hy | Hy] | Hy];
    try (exfalso; lra).
  - (* both negative *)
    rewrite (round_of_neg x Hx), (round_of_neg y Hy).
    assert (H : round_pos (- y) <= round_pos (- x))
      by (apply round_pos_mono; lra).
    destruct (overflows (round_pos (- x))) eqn:Ox; simpl.
    + destruct (overflows (round_pos (- y))); exact I.
    + destruct (overflows (round_pos (- y))) eqn:Oy; simpl.
      * rewrite (overflows_mono _ _ H Oy) in Ox. discriminate.
      * lra.
  - rewrite (round_of_neg x Hx), (round_of_pos y Hy).
    pose proof (round_pos_nonneg (- x)). pose proof (round_pos_nonneg y).
    destruct (overflows (round_pos (- x))), (overflows (round_pos y));
      simpl; try exact I. lra.
  - rewrite (round_of_neg x Hx), (round_of_zero y Hy).
    pose proof (round_pos_nonneg (- x)).
    destruct (overflows (round_pos (- x))); simpl; try exact I. lra.
  - rewrite (round_of_pos x Hx), (round_of_pos y Hy).
    assert (H : round_pos x <= round_pos y) by (apply round_pos_mono; lra).
    destruct (overflows (round_pos x)) eqn:Ox; simpl.
    + rewrite (overflows_mono _ _ H Ox). exact I.
    + destruct (overflows (round_pos y)); simpl; [exact I | exact H].
  - rewrite (round_of_zero x Hx), (round_of_pos y Hy).
    pose proof (round_pos_nonneg y).
    destruct (overflows (round_pos y)); simpl; try exact I. lra.
  - rewrite (round_of_zero x Hx), (round_of_zero y Hy). simpl. lra.
Qed.

Lemma round_pos_representable (x : Q) (m : Z) :
  x == inject_Z m * pow2 (ulp_exp x) -> round_pos x == x.
Proof.
  intros E. unfold round_pos. set (e := ulp_exp x) in *.
  assert (R : rne (x / pow2 e) = m).
  { rewrite <- (rne_inject_Z m). apply rne_comp.
    apply Qmult_inj_r with (z := pow2 e).
    - pose proof (pow2_pos e) as H. intros Z. rewrite Z in H.
      apply (Qlt_irrefl 0 H).
    - rewrite scaled_mul. exact E. }
  rewrite R. symmetry. exact E.
Qed.

Lemma ilog2_inject_Z (x : Q) (n : Z) :
  (0 < n)%Z -> x == inject_Z n -> ilog2 x = Z.log2 n.
Proof.
  intros Hn E. destruct (log2_bounds_Q n Hn) as [H1 H2].
  apply ilog2_unique; rewrite E; assumption.
Qed.

Lemma round_pos_small_int (x : Q) (n : Z) :
  (0 < n <= 2 ^ prec)%Z -> x == inject_Z n -> round_pos x == inject_Z n.
Proof.
  intros Hn E. rewrite <- E.
  pose proof (ilog2_inject_Z x n ltac:(lia) E) as Hl.
  pose proof (Z.log2_nonneg n) as Hnn.
  assert (Hle : (Z.log2 n <= prec)%Z).
  { destruct (Z.eq_dec n (2 ^ prec)%Z) as [-> | NE].
    - rewrite Z.log2_pow2; unfold prec; lia.
    - assert (Z.log2 n < prec)%Z; [|lia].
      apply Z.log2_lt_pow2; lia. }
  assert (He : ulp_exp x = (Z.log2 n - (prec - 1))%Z).
  { unfold ulp_exp. rewrite Hl. unfold prec, emin. lia. }
  destruct (Z_le_gt_dec (ulp_exp x) 0%Z) as [Hneg | Hpos].
  - apply round_pos_representable with (m := (n * 2 ^ (- ulp_exp x))%Z).
    rewrite inject_Z_mult, <- pow2_nonneg_inject by lia.
    rewrite <- Qmult_assoc, <- pow2_add.
    replace (- ulp_exp x + ulp_exp x)%Z with 0%Z by lia.
    rewrite E. unfold pow2. simpl. ring.
  - assert (Hn53 : n = (2 ^ prec)%Z).
    { assert (Z.log2 n = prec) by lia.
      pose proof (Z.log2_spec n ltac:(lia)) as [Hlo _]. 
      rewrite H in Hlo. lia. }
    apply round_pos_representable with (m := (2 ^ (prec - 1))%Z).
    rewrite He, E, Hn53. rewrite Z.log2_pow2 by (unfold prec; lia).
    vm_compute. reflexivity.
Qed.

Lemma round_small_int (x : Q) (n : Z) :
  (0 <= n <= 2 ^ prec)%Z -> x == inject_Z n ->
  exists v, round x = Fin v /\ v == inject_Z n.
Proof.
  intros Hn E.
  destruct (Z.eq_dec n 0%Z) as [-> | NZ].
  - exists 0. split; [apply round_of_zero; exact E | reflexivity].
  - assert (Hx : 0 < x).
    { rewrite E. change 0 with (inject_Z 0). rewrite <- Zlt_Qlt. lia. }
    pose proof (round_pos_small_int x n ltac:(lia) E) as R.
    exists (round_pos x). split; [| exact R].
    rewrite (round_of_pos x Hx).
    assert (O : overflows (round_pos x) = false).
    { unfold overflows. destruct (Qle_bool (pow2 emax) (round_pos x)) eqn:B;
        [| reflexivity].
      apply Qle_bool_iff in B. rewrite R in B.
      assert (inject_Z n <= pow2 prec).
      { rewrite pow2_nonneg_inject by (unfold prec; lia).
        rewrite <- Zle_Qle. lia. }
      pose proof (pow2_lt prec emax ltac:(unfold prec, emax; lia)).
      exfalso. lra. }
    rewrite O. reflexivity.
Qed.

Lemma Qle_bool_false (x y : Q) : Qle_bool x y = false <-> y < x.
Proof.
  split; intros H.
  - apply Qnot_le_lt. intros L. apply Qle_bool_iff in L. congruence.
  - destruct (Qle_bool x y) eqn:B; [| reflexivity].
    apply Qle_bool_iff in B. exfalso. lra.
Qed.

Lemma Qtrunc_inject_Z (v : Q) (n : Z) : v == inject_Z n -> Qtrunc v = n.
Proof.
  intros E. unfold Qtrunc.
  rewrite (Qfloor_comp v (inject_Z n) E), (Qceiling_comp v (inject_Z n) E).
  rewrite Qfloor_Z, Qceiling_Z. destruct (Qle_bool 0 v); reflexivity.
Qed.

Lemma Qtrunc_mono (v w : Q) : v <= w -> (Qtrunc v <= Qtrunc w)%Z.
Proof.
  intros H. unfold Qtrunc.
  destruct (Qle_bool 0 v) eqn:Bv; destruct (Qle_bool 0 w) eqn:Bw.
  - apply Qfloor_resp_le, H.
  - apply Qle_bool_iff in Bv. apply Qle_bool_false in Bw. exfalso. lra.
  - apply Qle_bool_false in Bv. apply Qle_bool_iff in Bw.
    apply Z.le_trans with (m := 0%Z).
    + rewrite <- Qceiling_Z. apply Qceiling_resp_le.
      apply Qlt_le_weak. exact Bv.
    + rewrite <- (Qfloor_Z 0) at 1. apply Qfloor_resp_le. exact Bw.
  - apply Qceiling_resp_le, H.
Qed.

Lemma round_nonneg (x v : Q) : 0 <= x -> round x = Fin v -> 0 <= v.
Proof.
  intros Hx E. pose proof (round_mono 0 x Hx) as H.
  rewrite E in H. exact H.
Qed.

Lemma round_comp (x y v : Q) :
  x == y -> round x = Fin v -> exists w, round y = Fin w /\ v == w.
Proof.
  intros E R.
  assert (H1 : x <= y) by (rewrite E; apply Qle_refl).
  assert (H2 : y <= x) by (rewrite E; apply Qle_refl).
  pose proof (round_mono x y H1) as L1.
  pose proof (round_mono y x H2) as L2.
  rewrite R in L1, L2. destruct (round y) as [w | [|] |]; simpl in *;
    try contradiction.
  exists w. split; [reflexivity | apply Qle_antisym; assumption].
Qed.

End DoubleFacts.

(** ** The model of rounding against the hardware *)

(** On 1, 4, 10, 100, 1000 and 12345 predictions and the integer
    percentiles from 0 to 100, the product that the model computes is the
    one that the hardware computes. *)
Lemma products_agree_on_samples :
  forallb (fun n => forallb (products_agree n) (seqZ 0 101))
    [1; 4; 10; 100; 1000; 12345] = true.
Proof. vm_compute. reflexivity. Qed.

(** ** The binarizer *)

Tactic Notation "bind_step" := cbn [mbind result_bind].
Tactic Notation "bind_step" "in" hyp(H) := cbn [mbind result_bind] in H.

Module BinarizerFacts.
Import Double DoubleFacts.

(** ** The error monad *)

Lemma bind_Ok {A B} (r : result A) (k : A -> result B) (b : B) :
  r ≫= k = Ok b -> exists a, r = Ok a /\ k a = Ok b.
Proof. destruct r as [a | e]; [eauto | discriminate]. Qed.

(** ** [generate_binary_at_x] *)

Section Binary.

Lemma generate_binary_at_x_Ok {A} (l : list A) x u b :
  generate_binary_at_x l x u = Ok b <->
  exists c, cutoff_index (length l) x u = Ok c
            /\ b = map (mark c) (range (length l)).
Proof.
  unfold generate_binary_at_x. split.
  - intros H. apply bind_Ok in H as (c & Hc & E). exists c.
    split; [exact Hc | congruence].
  - intros (c & Hc & ->). rewrite Hc. reflexivity.
Qed.

Lemma range_lookup n (i : nat) : (i < n)%nat -> range n !! i = Some (Z.of_nat i).
Proof.
  intros H. unfold range. change (map Z.of_nat (seq 0 n)) with (Z.of_nat <$> seq 0 n).
  rewrite list_lookup_fmap, lookup_seq_lt by exact H. reflexivity.
Qed.

Lemma marks_length c n : length (map (mark c) (range n)) = n.
Proof. unfold range. rewrite !length_map, length_seq. reflexivity. Qed.

Lemma marks_lookup c n (i : nat) :
  (i < n)%nat -> map (mark c) (range n) !! i = Some (mark c (Z.of_nat i)).
Proof.
  intros H. change (map (mark c) (range n)) with (mark c <$> range n).
  rewrite list_lookup_fmap, range_lookup by exact H. reflexivity.
Qed.

Lemma marks_prefix (k : Z) (n : nat) :
  map (mark (PyInt k)) (range n)
  = replicate (Nat.min (Z.to_nat k) n) 1
    ++ replicate (n - Nat.min (Z.to_nat k) n) 0.
Proof.
  apply list_eq. intros i.
  destruct (decide (i < n)%nat) as [Hi | Hi].
  - rewrite marks_lookup by exact Hi. unfold mark. simpl.
    destruct (Z.ltb_spec (Z.of_nat i) k) as [L | L].
    + rewrite lookup_app_l by (rewrite length_replicate; lia).
      symmetry. apply lookup_replicate_2. lia.
    + rewrite lookup_app_r by (rewrite length_replicate; lia).
      symmetry. rewrite length_replicate. apply lookup_replicate_2. lia.
  - rewrite !lookup_ge_None_2; [reflexivity | |].
    + rewrite length_app, !length_replicate. lia.
    + rewrite marks_length. lia.
Qed.

End Binary.

Section Cutoff.
Local Open Scope Q_scope.


Lemma of_int_small (n : Z) :
  (0 <= n <= 2 ^ prec)%Z ->
  exists v, of_int n = Ok (Fin v) /\ v == inject_Z n.
Proof.
  intros Hn.
  destruct (round_small_int (inject_Z n) n Hn (Qeq_refl _)) as (v & R & E).
  exists v. unfold of_int. rewrite R. split; [reflexivity | exact E].
Qed.

Lemma percent_100 :
  exists v, truediv (PyInt 100) hundred = Ok (Fin v) /\ v == 1.
Proof. eexists. split; vm_compute; reflexivity. Qed.

Lemma cutoff_index_top_n n x u :
  String.eqb u "percentile" = false -> cutoff_index n x u = Ok x.
Proof. intros H. unfold cutoff_index. rewrite H. reflexivity. Qed.

Lemma cutoff_index_100 (n : nat) :
  (Z.of_nat n <= 2 ^ prec)%Z ->
  cutoff_index n (PyInt 100) "percentile" = Ok (PyInt (Z.of_nat n)).
Proof.
  intros Hn. unfold cutoff_index.
  change (String.eqb "percentile" "percentile") with true. cbv iota.
  destruct percent_100 as (v & -> & Ev). bind_step.
  unfold fmul, to_float.
  destruct (of_int_small (Z.of_nat n) ltac:(lia)) as (vn & -> & En).
  bind_step. unfold mul.
  assert (E : vn * v == inject_Z (Z.of_nat n)) by (rewrite En, Ev; ring).
  destruct (round_small_int (vn * v) (Z.of_nat n) ltac:(lia) E)
    as (w & -> & Ew).
  bind_step. unfold to_int. bind_step.
  rewrite (Qtrunc_inject_Z w _ Ew). reflexivity.
Qed.

End Cutoff.

Section Monotone.
Local Open Scope Q_scope.

Lemma round_not_NaN (x : Q) : round x <> NaN.
Proof.
  unfold round. destruct (x ?= 0);
    [| destruct (overflows _) | destruct (overflows _)]; discriminate.
Qed.

Lemma fle_Inf_l b : b <> NaN -> fle (Inf true) b.
Proof. destruct b as [? | [|] |]; simpl; congruence || trivial. Qed.

Lemma fle_Inf_r a : a <> NaN -> fle a (Inf false).
Proof. destruct a as [? | [|] |]; simpl; congruence || trivial. Qed.

Lemma of_int_Ok z a :
  of_int z = Ok a -> exists v, a = Fin v /\ round (inject_Z z) = Fin v.
Proof.
  unfold of_int. destruct (round (inject_Z z)) as [v | s |] eqn:R;
    intros H; inversion H. eauto.
Qed.

Lemma is_double_round v :
  is_double (Fin v) = true -> exists w, round v = Fin w /\ w == v.
Proof.
  unfold is_double, eqb. destruct (round v) as [w | s |]; try discriminate.
  intros H. apply Qeq_bool_iff in H. eauto.
Qed.

Lemma lt_fle f g : lt f g = true -> fle f g.
Proof.
  destruct f as [x | [|] |], g as [y | [|] |]; simpl; try discriminate;
    try trivial.
  intros H. apply negb_true_iff, Qle_bool_false in H.
  apply Qlt_le_weak, H.
Qed.

Lemma to_float_mono p1 p2 a1 a2 :
  well_formed p1 = true -> well_formed p2 = true ->
  py_lt p1 p2 = true ->
  to_float p1 = Ok a1 -> to_float p2 = Ok a2 -> fle a1 a2.
Proof.
  destruct p1 as [z1 | f], p2 as [z2 | g]; simpl; intros W1 W2 L E1 E2.
  - apply of_int_Ok in E1 as (v1 & -> & R1).
    apply of_int_Ok in E2 as (v2 & -> & R2).
    rewrite <- R1, <- R2. apply round_mono. rewrite <- Zle_Qle.
    apply Z.ltb_lt in L. lia.
  - apply of_int_Ok in E1 as (v1 & -> & R1). inversion E2; subst g.
    destruct a2 as [v | [|] |]; simpl in L; try discriminate; [| exact I].
    apply negb_true_iff, Qle_bool_false in L.
    destruct (is_double_round v W2) as (w & Rw & Ew).
    pose proof (round_mono (inject_Z z1) v (Qlt_le_weak _ _ L)) as M.
    rewrite R1, Rw in M. simpl in M |- *. lra.
  - apply of_int_Ok in E2 as (v2 & -> & R2). inversion E1; subst f.
    destruct a1 as [v | [|] |]; simpl in L; try discriminate; [| exact I].
    apply negb_true_iff, Qle_bool_false in L.
    destruct (is_double_round v W1) as (w & Rw & Ew).
    pose proof (round_mono v (inject_Z z2) (Qlt_le_weak _ _ L)) as M.
    rewrite R2, Rw in M. simpl in M |- *. lra.
  - inversion E1; inversion E2; subst. apply lt_fle, L.
Qed.

Lemma div_pos_mono a1 a2 y q1 q2 :
  0 < y -> fle a1 a2 ->
  div a1 (Fin y) = Ok q1 -> div a2 (Fin y) = Ok q2 -> fle q1 q2.
Proof.
  intros Hy L. unfold div.
  assert (Z : is_zero y = false).
  { unfold is_zero. destruct (Qeq_bool y 0) eqn:B; [| reflexivity].
    apply Qeq_bool_iff in B. exfalso. lra. }
  assert (N : is_neg y = false).
  { unfold is_neg. apply negb_false_iff, Qle_bool_iff. lra. }
  rewrite Z, N.
  destruct a1 as [x1 | [|] |], a2 as [x2 | [|] |]; simpl in L;
    try contradiction; intros E1 E2; inversion E1; inversion E2; subst;
    simpl; try exact I.
  - apply round_mono. apply Qmult_le_compat_r; [exact L|].
    apply Qlt_le_weak, Qinv_lt_0_compat, Hy.
  - apply fle_Inf_r, round_not_NaN.
  - apply fle_Inf_l, round_not_NaN.
Qed.

Lemma mul_nonneg_mono va q1 q2 c1 c2 :
  0 <= va -> fle q1 q2 ->
  mul (Fin va) q1 = Fin c1 -> mul (Fin va) q2 = Fin c2 -> c1 <= c2.
Proof.
  intros Hv L E1 E2.
  destruct q1 as [x1 | s1 |], q2 as [x2 | s2 |]; simpl in *;
    try contradiction;
    try (destruct (is_zero va); discriminate).
  pose proof (round_mono (va * x1) (va * x2)) as M.
  rewrite E1, E2 in M. apply M.
  rewrite !(Qmult_comm va). apply Qmult_le_compat_r; assumption.
Qed.

Lemma cutoff_index_percentile_mono n p1 p2 c1 c2 :
  well_formed p1 = true -> well_formed p2 = true ->
  py_lt p1 p2 = true ->
  cutoff_index n p1 "percentile" = Ok c1 ->
  cutoff_index n p2 "percentile" = Ok c2 ->
  exists k1 k2, c1 = PyInt k1 /\ c2 = PyInt k2 /\ (k1 <= k2)%Z.
Proof.
  intros W1 W2 L. unfold cutoff_index.
  change (String.eqb "percentile" "percentile") with true. cbv iota.
  unfold truediv, fmul. change (to_float hundred) with (Ok (Fin 100)).
  intros E1 E2.
  apply bind_Ok in E1 as (q1 & Q1 & E1). apply bind_Ok in Q1 as (a1 & A1 & Q1).
  apply bind_Ok in E2 as (q2 & Q2 & E2). apply bind_Ok in Q2 as (a2 & A2 & Q2).
  cbn [mbind result_bind] in Q1. cbn [mbind result_bind] in Q2.
  apply bind_Ok in E1 as (t1 & T1 & E1). apply bind_Ok in T1 as (an & AN & T1).
  apply bind_Ok in E2 as (t2 & T2 & E2). apply bind_Ok in T2 as (an' & AN' & T2).
  rewrite AN in AN'. inversion AN'; subst an'. clear AN'.
  cbn [to_float] in T1, T2. cbn [mbind result_bind] in T1. cbn [mbind result_bind] in T2.
  inversion T1 as [M1]. inversion T2 as [M2]. clear T1 T2.
  apply bind_Ok in E1 as (k1 & K1 & E1). apply bind_Ok in E2 as (k2 & K2 & E2).
  inversion E1; inversion E2; subst c1 c2. exists k1, k2.
  split; [reflexivity | split; [reflexivity |]].
  pose proof (to_float_mono p1 p2 a1 a2 W1 W2 L A1 A2) as La.
  pose proof (div_pos_mono a1 a2 100 q1 q2 ltac:(reflexivity) La Q1 Q2) as Lq.
  simpl in AN. apply of_int_Ok in AN as (vn & -> & Rn).
  assert (Hn : 0 <= vn).
  { apply (round_nonneg (inject_Z (Z.of_nat n))); [| exact Rn].
    change 0 with (inject_Z 0). rewrite <- Zle_Qle. lia. }
  destruct t1 as [w1 | |]; try discriminate.
  destruct t2 as [w2 | |]; try discriminate.
  simpl in K1, K2. inversion K1; inversion K2; subst.
  apply Qtrunc_mono.
  apply (mul_nonneg_mono vn q1 q2 w1 w2 Hn Lq); congruence.
Qed.

End Monotone.

Section Bounded.
Local Open Scope Q_scope.

Lemma ilog2_pow2 (k : Z) : ilog2 (pow2 k) = k.
Proof.
  apply ilog2_unique; [apply Qle_refl | apply pow2_lt; lia].
Qed.

Lemma round_pos_pow2 (k : Z) : (emin <= k)%Z -> round_pos (pow2 k) == pow2 k.
Proof.
  intros Hk.
  assert (He : (ulp_exp (pow2 k) <= k)%Z).
  { unfold ulp_exp. rewrite ilog2_pow2. unfold prec. lia. }
  apply round_pos_representable with (m := (2 ^ (k - ulp_exp (pow2 k)))%Z).
  rewrite <- pow2_split by lia. 
  replace (ulp_exp (pow2 k) + (k - ulp_exp (pow2 k)))%Z with k by lia.
  reflexivity.
Qed.

Lemma overflows_false (r : Q) (k : Z) :
  (k < emax)%Z -> r <= pow2 k -> overflows r = false.
Proof.
  intros Hk Hr. unfold overflows. apply Qle_bool_false.
  eapply Qle_lt_trans; [exact Hr | apply pow2_lt, Hk].
Qed.

Lemma round_bounded (x : Q) (k : Z) :
  (emin <= k < emax)%Z -> - pow2 k <= x <= pow2 k ->
  exists v, round x = Fin v /\ - pow2 k <= v <= pow2 k.
Proof.
  intros Hk [Hlo Hhi]. pose proof (pow2_pos k) as Hp.
  pose proof (round_pos_pow2 k ltac:(lia)) as Rp.
  destruct (Q_dec x 0) as [[Hx | Hx] | Hx].
  - rewrite (round_of_neg x Hx).
    assert (B : round_pos (- x) <= pow2 k).
    { rewrite <- Rp. apply round_pos_mono; lra. }
    pose proof (round_pos_nonneg (- x) ltac:(lra)).
    rewrite (overflows_false _ k) by (lia || exact B).
    eexists. split; [reflexivity | lra].
  - rewrite (round_of_pos x Hx).
    assert (B : round_pos x <= pow2 k).
    { rewrite <- Rp. apply round_pos_mono; lra. }
    pose proof (round_pos_nonneg x Hx).
    rewrite (overflows_false _ k) by (lia || exact B).
    eexists. split; [reflexivity | lra].
  - rewrite (round_of_zero x Hx). exists 0. split; [reflexivity | lra].
Qed.

Lemma to_float_bounded p k :
  (0 <= k < emax)%Z -> magnitude_le p k ->
  exists v, to_float p = Ok (Fin v) /\ - pow2 k <= v <= pow2 k.
Proof.
  intros Hk. destruct p as [z | [v | s |]]; simpl; try contradiction.
  - intros [Hlo Hhi]. unfold of_int.
    destruct (round_bounded (inject_Z z) k) as (v & -> & Hv).
    + unfold emin. lia.
    + rewrite pow2_nonneg_inject by lia. rewrite <- inject_Z_opp.
      rewrite <- !Zle_Qle. lia.
    + eauto.
  - eauto.
Qed.

Lemma cutoff_index_percentile_total n p :
  (Z.of_nat n <= 2 ^ 63)%Z -> magnitude_le p 900 ->
  exists k, cutoff_index n p "percentile" = Ok (PyInt k).
Proof.
  intros Hn Hp. unfold cutoff_index.
  change (String.eqb "percentile" "percentile") with true. cbv iota.
  unfold truediv, fmul. change (to_float hundred) with (Ok (Fin 100)).
  destruct (to_float_bounded p 900 ltac:(unfold emax; lia) Hp)
    as (a & -> & Ha).
  cbn [mbind result_bind to_float div].
  change (is_zero 100) with false. cbv iota.
  pose proof (pow2_pos 900) as P900. pose proof (pow2_pos 63) as P63.
  destruct (round_bounded (a / 100) 900) as (q & -> & Hq).
  { unfold emin, emax. lia. }
  { unfold Qdiv. change (/ 100) with (1 # 100). lra. }
  destruct (to_float_bounded (PyInt (Z.of_nat n)) 63) as (vn & Rn & Hvn).
  { unfold emax. lia. }
  { simpl. lia. }
  simpl in Rn. rewrite Rn. cbn [mbind result_bind mul].
  assert (Hvn0 : 0 <= vn).
  { apply of_int_Ok in Rn as (v' & E & R). inversion E; subst v'.
    apply (round_nonneg (inject_Z (Z.of_nat n))); [| exact R].
    change 0 with (inject_Z 0). rewrite <- Zle_Qle. lia. }
  destruct (round_bounded (vn * q) 963) as (w & -> & Hw).
  { unfold emin, emax. lia. }
  { assert (E : pow2 963 == pow2 63 * pow2 900).
    { rewrite <- pow2_add. reflexivity. }
    rewrite E. split; nra. }
  cbn [mbind result_bind to_int]. eauto.
Qed.

End Bounded.

End BinarizerFacts.

Section BinarizerClaims.
Import BinarizerFacts.
Context {A : Type}.
Implicit Types (l : list A) (b : list Z) (i : nat).

Lemma marks_lookup_1 c n i :
  map (mark c) (range n) !! i = Some 1 <->
  (i < n)%nat /\ py_lt (PyInt (Z.of_nat i)) c = true.
Proof.
  destruct (decide (i < n)%nat) as [Hi | Hi].
  - rewrite marks_lookup by exact Hi. unfold mark.
    destruct (py_lt (PyInt (Z.of_nat i)) c); split;
      try (intros [_ ?]); try intros ?; try split;
      try done; try congruence.
  - rewrite lookup_ge_None_2 by (rewrite marks_length; lia).
    split; [discriminate | intros [? _]; contradiction].
Qed.

(** The result has one entry per prediction, each 0 or 1, and entry
    [i] is 1 exactly when [i < cutoff_index]. *)
Lemma generate_binary_at_x_shape l x u b :
  generate_binary_at_x l x u = Ok b ->
  exists c, cutoff_index (length l) x u = Ok c
    /\ length b = length l
    /\ (forall i, (i < length l)%nat ->
          b !! i = Some (if py_lt (PyInt (Z.of_nat i)) c then 1 else 0)).
Proof.
  intros H. apply generate_binary_at_x_Ok in H as (c & Hc & ->).
  exists c. split; [exact Hc |]. split; [apply marks_length |].
  intros i Hi. apply marks_lookup, Hi.
Qed.

(** With a unit other than ['percentile'] an integer cutoff marks the
    first [x_value] positions. *)
Lemma generate_binary_at_x_top_n l (k : Z) u :
  String.eqb u "percentile" = false ->
  generate_binary_at_x l (PyInt k) u
  = Ok (replicate (Nat.min (Z.to_nat k) (length l)) 1
        ++ replicate (length l - Nat.min (Z.to_nat k) (length l)) 0).
Proof.
  intros Hu. apply generate_binary_at_x_Ok. exists (PyInt k).
  split; [apply cutoff_index_top_n, Hu | symmetry; apply marks_prefix].
Qed.

(** In the percentile case the cutoff index is an integer, and the
    result is a run of ones followed by a run of zeros. *)
Lemma generate_binary_at_x_percentile l x b :
  generate_binary_at_x l x "percentile" = Ok b ->
  exists k : Z,
    cutoff_index (length l) x "percentile" = Ok (PyInt k)
    /\ b = replicate (Nat.min (Z.to_nat k) (length l)) 1
           ++ replicate (length l - Nat.min (Z.to_nat k) (length l)) 0.
Proof.
  intros H. apply generate_binary_at_x_Ok in H as (c & Hc & ->).
  assert (exists k, c = PyInt k) as [k ->].
  { unfold cutoff_index in Hc.
    change (String.eqb "percentile" "percentile") with true in Hc.
    cbv iota in Hc.
    apply bind_Ok in Hc as (? & _ & Hc). apply bind_Ok in Hc as (? & _ & Hc).
    apply bind_Ok in Hc as (k & _ & Hc). exists k. congruence. }
  exists k. split; [exact Hc | apply marks_prefix].
Qed.

(** A cutoff index of 0 or less gives the all-zero vector, one of the
    length or more gives the all-one vector. *)
Lemma marks_all_zero (k : Z) n :
  k <= 0 -> map (mark (PyInt k)) (range n) = replicate n 0.
Proof.
  intros Hk. rewrite marks_prefix.
  replace (Z.to_nat k) with 0%nat by lia. simpl.
  f_equal. lia.
Qed.

Lemma marks_all_one (k : Z) n :
  Z.of_nat n <= k -> map (mark (PyInt k)) (range n) = replicate n 1.
Proof.
  intros Hk. rewrite marks_prefix.
  replace (Nat.min (Z.to_nat k) n) with n by lia.
  replace (n - n)%nat with 0%nat by lia. simpl. apply app_nil_r.
Qed.

(** Percentile 100 selects every position. *)
Lemma generate_binary_at_x_100 l :
  Z.of_nat (length l) <= 2 ^ 53 ->
  generate_binary_at_x l (PyInt 100) "percentile"
  = Ok (replicate (length l) 1).
Proof.
  intros Hn. apply generate_binary_at_x_Ok.
  exists (PyInt (Z.of_nat (length l))). split.
  - apply cutoff_index_100. exact Hn.
  - symmetry. apply marks_all_one. lia.
Qed.

End BinarizerClaims.

(** C1, at the input where the code departs from it: of 100 predictions,
    the percentile cutoff 29 marks the first 28 positions, not the first
    [floor (100 * 29 / 100) = 29]: in binary64, [29 / 100.0] is the double
    below 0.29, its product with 100 rounds to the double below 29, and
    [int] truncates. *)
Theorem generate_binary_at_x_percentile_29_of_100 :
  generate_binary_at_x (replicate 100 tt) (PyInt 29) "percentile"
  = Ok (replicate 28 1 ++ replicate 72 0)
  /\ 100 * 29 / 100 = 29.
Proof. split; vm_compute; reflexivity. Qed.

(** C6: for percentile cutoffs [p1 < p2], every position marked 1 under
    [p1] is marked 1 under [p2]; and both calls return for finite cutoffs
    of magnitude up to [2^900] on up to [2^63] predictions. *)
Theorem percentile_threshold_monotone {A} (predictions : list A)
    (p1 p2 : pynum) :
  well_formed p1 = true -> well_formed p2 = true ->
  py_lt p1 p2 = true ->
  (forall b1 b2,
      generate_binary_at_x predictions p1 "percentile" = Ok b1 ->
      generate_binary_at_x predictions p2 "percentile" = Ok b2 ->
      forall i : nat, b1 !! i = Some 1 -> b2 !! i = Some 1)
  /\ (Z.of_nat (length predictions) <= 2 ^ 63 ->
      magnitude_le p1 900 -> magnitude_le p2 900 ->
      exists b1 b2,
        generate_binary_at_x predictions p1 "percentile" = Ok b1
        /\ generate_binary_at_x predictions p2 "percentile" = Ok b2).
Proof.
  intros W1 W2 L. split.
  - intros b1 b2 H1 H2 i Hi.
    apply BinarizerFacts.generate_binary_at_x_Ok in H1 as (c1 & C1 & ->).
    apply BinarizerFacts.generate_binary_at_x_Ok in H2 as (c2 & C2 & ->).
    destruct (BinarizerFacts.cutoff_index_percentile_mono _ _ _ _ _
                W1 W2 L C1 C2) as (k1 & k2 & -> & -> & Hk).
    apply marks_lookup_1 in Hi as [Hn Hlt]. apply marks_lookup_1.
    split; [exact Hn |]. simpl in *. apply Z.ltb_lt in Hlt.
    apply Z.ltb_lt. lia.
  - intros Hn M1 M2.
    destruct (BinarizerFacts.cutoff_index_percentile_total _ p1 Hn M1)
      as (k1 & K1).
    destruct (BinarizerFacts.cutoff_index_percentile_total _ p2 Hn M2)
      as (k2 & K2).
    unfold generate_binary_at_x. rewrite K1, K2. bind_step. eauto.
Qed.

Lemma percentile_threshold_monotone_witness :
  (forall b1 b2,
      generate_binary_at_x (replicate 10 tt) (PyInt 25) "percentile" = Ok b1 ->
      generate_binary_at_x (replicate 10 tt)
        (PyFloat (Double.Fin (75 # 2))) "percentile" = Ok b2 ->
      forall i : nat, b1 !! i = Some 1 -> b2 !! i = Some 1)
  /\ (Z.of_nat (length (replicate 10 tt)) <= 2 ^ 63 ->
      magnitude_le (PyInt 25) 900 ->
      magnitude_le (PyFloat (Double.Fin (75 # 2))) 900 ->
      exists b1 b2,
        generate_binary_at_x (replicate 10 tt) (PyInt 25) "percentile" = Ok b1
        /\ generate_binary_at_x (replicate 10 tt)
             (PyFloat (Double.Fin (75 # 2))) "percentile" = Ok b2).
Proof.
  apply (percentile_threshold_monotone (replicate 10 tt) (PyInt 25)
           (PyFloat (Double.Fin (75 # 2)))); vm_compute; reflexivity.
Defined.

(** ** Loops in the error monad *)

Section ForEach.
Context {A B : Type} (f : A -> result (list B)).

Lemma for_each_Ok_Forall (P : B -> Prop) (l : list A) (out : list B) :
  (forall x es, x ∈ l -> f x = Ok es -> Forall P es) ->
  for_each f l = Ok out -> Forall P out.
Proof.
  revert out. induction l as [| x l IH]; intros out Hf H; simpl in H.
  - inversion H. constructor.
  - apply BinarizerFacts.bind_Ok in H as (e & He & H).
    apply BinarizerFacts.bind_Ok in H as (es & Hes & H).
    inversion H; subst out. apply Forall_app. split.
    + apply (Hf x); [left | exact He].
    + apply IH; [| exact Hes]. intros y ys Hy. apply Hf. right. exact Hy.
Qed.

Lemma for_each_Raise (l : list A) (e : exn) :
  for_each f l = Raise e -> exists x, x ∈ l /\ f x = Raise e.
Proof.
  induction l as [| x l IH]; simpl; [discriminate |].
  destruct (f x) as [es | e'] eqn:Hx; bind_step.
  - destruct (for_each f l) as [out | e'']; bind_step; [discriminate |].
    intros H. destruct IH as (y & Hy & Ey); [exact H |].
    exists y. split; [right; exact Hy | exact Ey].
  - intros H. exists x. split; [left | congruence].
Qed.

Lemma for_each_total (l : list A) :
  (forall x, x ∈ l -> exists es, f x = Ok es) ->
  exists out, for_each f l = Ok out.
Proof.
  induction l as [| x l IH]; intros Hf; simpl; [eauto |].
  destruct (Hf x) as (es & ->); [left |].
  destruct IH as (out & ->); [intros y Hy; apply Hf; right; exact Hy |].
  bind_step. eauto.
Qed.

Lemma for_each_head_Raise (x : A) (l : list A) (e : exn) :
  f x = Raise e -> for_each f (x :: l) = Raise e.
Proof. intros H. simpl. rewrite H. reflexivity. Qed.

End ForEach.

(** ** The generator *)

Section Generator.
Variable format : pyval -> string.

Lemma count_ones_ints (l : list Z) :
  count_ones (map PyInt l) = Z.of_nat (count_occ Z.eq_dec l 1).
Proof.
  unfold count_ones. f_equal. induction l as [| x l IH]; [reflexivity |].
  cbn [map count_occ]. rewrite filter_cons. simpl.
  destruct (Z.eqb_spec x 1) as [-> | NE].
  - rewrite decide_True by reflexivity. destruct (Z.eq_dec 1 1); [| lia].
    simpl. f_equal. exact IH.
  - rewrite decide_False by discriminate. destruct (Z.eq_dec x 1); [lia |].
    exact IH.
Qed.

Lemma table_obj_cases mt :
  (lower mt = "train" /\ table_obj mt = Ok TrainEvaluation)
  \/ (lower mt = "test" /\ table_obj mt = Ok TestEvaluation)
  \/ (lower mt <> "train" /\ lower mt <> "test"
      /\ table_obj mt = Raise UnboundLocalError).
Proof.
  unfold table_obj.
  destruct (String.eqb_spec (lower mt) "train") as [E | NE]; [left; done |].
  destruct (String.eqb_spec (lower mt) "test") as [E' | NE']; [right; left; done |].
  right; right; done.
Qed.

(** Every record of a call carries the three counts of that call, the
    seed of the evaluator and the class that [matrix_type] selects. *)
Lemma _generate_evaluations_records self registry metrics parameters
    threshold_config predictions_proba predictions_binary labels
    matrix_type evaluations :
  _generate_evaluations format self registry metrics parameters
    threshold_config predictions_proba predictions_binary labels
    matrix_type = Ok evaluations ->
  Forall (fun ev =>
    results_schema.num_labeled_examples ev = Z.of_nat (length labels)
    /\ results_schema.num_labeled_above_threshold ev
       = Z.of_nat (count_occ Z.eq_dec predictions_binary 1)
    /\ results_schema.num_positive_labels ev = count_ones labels
    /\ results_schema.sort_seed ev = sort_seed self
    /\ table_obj matrix_type = Ok (results_schema.class ev)
    /\ results_schema.model_id ev = None) evaluations.
Proof.
  unfold _generate_evaluations.
  apply for_each_Ok_Forall. intros metric es _.
  destruct (registry !! metric) as [fn |]; [| discriminate].
  apply for_each_Ok_Forall. intros pc es' _ H.
  apply BinarizerFacts.bind_Ok in H as (t & Ht & H). inversion H; subst es'.
  constructor; [| constructor]. simpl.
  rewrite count_ones_ints. repeat split; try reflexivity. exact Ht.
Qed.

(** The generator returns when every metric is registered and
    [matrix_type] names a table. *)
Lemma _generate_evaluations_total self registry metrics parameters
    threshold_config predictions_proba predictions_binary labels
    matrix_type t :
  table_obj matrix_type = Ok t ->
  (forall metric, metric ∈ metrics -> is_Some (registry !! metric)) ->
  exists evaluations,
    _generate_evaluations format self registry metrics parameters
      threshold_config predictions_proba predictions_binary labels
      matrix_type = Ok evaluations.
Proof.
  intros Ht Hreg. unfold _generate_evaluations.
  apply for_each_total. intros metric Hm.
  destruct (Hreg metric Hm) as (fn & ->).
  apply for_each_total. intros pc _. rewrite Ht. bind_step. eauto.
Qed.

(** A name that is not registered makes the call raise, and what it
    raises is [AttributeError]. *)
Lemma _generate_evaluations_first_unknown self registry metric metrics
    parameters threshold_config predictions_proba predictions_binary
    labels matrix_type :
  registry !! metric = None ->
  _generate_evaluations format self registry (metric :: metrics) parameters
    threshold_config predictions_proba predictions_binary labels
    matrix_type = Raise AttributeError.
Proof.
  intros H. unfold _generate_evaluations. apply for_each_head_Raise.
  rewrite H. reflexivity.
Qed.

Lemma _generate_evaluations_Raise self registry metrics parameters
    threshold_config predictions_proba predictions_binary labels
    matrix_type e :
  _generate_evaluations format self registry metrics parameters
    threshold_config predictions_proba predictions_binary labels
    matrix_type = Raise e ->
  e = AttributeError \/ e = UnboundLocalError.
Proof.
  unfold _generate_evaluations. intros H.
  apply for_each_Raise in H as (metric & _ & H).
  destruct (registry !! metric) as [fn |]; [| left; congruence].
  apply for_each_Raise in H as (pc & _ & H).
  destruct (table_obj_cases matrix_type) as [[_ E] | [[_ E] | (_ & _ & E)]];
    rewrite E in H; bind_step in H; try discriminate.
  right. congruence.
Qed.

(** With a [matrix_type] other than train and test no record is made:
    the generator does not fall back on a table. *)
Lemma _generate_evaluations_no_table self registry metrics parameters
    threshold_config predictions_proba predictions_binary labels
    matrix_type evaluations :
  lower matrix_type <> "train" -> lower matrix_type <> "test" ->
  _generate_evaluations format self registry metrics parameters
    threshold_config predictions_proba predictions_binary labels
    matrix_type = Ok evaluations ->
  evaluations = [].
Proof.
  intros N1 N2 H. apply _generate_evaluations_records in H.
  destruct evaluations as [| ev rest]; [reflexivity |].
  apply Forall_cons in H as [(_ & _ & _ & _ & Ht & _) _].
  destruct (table_obj_cases matrix_type) as [[E _] | [[E _] | (_ & _ & E)]];
    congruence.
Qed.

End Generator.

(** ** The writer *)

Module WriterFacts.
Import results_schema.

Section Tables.
Implicit Types (t : table) (db : database) (l : list Evaluation).

Lemma rows_set_rows t l db : rows t (set_rows t l db) = l.
Proof. destruct t; reflexivity. Qed.

Lemma rows_set_rows_other t l db :
  rows (other t) (set_rows t l db) = rows (other t) db.
Proof. destruct t; reflexivity. Qed.

Lemma set_rows_set_rows t l l' db :
  set_rows t l (set_rows t l' db) = set_rows t l db.
Proof. destruct t; reflexivity. Qed.

Lemma database_eq db db' t :
  rows t db = rows t db' -> rows (other t) db = rows (other t) db' ->
  db = db'.
Proof. destruct db, db', t; simpl; congruence. Qed.

End Tables.

Section Key.
Variables (m start_time end_time : Z) (frequency : string).

Abbreviation has_key := (has_key m start_time end_time frequency).
Abbreviation bind_key := (bind_key m start_time end_time frequency).
Abbreviation keep := (keep m start_time end_time frequency).

Lemma has_key_bind_key ev : has_key (bind_key ev) = true.
Proof.
  unfold results_schema.has_key. simpl.
  rewrite !bool_decide_eq_true_2 by reflexivity. reflexivity.
Qed.

Lemma class_bind_key ev : class (bind_key ev) = class ev.
Proof. reflexivity. Qed.

Lemma filter_keep_bound l : List.filter keep (map bind_key l) = [].
Proof.
  induction l as [| ev l IH]; [reflexivity |]. simpl.
  unfold results_schema.keep at 1. rewrite has_key_bind_key. exact IH.
Qed.

Lemma filter_has_key_bound l :
  List.filter has_key (map bind_key l) = map bind_key l.
Proof.
  induction l as [| ev l IH]; [reflexivity |]. simpl.
  rewrite has_key_bind_key. f_equal. exact IH.
Qed.

Lemma filter_keep_idem l :
  List.filter keep (List.filter keep l) = List.filter keep l.
Proof.
  induction l as [| ev l IH]; [reflexivity |]. simpl.
  destruct (keep ev) eqn:K; simpl; rewrite ?K, IH; reflexivity.
Qed.

Lemma filter_has_key_keep l : List.filter has_key (List.filter keep l) = [].
Proof.
  induction l as [| ev l IH]; [reflexivity |]. simpl.
  unfold results_schema.keep at 1.
  destruct (has_key ev) eqn:K; simpl; rewrite ?K; exact IH.
Qed.

(** The loop of [session.add]: the bound records are appended to the
    table of their class. *)
Lemma add_all t evs db :
  Forall (fun ev => class ev = t) evs ->
  fold_left (fun session evaluation => add (bind_key evaluation) session)
    evs db
  = set_rows t (rows t db ++ map bind_key evs) db.
Proof.
  intros H. revert db. induction H as [| ev evs Hev _ IH]; intros db.
  - simpl. rewrite app_nil_r. destruct t, db; reflexivity.
  - simpl. rewrite IH. unfold add. rewrite class_bind_key, Hev.
    rewrite rows_set_rows, set_rows_set_rows, <- app_assoc. reflexivity.
Qed.

Lemma _write_to_db_Ok self evs matrix_type db t :
  sessionmaker self = true -> table_obj matrix_type = Ok t ->
  Forall (fun ev => class ev = t) evs ->
  _write_to_db self m start_time end_time frequency evs matrix_type db
  = (Ok tt,
     set_rows t (List.filter keep (rows t db) ++ map bind_key evs) db).
Proof.
  intros Hs Ht Hevs. unfold _write_to_db. rewrite Hs, Ht. simpl negb.
  cbv iota. f_equal. rewrite (add_all t) by exact Hevs.
  unfold results_schema.delete_by.
  rewrite rows_set_rows, set_rows_set_rows. reflexivity.
Qed.

Lemma _write_to_db_Raise self evs matrix_type db e db' :
  _write_to_db self m start_time end_time frequency evs matrix_type db
  = (Raise e, db') -> db' = db.
Proof.
  unfold _write_to_db. destruct (sessionmaker self); simpl.
  - destruct (table_obj matrix_type); intros H; inversion H; reflexivity.
  - intros H; inversion H; reflexivity.
Qed.

Lemma _write_to_db_no_table self evs matrix_type db :
  lower matrix_type <> "train" -> lower matrix_type <> "test" ->
  exists e,
    _write_to_db self m start_time end_time frequency evs matrix_type db
    = (Raise e, db).
Proof.
  intros N1 N2. unfold _write_to_db.
  destruct (sessionmaker self); simpl; [| eauto].
  destruct (table_obj_cases matrix_type) as [[E _] | [[E _] | (_ & _ & E)]];
    try congruence.
  rewrite E. eauto.
Qed.

Lemma _write_to_db_twice self evs1 evs2 matrix_type db t :
  sessionmaker self = true -> table_obj matrix_type = Ok t ->
  Forall (fun ev => class ev = t) evs1 ->
  Forall (fun ev => class ev = t) evs2 ->
  exists db1 db2,
    _write_to_db self m start_time end_time frequency evs1 matrix_type db
      = (Ok tt, db1)
    /\ _write_to_db self m start_time end_time frequency evs2 matrix_type
         db1 = (Ok tt, db2)
    /\ List.filter has_key (rows t db2) = map bind_key evs2
    /\ List.filter keep (rows t db2) = List.filter keep (rows t db)
    /\ rows (other t) db2 = rows (other t) db
    /\ (evs1 = evs2 -> db2 = db1).
Proof.
  intros Hs Ht H1 H2.
  rewrite (_write_to_db_Ok self evs1 matrix_type db t Hs Ht H1).
  eexists. eexists. split; [reflexivity |].
  rewrite (_write_to_db_Ok self evs2 matrix_type _ t Hs Ht H2).
  split; [reflexivity |].
  rewrite !rows_set_rows, !rows_set_rows_other, set_rows_set_rows.
  repeat (rewrite List.filter_app || rewrite filter_keep_idem
          || rewrite filter_keep_bound || rewrite filter_has_key_keep
          || rewrite filter_has_key_bound || rewrite app_nil_r).
  split; [reflexivity |]. split; [reflexivity |]. split; [reflexivity |].
  intros ->. reflexivity.
Qed.

End Key.
End WriterFacts.

(** ** The orchestrator *)

Section Orchestrator.
Variable format : pyval -> string.
Variable sort_predictions_and_labels :
  list pynum -> list pynum -> pyval -> result (list pynum * list pynum).

Lemma eqb_false_of_ne (s t : string) : s <> t -> String.eqb s t = false.
Proof. intros H. destruct (String.eqb_spec s t); congruence. Qed.

(** An unrecognized [matrix_type] stops [evaluate] before any group is
    looked at, with the error of the co-sort when it raises and with
    [ValueError] when it returns. *)
Lemma evaluate_unrecognized self registry predictions_proba labels
    model_id start_time end_time frequency matrix_type db :
  lower matrix_type <> "train" -> lower matrix_type <> "test" ->
  evaluate format sort_predictions_and_labels self registry
      predictions_proba labels model_id start_time
    end_time frequency matrix_type db
  = (match
       sort_predictions_and_labels predictions_proba labels (sort_seed self)
     with
     | Ok _ => Raise ValueError
     | Raise e => Raise e
     end, db).
Proof.
  intros N1 N2. unfold evaluate.
  destruct (sort_predictions_and_labels _ _ _)
    as [[sorted labels_sorted] | e]; [| reflexivity].
  rewrite (eqb_false_of_ne _ _ N1), (eqb_false_of_ne _ _ N2).
  reflexivity.
Qed.

(** The error of the co-sort is the error of [evaluate]. *)
Lemma evaluate_sort_Raise self registry predictions_proba labels
    model_id start_time end_time frequency matrix_type db e :
  sort_predictions_and_labels predictions_proba labels (sort_seed self)
  = Raise e ->
  evaluate format sort_predictions_and_labels self registry
      predictions_proba labels model_id start_time
    end_time frequency matrix_type db = (Raise e, db).
Proof. intros H. unfold evaluate. rewrite H. reflexivity. Qed.

(** A call that raises leaves the database as it was. *)
Lemma evaluate_Raise_unchanged self registry predictions_proba labels
    model_id start_time end_time frequency matrix_type db e db' :
  evaluate format sort_predictions_and_labels self registry
      predictions_proba labels model_id start_time
    end_time frequency matrix_type db = (Raise e, db') -> db' = db.
Proof.
  unfold evaluate.
  destruct (sort_predictions_and_labels _ _ _)
    as [[sorted labels_sorted] | e0];
    [| intros H; inversion H; reflexivity].
  destruct (_ ≫= _) as [evaluations | e'].
  - apply WriterFacts._write_to_db_Raise.
  - intros H. inversion H. reflexivity.
Qed.

(** A group without ['thresholds']: one call of the generator, on the
    scores as [evaluate] received them, the sorted labels and the
    all-one vector. *)
Lemma evaluate_group_full_population self registry predictions_proba
    predictions_proba_sorted labels_sorted matrix_type group :
  group_thresholds group = None ->
  Z.of_nat (length predictions_proba_sorted) <= 2 ^ 53 ->
  evaluate_group format self registry predictions_proba predictions_proba_sorted
    labels_sorted matrix_type group
  = _generate_evaluations format self registry (group_metrics group)
      (default [[]] (group_parameters group)) []
      (Some predictions_proba)
      (replicate (length predictions_proba_sorted) 1)
      labels_sorted matrix_type.
Proof.
  intros Ht Hn. unfold evaluate_group. rewrite Ht.
  rewrite (generate_binary_at_x_100 _ Hn). bind_step.
  destruct (_generate_evaluations _ _ _ _ _ _ _ _ _ _)
    as [evs | e]; bind_step; [| reflexivity].
  simpl. rewrite app_nil_r. reflexivity.
Qed.

(** *** No call raises [UnknownMetricError] *)

Lemma bind_not_Raise {A B} (r : result A) (k : A -> result B) e :
  r <> Raise e -> (forall a, k a <> Raise e) -> r ≫= k <> Raise e.
Proof. destruct r as [a | e']; bind_step; [auto | congruence]. Qed.

Lemma for_each_not_Raise {A B} (f : A -> result (list B)) l e :
  (forall x, f x <> Raise e) -> for_each f l <> Raise e.
Proof.
  intros Hf H. apply for_each_Raise in H as (x & _ & H). exact (Hf x H).
Qed.

Lemma generate_binary_at_x_not_UnknownMetricError {A} (l : list A) x u :
  generate_binary_at_x l x u <> Raise UnknownMetricError.
Proof.
  unfold generate_binary_at_x, cutoff_index, truediv, fmul, to_float,
    Double.of_int, Double.div, Double.to_int, hundred.
  intros H.
  repeat (bind_step in H; try discriminate;
          match type of H with
          | context [match ?x with _ => _ end] => destruct x
          | context [if ?x then _ else _] => destruct x
          end).
Qed.

Lemma mask_select_Raise {A} (a : list A) mask e :
  mask_select a mask = Raise e -> e = IndexError.
Proof.
  revert mask. induction a as [| x a IH]; intros [| b mask]; simpl;
    try discriminate; try congruence.
  destruct (mask_select a mask) eqn:E; bind_step; [discriminate |].
  intros H. apply (IH mask). congruence.
Qed.

Lemma _generate_evaluations_not_UnknownMetricError self registry metrics
    parameters threshold_config predictions_proba predictions_binary
    labels matrix_type :
  _generate_evaluations format self registry metrics parameters threshold_config
    predictions_proba predictions_binary labels matrix_type
  <> Raise UnknownMetricError.
Proof.
  intros H. apply _generate_evaluations_Raise in H as [H | H];
    discriminate.
Qed.

Lemma evaluate_group_not_UnknownMetricError self registry
    predictions_proba predictions_proba_sorted labels_sorted matrix_type
    group :
  evaluate_group format self registry predictions_proba predictions_proba_sorted
    labels_sorted matrix_type group <> Raise UnknownMetricError.
Proof.
  assert (M : forall A (a : list A) mask,
             mask_select a mask <> Raise UnknownMetricError).
  { intros A a mask H. apply mask_select_Raise in H. discriminate. }
  assert (T : forall key unit_ thresh,
    (binary ← generate_binary_at_x predictions_proba_sorted thresh unit_;
     predicted_classes ←
       mask_select binary (map num_isfinite labels_sorted);
     present_labels_sorted ←
       mask_select labels_sorted (map num_isfinite labels_sorted);
     _generate_evaluations format self registry (group_metrics group)
       (default [[]] (group_parameters group)) [(key, VNum thresh)] None
       predicted_classes present_labels_sorted matrix_type)
    <> Raise UnknownMetricError).
  { intros key unit_ thresh.
    apply bind_not_Raise;
      [apply generate_binary_at_x_not_UnknownMetricError | intros b].
    apply bind_not_Raise; [apply M | intros pc].
    apply bind_not_Raise; [apply M | intros pl].
    apply _generate_evaluations_not_UnknownMetricError. }
  unfold evaluate_group. apply bind_not_Raise.
  - destruct (group_thresholds group); [discriminate |].
    apply bind_not_Raise;
      [apply generate_binary_at_x_not_UnknownMetricError | intros b].
    apply _generate_evaluations_not_UnknownMetricError.
  - intros full. apply bind_not_Raise;
      [apply for_each_not_Raise; intros x; apply T | intros pct].
    apply bind_not_Raise;
      [apply for_each_not_Raise; intros x; apply T | intros top].
    discriminate.
Qed.

Theorem evaluate_not_UnknownMetricError self registry predictions_proba
    labels model_id start_time end_time frequency matrix_type db :
  sort_predictions_and_labels predictions_proba labels (sort_seed self)
  <> Raise UnknownMetricError ->
  (evaluate format sort_predictions_and_labels self registry
      predictions_proba labels model_id start_time
     end_time frequency matrix_type db).1 <> Raise UnknownMetricError.
Proof.
  unfold evaluate.
  destruct (sort_predictions_and_labels _ _ _)
    as [[sorted labels_sorted] | e0]; [intros _ | simpl; congruence].
  destruct (_ ≫= _) as [evaluations | e] eqn:G.
  - unfold _write_to_db. destruct (sessionmaker self); simpl;
      [| discriminate].
    destruct (table_obj_cases matrix_type)
      as [[_ E] | [[_ E] | (_ & _ & E)]]; rewrite E; discriminate.
  - simpl. intros H. inversion H; subst e. revert G.
    apply bind_not_Raise.
    + destruct (String.eqb _ _); [discriminate |].
      destruct (String.eqb _ _); discriminate.
    + intros groups. apply for_each_not_Raise. intros g.
      apply evaluate_group_not_UnknownMetricError.
Qed.

(** *** Running [evaluate] again *)

Lemma _generate_evaluations_class self registry metrics parameters
    threshold_config predictions_proba predictions_binary labels
    matrix_type evaluations :
  _generate_evaluations format self registry metrics parameters threshold_config
    predictions_proba predictions_binary labels matrix_type
  = Ok evaluations ->
  Forall (fun ev => table_obj matrix_type = Ok (results_schema.class ev))
    evaluations.
Proof.
  intros H. apply _generate_evaluations_records in H.
  eapply Forall_impl; [exact H |]. intros ev (_ & _ & _ & _ & Ht & _).
  exact Ht.
Qed.

Lemma evaluate_group_class self registry predictions_proba
    predictions_proba_sorted labels_sorted matrix_type group evaluations :
  evaluate_group format self registry predictions_proba predictions_proba_sorted
    labels_sorted matrix_type group = Ok evaluations ->
  Forall (fun ev => table_obj matrix_type = Ok (results_schema.class ev))
    evaluations.
Proof.
  unfold evaluate_group. intros H.
  apply BinarizerFacts.bind_Ok in H as (full & Hfull & H).
  apply BinarizerFacts.bind_Ok in H as (pct & Hpct & H).
  apply BinarizerFacts.bind_Ok in H as (top & Htop & H).
  inversion H; subst evaluations. clear H.
  assert (T : forall key unit_ thresh es,
    (binary ← generate_binary_at_x predictions_proba_sorted thresh unit_;
     predicted_classes ←
       mask_select binary (map num_isfinite labels_sorted);
     present_labels_sorted ←
       mask_select labels_sorted (map num_isfinite labels_sorted);
     _generate_evaluations format self registry (group_metrics group)
       (default [[]] (group_parameters group)) [(key, VNum thresh)] None
       predicted_classes present_labels_sorted matrix_type) = Ok es ->
    Forall (fun ev => table_obj matrix_type = Ok (results_schema.class ev))
      es).
  { intros key unit_ thresh es H.
    apply BinarizerFacts.bind_Ok in H as (b & _ & H).
    apply BinarizerFacts.bind_Ok in H as (pc & _ & H).
    apply BinarizerFacts.bind_Ok in H as (pl & _ & H).
    apply _generate_evaluations_class in H. exact H. }
  repeat (apply Forall_app; split).
  - destruct (group_thresholds group).
    + inversion Hfull. constructor.
    + apply BinarizerFacts.bind_Ok in Hfull as (b & _ & H).
      apply _generate_evaluations_class in H. exact H.
  - eapply for_each_Ok_Forall; [| exact Hpct]. intros x es _. apply T.
  - eapply for_each_Ok_Forall; [| exact Htop]. intros x es _. apply T.
Qed.

(** A second run of a call that returned leaves the database as the
    first run left it. *)
Theorem evaluate_twice self registry predictions_proba labels model_id
    start_time end_time frequency matrix_type db db1 :
  evaluate format sort_predictions_and_labels self registry
      predictions_proba labels model_id start_time
    end_time frequency matrix_type db = (Ok tt, db1) ->
  evaluate format sort_predictions_and_labels self registry
      predictions_proba labels model_id start_time
    end_time frequency matrix_type db1 = (Ok tt, db1).
Proof.
  unfold evaluate.
  destruct (sort_predictions_and_labels _ _ _)
    as [[sorted labels_sorted] | e0]; [| discriminate].
  destruct (_ ≫= _) as [evaluations | e] eqn:G; [| discriminate].
  intros W.
  assert (Hs : sessionmaker self = true).
  { unfold _write_to_db in W. destruct (sessionmaker self);
      [reflexivity | discriminate]. }
  assert (exists t, table_obj matrix_type = Ok t) as [t Ht].
  { unfold _write_to_db in W. rewrite Hs in W. simpl in W.
    destruct (table_obj matrix_type); [eauto | discriminate]. }
  assert (Hc : Forall (fun ev => results_schema.class ev = t) evaluations).
  { apply BinarizerFacts.bind_Ok in G as (groups & _ & G).
    eapply Forall_impl.
    - eapply for_each_Ok_Forall; [| exact G]. intros g es _.
      apply evaluate_group_class.
    - intros ev H. simpl in H. congruence. }
  destruct (WriterFacts._write_to_db_twice model_id start_time end_time frequency
              self evaluations evaluations matrix_type db t Hs Ht Hc Hc)
    as (d1 & d2 & W1 & W2 & _ & _ & _ & E).
  rewrite W in W1. inversion W1; subst d1. rewrite W2, (E eq_refl).
  reflexivity.
Qed.

End Orchestrator.

(** ** The constructor *)

Section Constructor.

Lemma validate_items_Ok items :
  validate_items items = Ok tt <->
  Forall (fun item => passes_validation item.2 = true) items.
Proof.
  induction items as [| [name met] items IH]; simpl.
  - split; [constructor | reflexivity].
  - rewrite Forall_cons. unfold passes_validation at 1. simpl.
    destruct (greater_is_better met) as [g |].
    + destruct (in_True_False g); simpl.
      * rewrite IH. tauto.
      * split; [discriminate | intros [? _]; discriminate].
    + split; [discriminate | intros [? _]; discriminate].
Qed.

Lemma validate_items_Raise items e :
  validate_items items = Raise e -> e = ValueError.
Proof.
  induction items as [| [name met] items IH]; simpl; [discriminate |].
  destruct (greater_is_better met) as [g |]; [| congruence].
  destruct (in_True_False g); simpl; [exact IH | congruence].
Qed.

Lemma _validate_metrics_Ok (cm : gmap string metric_function) :
  _validate_metrics cm = Ok tt <->
  (forall name met, cm !! name = Some met -> passes_validation met = true).
Proof.
  unfold _validate_metrics. rewrite validate_items_Ok, Forall_forall.
  split.
  - intros H name met Hm. apply (H (name, met)).
    apply elem_of_map_to_list. exact Hm.
  - intros H [name met] Hm. apply elem_of_map_to_list in Hm.
    exact (H name met Hm).
Qed.

Lemma _validate_metrics_rejects (cm : gmap string metric_function)
    name met :
  cm !! name = Some met -> passes_validation met = false ->
  _validate_metrics cm = Raise ValueError.
Proof.
  intros Hm Hp. destruct (_validate_metrics cm) as [[] | e] eqn:V.
  - rewrite (proj1 (_validate_metrics_Ok cm) V name met Hm) in Hp.
    discriminate.
  - f_equal. unfold _validate_metrics in V.
    exact (validate_items_Raise _ _ V).
Qed.

(** A function without the attribute, or whose attribute is equal to
    neither [True] nor [False], stops the construction with
    [ValueError], and the registry stays as it was. *)
Lemma __init___rejects mg tmg db_engine seed
    (cm : gmap string metric_function) now registry name met :
  cm !! name = Some met -> passes_validation met = false ->
  __init__ mg tmg db_engine seed (Some cm) now registry
  = (Raise ValueError, registry).
Proof.
  intros Hm Hp. unfold __init__.
  rewrite bool_decide_eq_false_2.
  - rewrite (_validate_metrics_rejects cm name met Hm Hp). reflexivity.
  - intros ->. rewrite lookup_empty in Hm. discriminate.
Qed.

(** When every function passes, the class dictionary is updated. *)
Lemma __init___registers mg tmg db_engine seed
    (cm : gmap string metric_function) now registry :
  (forall name met, cm !! name = Some met -> passes_validation met = true) ->
  exists self,
    __init__ mg tmg db_engine seed (Some cm) now registry
    = (Ok self, cm ∪ registry).
Proof.
  intros H. unfold __init__. case_bool_decide as E.
  - subst cm. rewrite (left_id_L ∅ (∪)). eauto.
  - rewrite (proj2 (_validate_metrics_Ok cm) H). eauto.
Qed.

Lemma __init___Ok mg tmg db_engine seed cm now registry self registry' :
  __init__ mg tmg db_engine seed cm now registry = (Ok self, registry') ->
  sort_seed self = py_or seed (VNum (PyInt (Double.Qtrunc now)))
  /\ registry' = default ∅ cm ∪ registry.
Proof.
  unfold __init__. destruct cm as [cm |]; simpl.
  - case_bool_decide as E.
    + intros H. inversion H. subst. rewrite (left_id_L ∅ (∪)). done.
    + destruct (_validate_metrics cm); intros H; inversion H. done.
  - intros H. inversion H. rewrite (left_id_L ∅ (∪)). done.
Qed.

(** When the custom metrics pass, the construction returns. *)
Lemma __init___returns mg tmg db_engine seed cm now registry :
  from_option _validate_metrics (Ok tt) cm = Ok tt ->
  __init__ mg tmg db_engine seed cm now registry
  = (Ok {| metric_groups := mg;
           training_metric_groups := tmg;
           sort_seed := py_or seed (VNum (PyInt (Double.Qtrunc now)));
           sessionmaker := db_engine |},
     default ∅ cm ∪ registry).
Proof.
  unfold __init__. destruct cm as [cm |]; simpl.
  - intros V. case_bool_decide as E.
    + subst cm. rewrite (left_id_L ∅ (∪)). reflexivity.
    + rewrite V. reflexivity.
  - intros _. rewrite (left_id_L ∅ (∪)). reflexivity.
Qed.

(** The co-sorter of the spec on two entries of one score: the tie keys
    decide which comes first. *)
Lemma sort_predictions_and_labels_spec_tied tie_key (score a b : pynum)
    seed :
  py_lt score score = false -> num_eqb score score = true ->
  sort_predictions_and_labels_spec tie_key [score; score] [a; b] seed
  = ([score; score],
     if tie_key seed 0%nat <? tie_key seed 1%nat then [a; b] else [b; a]).
Proof.
  intros L E. unfold sort_predictions_and_labels_spec. simpl.
  rewrite L, E. simpl.
  destruct (tie_key seed 0%nat <? tie_key seed 1%nat); reflexivity.
Qed.

(** What passes the test [g in (True, False)]. *)
Lemma in_True_False_spec g :
  in_True_False g = true <->
  (exists b, g = VBool b)
  \/ (exists n, g = VNum n
                /\ (num_eqb n (PyInt 1) = true \/ num_eqb n (PyInt 0) = true)).
Proof.
  unfold in_True_False. destruct g as [| b | n | s]; simpl.
  - split; [discriminate | intros [[? ?] | (? & ? & _)]; discriminate].
  - split; [eauto | intros _]. destruct b; reflexivity.
  - rewrite orb_true_iff. split.
    + intros H. right. exists n. split; [reflexivity | exact H].
    + intros [[? ?] | (? & E & H)]; [discriminate |].
      inversion E; subst. exact H.
  - split; [discriminate | intros [[? ?] | (? & ? & _)]; discriminate].
Qed.

End Constructor.

(** ** The claims on the engine *)

(** C2: two writes in succession under one key, with batches of the class
    that [matrix_type] selects, leave under that key exactly the bound
    records of the second batch; rows under other keys and the other table
    are as before the first write, and with the same batch the second
    write changes nothing. *)
Theorem idempotent_replace (self : ModelEvaluator)
    (model_id start_time end_time : Z) (frequency : string)
    (first_batch second_batch : list Evaluation) (matrix_type : string)
    (db : database) (t : table) :
  sessionmaker self = true ->
  table_obj matrix_type = Ok t ->
  Forall (fun ev => results_schema.class ev = t) first_batch ->
  Forall (fun ev => results_schema.class ev = t) second_batch ->
  exists db1 db2,
    _write_to_db self model_id start_time end_time frequency first_batch
      matrix_type db = (Ok tt, db1)
    /\ _write_to_db self model_id start_time end_time frequency second_batch
         matrix_type db1 = (Ok tt, db2)
    /\ List.filter (results_schema.has_key model_id start_time end_time
                      frequency) (results_schema.rows t db2)
       = map (results_schema.bind_key model_id start_time end_time frequency)
           second_batch
    /\ List.filter (results_schema.keep model_id start_time end_time
                      frequency) (results_schema.rows t db2)
       = List.filter (results_schema.keep model_id start_time end_time
                        frequency) (results_schema.rows t db)
    /\ results_schema.rows (results_schema.other t) db2
       = results_schema.rows (results_schema.other t) db
    /\ (first_batch = second_batch -> db2 = db1).
Proof. apply WriterFacts._write_to_db_twice. Qed.

Lemma idempotent_replace_witness :
  exists db1 db2,
    _write_to_db (sample_evaluator []) 7 0 10 "1d" [sample_record] "Test"
      empty_database = (Ok tt, db1)
    /\ _write_to_db (sample_evaluator []) 7 0 10 "1d" [sample_record] "Test"
         db1 = (Ok tt, db2)
    /\ List.filter (results_schema.has_key 7 0 10 "1d")
         (results_schema.rows TestEvaluation db2)
       = map (results_schema.bind_key 7 0 10 "1d") [sample_record]
    /\ List.filter (results_schema.keep 7 0 10 "1d")
         (results_schema.rows TestEvaluation db2)
       = List.filter (results_schema.keep 7 0 10 "1d")
           (results_schema.rows TestEvaluation empty_database)
    /\ results_schema.rows (results_schema.other TestEvaluation) db2
       = results_schema.rows (results_schema.other TestEvaluation)
           empty_database
    /\ ([sample_record] = [sample_record] -> db2 = db1).
Proof.
  apply (idempotent_replace (sample_evaluator []) 7 0 10 "1d"
           [sample_record] [sample_record] "Test" empty_database
           TestEvaluation).
  - reflexivity.
  - reflexivity.
  - repeat constructor.
  - repeat constructor.
Defined.

(** C3, at an input where the code departs from it: a group naming a
    metric that is not registered makes [evaluate] raise
    [AttributeError], not [UnknownMetricError]; nothing is written. *)
Theorem evaluate_unknown_metric_raises_AttributeError
    (metrics : metrics_module) (db : database) :
  available_metrics metrics !! "no such metric" = None
  /\ evaluate format_sample sample_sort
       (sample_evaluator [plain_group "no such metric"])
       (available_metrics metrics) [quarter; three_quarters]
       [PyInt 0; PyInt 1] 7 0 10 "1d" "Test" db
     = (Raise AttributeError, db).
Proof. split; vm_compute; reflexivity. Qed.

(** C4: every record of a call of the generator that returns carries the
    number of labels, the number of ones among the binary predictions and
    the number of labels equal to one of that call. *)
Theorem count_invariant (format : pyval -> string) (self : ModelEvaluator)
    (registry : gmap string metric_function) (metrics : list string)
    (parameters : list dict) (threshold_config : dict)
    (predictions_proba : option (list pynum)) (predictions_binary : list Z)
    (labels : list pynum) (matrix_type : string)
    (evaluations : list Evaluation) :
  _generate_evaluations format self registry metrics parameters
    threshold_config predictions_proba predictions_binary labels matrix_type
  = Ok evaluations ->
  Forall (fun ev =>
    results_schema.num_labeled_examples ev = Z.of_nat (length labels)
    /\ results_schema.num_labeled_above_threshold ev
       = Z.of_nat (count_occ Z.eq_dec predictions_binary 1)
    /\ results_schema.num_positive_labels ev = count_ones labels)
    evaluations.
Proof.
  intros H. apply _generate_evaluations_records in H.
  eapply Forall_impl; [exact H |]. intros ev (H1 & H2 & H3 & _).
  auto.
Qed.

Lemma count_invariant_witness :
  Forall (fun ev =>
    results_schema.num_labeled_examples ev
    = Z.of_nat (length [PyInt 1; PyInt 1; PyInt 0; PyInt 0])
    /\ results_schema.num_labeled_above_threshold ev
       = Z.of_nat (count_occ Z.eq_dec [1; 1; 1; 0] 1)
    /\ results_schema.num_positive_labels ev
       = count_ones [PyInt 1; PyInt 1; PyInt 0; PyInt 0])
    (match
       _generate_evaluations format_sample (sample_evaluator [])
         {[ "first_score" := first_score ]} ["first_score"] [[]]
         [("abs", VNum (PyInt 3))] None [1; 1; 1; 0]
         [PyInt 1; PyInt 1; PyInt 0; PyInt 0] "Test"
     with
     | Ok evaluations => evaluations
     | Raise _ => []
     end).
Proof.
  apply (count_invariant format_sample (sample_evaluator [])
           {[ "first_score" := first_score ]} ["first_score"] [[]]
           [("abs", VNum (PyInt 3))] None [1; 1; 1; 0]
           [PyInt 1; PyInt 1; PyInt 0; PyInt 0] "Test").
  vm_compute. reflexivity.
Defined.

(** C5, at an input where the code departs from it: for a group without
    thresholds the generator is given the scores in the order in which
    [evaluate] received them, next to the sorted labels: the metric that
    returns its first score returns 0.25, and the first sorted score is
    0.75. *)
Theorem evaluate_full_population_scores_unsorted :
  sample_sort [quarter; three_quarters] [PyInt 0; PyInt 1] (VNum (PyInt 1))
  = Ok ([three_quarters; quarter], [PyInt 1; PyInt 0])
  /\ exists db,
       evaluate format_sample sample_sort
         (sample_evaluator [plain_group "first_score"])
         {[ "first_score" := first_score ]} [quarter; three_quarters]
         [PyInt 0; PyInt 1] 7 0 10 "1d" "Test" empty_database
       = (Ok tt, db)
       /\ map results_schema.value (results_schema.test_evaluations db)
          = [quarter].
Proof.
  split; [vm_compute; reflexivity |].
  eexists. split; vm_compute; reflexivity.
Qed.

(** C7, at an input where the code departs from it: a custom metric whose
    [greater_is_better] is the integer 1, which is not a boolean, passes
    [1 in (True, False)]; the construction succeeds and the metric is in
    the registry. *)
Theorem custom_metric_integer_flag_accepted
    (metric_groups training_metric_groups : list metric_group)
    (db_engine : bool) (sort_seed : pyval) (now : Q)
    (registry : gmap string metric_function) :
  greater_is_better integer_flag_metric = Some (VNum (PyInt 1))
  /\ exists self,
       __init__ metric_groups training_metric_groups db_engine sort_seed
         (Some {[ "score" := integer_flag_metric ]}) now registry
       = (Ok self, {[ "score" := integer_flag_metric ]} ∪ registry)
       /\ ({[ "score" := integer_flag_metric ]} ∪ registry) !! "score"
          = Some integer_flag_metric.
Proof.
  split; [reflexivity |].
  destruct (__init___registers metric_groups training_metric_groups
              db_engine sort_seed {[ "score" := integer_flag_metric ]} now
              registry) as [self H].
  - intros name met Hm. apply lookup_singleton_Some in Hm as [_ <-].
    reflexivity.
  - exists self. split; [exact H |].
    apply lookup_union_Some_l, lookup_singleton_eq.
Qed.

(** C8, as amended: with a [matrix_type] that is neither train nor test
    in lower case, [evaluate] raises and leaves the database as it was,
    whatever the groups and the registry, but the co-sort of the inputs
    runs first: the error is that of the co-sort when it raises, and
    [ValueError] when it returns.  The generator makes no record and the
    writer raises without writing: neither falls back on a table. *)
Theorem unrecognized_matrix_type_fails_after_co_sort
    (format : pyval -> string)
    (sort_predictions_and_labels :
       list pynum -> list pynum -> pyval
       -> result (list pynum * list pynum))
    (self : ModelEvaluator) (registry : gmap string metric_function)
    (predictions_proba labels : list pynum)
    (model_id start_time end_time : Z) (frequency : string)
    (matrix_type : string) (db : database) :
  lower matrix_type <> "train" -> lower matrix_type <> "test" ->
  evaluate format sort_predictions_and_labels self registry
    predictions_proba labels model_id start_time end_time frequency
    matrix_type db
  = (match
       sort_predictions_and_labels predictions_proba labels (sort_seed self)
     with
     | Ok _ => Raise ValueError
     | Raise e => Raise e
     end, db)
  /\ (forall metrics parameters threshold_config scores predictions_binary
        present_labels evaluations,
        _generate_evaluations format self registry metrics parameters
          threshold_config scores predictions_binary present_labels
          matrix_type = Ok evaluations ->
        evaluations = [])
  /\ (forall evaluations, exists e,
        _write_to_db self model_id start_time end_time frequency evaluations
          matrix_type db = (Raise e, db)).
Proof.
  intros N1 N2. split; [| split].
  - apply evaluate_unrecognized; assumption.
  - intros. eapply _generate_evaluations_no_table; eassumption.
  - intros evaluations. apply WriterFacts._write_to_db_no_table; assumption.
Qed.

Lemma unrecognized_matrix_type_fails_after_co_sort_witness :
  evaluate format_sample sample_sort
    (sample_evaluator [plain_group "first_score"])
    {[ "first_score" := first_score ]} [quarter; three_quarters]
    [PyInt 0; PyInt 1] 7 0 10 "1d" "Validation" empty_database
  = (match
       sample_sort [quarter; three_quarters] [PyInt 0; PyInt 1]
         (sort_seed (sample_evaluator [plain_group "first_score"]))
     with
     | Ok _ => Raise ValueError
     | Raise e => Raise e
     end, empty_database)
  /\ (forall metrics parameters threshold_config scores predictions_binary
        present_labels evaluations,
        _generate_evaluations format_sample
          (sample_evaluator [plain_group "first_score"])
          {[ "first_score" := first_score ]} metrics parameters
          threshold_config scores predictions_binary present_labels
          "Validation" = Ok evaluations ->
        evaluations = [])
  /\ (forall evaluations, exists e,
        _write_to_db (sample_evaluator [plain_group "first_score"]) 7 0 10
          "1d" evaluations "Validation" empty_database
        = (Raise e, empty_database)).
Proof.
  apply (unrecognized_matrix_type_fails_after_co_sort format_sample
           sample_sort (sample_evaluator [plain_group "first_score"])
           {[ "first_score" := first_score ]} [quarter; three_quarters]
           [PyInt 0; PyInt 1] 7 0 10 "1d" "Validation" empty_database);
    vm_compute; discriminate.
Defined.

(** C8 as the claim states it fails: the call does not stop before any
    computation.  With the [matrix_type] ["Validation"] the co-sort is
    called before [matrix_type] is tested, and when it raises, its error
    is the outcome of the call: the outcome is not [ValueError] with every
    co-sorter. *)
Lemma unrecognized_matrix_type_co_sort_runs_first :
  lower "Validation" <> "train" /\ lower "Validation" <> "test"
  /\ evaluate format_sample sample_sort
       (sample_evaluator [plain_group "first_score"])
       {[ "first_score" := first_score ]} [quarter; three_quarters]
       [PyInt 0; PyInt 1] 7 0 10 "1d" "Validation" empty_database
     = (Raise ValueError, empty_database)
  /\ evaluate format_sample (failing_sort IndexError)
       (sample_evaluator [plain_group "first_score"])
       {[ "first_score" := first_score ]} [quarter; three_quarters]
       [PyInt 0; PyInt 1] 7 0 10 "1d" "Validation" empty_database
     = (Raise IndexError, empty_database)
  /\ ~ (forall sort_predictions_and_labels,
          evaluate format_sample sort_predictions_and_labels
            (sample_evaluator [plain_group "first_score"])
            {[ "first_score" := first_score ]} [quarter; three_quarters]
            [PyInt 0; PyInt 1] 7 0 10 "1d" "Validation" empty_database
          = (Raise ValueError, empty_database)).
Proof.
  split; [vm_compute; discriminate |].
  split; [vm_compute; discriminate |].
  split; [vm_compute; reflexivity |].
  split; [vm_compute; reflexivity |].
  intros H. specialize (H (failing_sort IndexError)). vm_compute in H.
  discriminate.
Qed.

(** C9: a construction whose custom metrics pass the validation returns.
    The evaluator keeps a truthy [sort_seed] as given, at every clock
    reading.  For a falsy one, the integer 0 among them, it stores the
    integer part of the clock reading, so that two constructions with
    that seed at clock readings with different integer parts store
    different seeds, on which a co-sorter that follows the spec can rank
    two entries of one score differently; and [evaluate] hands the stored
    seed, not the given one, to the co-sort. *)
Theorem falsy_sort_seed_replaced_by_clock
    (groups training_groups : list metric_group) (db_engine : bool)
    (seed : pyval) (custom_metrics : option (gmap string metric_function))
    (now : Q) (registry : gmap string metric_function) :
  from_option _validate_metrics (Ok tt) custom_metrics = Ok tt ->
  truthy (VNum (PyInt 0)) = false
  /\ exists self,
       __init__ groups training_groups db_engine seed custom_metrics now
         registry
       = (Ok self, default ∅ custom_metrics ∪ registry)
       /\ (truthy seed = true -> sort_seed self = seed)
       /\ (truthy seed = false ->
           sort_seed self = VNum (PyInt (Double.Qtrunc now)))
       /\ (forall now' : Q, exists self',
             __init__ groups training_groups db_engine seed custom_metrics
               now' registry
             = (Ok self', default ∅ custom_metrics ∪ registry)
             /\ (truthy seed = true -> sort_seed self' = sort_seed self)
             /\ (truthy seed = false ->
                 Double.Qtrunc now' <> Double.Qtrunc now ->
                 sort_seed self' <> sort_seed self
                 /\ exists tie_key,
                      sort_predictions_and_labels_spec tie_key
                        [quarter; quarter] [PyInt 1; PyInt 0]
                        (sort_seed self')
                      <> sort_predictions_and_labels_spec tie_key
                           [quarter; quarter] [PyInt 1; PyInt 0]
                           (sort_seed self)))
       /\ (forall format sort_predictions_and_labels registry2
             predictions_proba labels model_id start_time end_time
             frequency matrix_type db,
             evaluate format sort_predictions_and_labels self registry2
               predictions_proba labels model_id start_time end_time
               frequency matrix_type db
             = evaluate format
                 (fun scores labels' _ =>
                    sort_predictions_and_labels scores labels'
                      (if truthy seed then seed
                       else VNum (PyInt (Double.Qtrunc now))))
                 self registry2 predictions_proba labels model_id
                 start_time end_time frequency matrix_type db).
Proof.
  intros V. split; [reflexivity |].
  eexists. split; [apply __init___returns; exact V |].
  unfold py_or. simpl. split; [intros ->; reflexivity |].
  split; [intros ->; reflexivity |]. split.
  - intros now'. eexists. split; [apply __init___returns; exact V |].
    unfold py_or. simpl. split.
    + intros ->. reflexivity.
    + intros -> N. split; [congruence |].
      exists (fun s i =>
                if py_eqb s (VNum (PyInt (Double.Qtrunc now)))
                then Z.of_nat i else - Z.of_nat i).
      rewrite !sort_predictions_and_labels_spec_tied by reflexivity.
      simpl. rewrite Z.eqb_refl, (proj2 (Z.eqb_neq _ _) N). simpl.
      discriminate.
  - intros. reflexivity.
Qed.

Lemma falsy_sort_seed_replaced_by_clock_witness :
  truthy (VNum (PyInt 0)) = false
  /\ exists self,
       __init__ [] [] true (VNum (PyInt 0)) (Some sample_registry)
         (3400000001 # 2) ∅
       = (Ok self, default ∅ (Some sample_registry) ∪ ∅)
       /\ (truthy (VNum (PyInt 0)) = true -> sort_seed self = VNum (PyInt 0))
       /\ (truthy (VNum (PyInt 0)) = false ->
           sort_seed self
           = VNum (PyInt (Double.Qtrunc (3400000001 # 2))))
       /\ (forall now' : Q, exists self',
             __init__ [] [] true (VNum (PyInt 0)) (Some sample_registry)
               now' ∅
             = (Ok self', default ∅ (Some sample_registry) ∪ ∅)
             /\ (truthy (VNum (PyInt 0)) = true ->
                 sort_seed self' = sort_seed self)
             /\ (truthy (VNum (PyInt 0)) = false ->
                 Double.Qtrunc now' <> Double.Qtrunc (3400000001 # 2) ->
                 sort_seed self' <> sort_seed self
                 /\ exists tie_key,
                      sort_predictions_and_labels_spec tie_key
                        [quarter; quarter] [PyInt 1; PyInt 0]
                        (sort_seed self')
                      <> sort_predictions_and_labels_spec tie_key
                           [quarter; quarter] [PyInt 1; PyInt 0]
                           (sort_seed self)))
       /\ (forall format sort_predictions_and_labels registry2
             predictions_proba labels model_id start_time end_time
             frequency matrix_type db,
             evaluate format sort_predictions_and_labels self registry2
               predictions_proba labels model_id start_time end_time
               frequency matrix_type db
             = evaluate format
                 (fun scores labels' _ =>
                    sort_predictions_and_labels scores labels'
                      (if truthy (VNum (PyInt 0)) then VNum (PyInt 0)
                       else VNum (PyInt (Double.Qtrunc (3400000001 # 2)))))
                 self registry2 predictions_proba labels model_id
                 start_time end_time frequency matrix_type db).
Proof.
  apply (falsy_sort_seed_replaced_by_clock [] [] true (VNum (PyInt 0))
           (Some sample_registry) (3400000001 # 2) ∅).
  vm_compute. reflexivity.
Defined.

(** C10: after an evaluator is built with custom metrics, the class
    dictionary holds them, and the generator of any other evaluator finds
    them there; a name that was absent before made that generator raise. *)
Theorem custom_metrics_shared_by_all_instances (format : pyval -> string)
    (metric_groups training_metric_groups : list metric_group)
    (db_engine : bool) (seed : pyval)
    (custom_metrics : gmap string metric_function) (now : Q)
    (registry registry' : gmap string metric_function)
    (self other : ModelEvaluator) (name : string) (fn : metric_function)
    (parameters threshold_config : dict)
    (predictions_proba : option (list pynum)) (predictions_binary : list Z)
    (labels : list pynum) (matrix_type : string) (t : table) :
  __init__ metric_groups training_metric_groups db_engine seed
    (Some custom_metrics) now registry = (Ok self, registry') ->
  custom_metrics !! name = Some fn ->
  table_obj matrix_type = Ok t ->
  registry' !! name = Some fn
  /\ (exists ev,
        _generate_evaluations format other registry' [name] [parameters]
          threshold_config predictions_proba predictions_binary labels
          matrix_type = Ok [ev]
        /\ results_schema.value ev
           = metric_call fn predictions_proba predictions_binary labels
               parameters)
  /\ (registry !! name = None ->
      _generate_evaluations format other registry [name] [parameters]
        threshold_config predictions_proba predictions_binary labels
        matrix_type = Raise AttributeError
      /\ registry' <> registry).
Proof.
  intros H Hm Ht. apply __init___Ok in H as [_ ->]. simpl.
  assert (L : (custom_metrics ∪ registry) !! name = Some fn)
    by (apply lookup_union_Some_l; exact Hm).
  split; [exact L |]. split.
  - unfold _generate_evaluations. simpl. rewrite L, Ht. bind_step.
    eexists. split; reflexivity.
  - intros Hn. split.
    + apply _generate_evaluations_first_unknown. exact Hn.
    + intros E. rewrite E in L. congruence.
Qed.

Lemma custom_metrics_shared_by_all_instances_witness :
  ({[ "first_score" := first_score ]} ∪ (∅ : gmap string metric_function))
    !! "first_score" = Some first_score
  /\ (exists ev,
        _generate_evaluations format_sample (sample_evaluator [])
          ({[ "first_score" := first_score ]} ∪ ∅) ["first_score"] [[]] []
          (Some [quarter]) [1] [PyInt 1] "Test" = Ok [ev]
        /\ results_schema.value ev
           = metric_call first_score (Some [quarter]) [1] [PyInt 1] [])
  /\ ((∅ : gmap string metric_function) !! "first_score" = None ->
      _generate_evaluations format_sample (sample_evaluator []) ∅
        ["first_score"] [[]] [] (Some [quarter]) [1] [PyInt 1] "Test"
      = Raise AttributeError
      /\ {[ "first_score" := first_score ]} ∪ ∅
         <> (∅ : gmap string metric_function)).
Proof.
  apply (custom_metrics_shared_by_all_instances format_sample [] [] true
           VNone {[ "first_score" := first_score ]} 0 ∅
           ({[ "first_score" := first_score ]} ∪ ∅)
           {| metric_groups := []; training_metric_groups := [];
              sort_seed := VNum (PyInt 0); sessionmaker := true |}
           (sample_evaluator []) "first_score" first_score [] []
           (Some [quarter]) [1] [PyInt 1] "Test" TestEvaluation).
  - vm_compute. reflexivity.
  - vm_compute. reflexivity.
  - reflexivity.
Defined.

(** * Further properties of the code *)

(** ** [generate_binary_at_x] *)

Module BinarizerMore.
Import Double DoubleFacts BinarizerFacts.

Lemma py_lt_down (i j : Z) (c : pynum) :
  i <= j -> py_lt (PyInt j) c = true -> py_lt (PyInt i) c = true.
Proof.
  intros Hij. destruct c as [k | [v | s |]]; simpl; try done.
  - intros H. apply Z.ltb_lt in H. apply Z.ltb_lt. lia.
  - intros H. apply negb_true_iff, Qle_bool_false in H.
    apply negb_true_iff, Qle_bool_false.
    eapply Qle_lt_trans; [| exact H]. rewrite <- Zle_Qle. exact Hij.
Qed.

Lemma mark_0_or_1 c x : mark c x = 0 \/ mark c x = 1.
Proof. unfold mark. destruct (py_lt _ _); auto. Qed.

Lemma count_occ_replicate (n : nat) (x y : Z) :
  count_occ Z.eq_dec (replicate n x) y = if decide (x = y) then n else 0%nat.
Proof.
  induction n as [| n IH]; simpl.
  - destruct (decide _); reflexivity.
  - rewrite IH. destruct (Z.eq_dec x y), (decide (x = y)); congruence.
Qed.

Lemma of_int_pos (n : Z) a :
  0 < n -> of_int n = Ok a -> exists v, a = Fin v /\ (1 <= v)%Q.
Proof.
  intros Hn H. apply of_int_Ok in H as (v & -> & R). exists v.
  split; [reflexivity |].
  destruct (round_small_int 1 1 ltac:(unfold prec; lia) (Qeq_refl _))
    as (w & Rw & Ew).
  pose proof (round_mono 1 (inject_Z n)) as M. rewrite R, Rw in M.
  simpl in M. rewrite <- Ew. apply M.
  change 1%Q with (inject_Z 1). rewrite <- Zle_Qle. lia.
Qed.

(** The percentile cutoff index as a function of the two floats that
    enter the product. *)
Lemma cutoff_index_percentile_Ok n p c :
  cutoff_index n p "percentile" = Ok c <->
  exists a q vn t,
    to_float p = Ok a /\ div a (Fin 100) = Ok q
    /\ of_int (Z.of_nat n) = Ok (Fin vn) /\ mul (Fin vn) q = Fin t
    /\ c = PyInt (Qtrunc t).
Proof.
  unfold cutoff_index.
  change (String.eqb "percentile" "percentile") with true. cbv iota.
  unfold truediv, fmul. change (to_float hundred) with (Ok (Fin 100)).
  cbn [to_float]. split.
  - intros H.
    apply bind_Ok in H as (q & Q & H). apply bind_Ok in Q as (a & A & Q).
    bind_step in Q.
    apply bind_Ok in H as (t & T & H). apply bind_Ok in T as (an & AN & T).
    bind_step in T. inversion T as [M]. clear T.
    apply bind_Ok in H as (k & K & H). inversion H; subst c.
    destruct (of_int_Ok _ _ AN) as (vn & -> & _).
    subst t. destruct (mul (Fin vn) q) as [w | |] eqn:W; simpl in K;
      try discriminate.
    inversion K; subst k.
    exists a, q, vn, w. auto.
  - intros (a & q & vn & t & -> & Q & -> & T & ->). bind_step.
    rewrite Q. bind_step. rewrite T. reflexivity.
Qed.

Lemma cutoff_index_percentile_fle n p1 p2 a1 a2 k1 k2 :
  to_float p1 = Ok a1 -> to_float p2 = Ok a2 -> fle a1 a2 ->
  cutoff_index n p1 "percentile" = Ok (PyInt k1) ->
  cutoff_index n p2 "percentile" = Ok (PyInt k2) ->
  k1 <= k2.
Proof.
  intros A1 A2 L C1 C2.
  apply cutoff_index_percentile_Ok in C1
    as (a1' & q1 & vn & t1 & A1' & Q1 & N1 & T1 & E1).
  apply cutoff_index_percentile_Ok in C2
    as (a2' & q2 & vn' & t2 & A2' & Q2 & N2 & T2 & E2).
  rewrite A1 in A1'. rewrite A2 in A2'. rewrite N1 in N2.
  inversion A1'; inversion A2'; inversion N2; inversion E1; inversion E2.
  subst. apply Qtrunc_mono.
  pose proof (div_pos_mono _ _ 100 _ _ ltac:(reflexivity) L Q1 Q2) as Lq.
  apply (mul_nonneg_mono vn' q1 q2 t1 t2); try assumption.
  apply of_int_Ok in N1 as (v & E & R). inversion E; subst v.
  apply (round_nonneg (inject_Z (Z.of_nat n))); [| exact R].
  change 0%Q with (inject_Z 0). rewrite <- Zle_Qle. lia.
Qed.

Lemma generate_binary_at_x_Raise {A} (l : list A) x u e :
  generate_binary_at_x l x u = Raise e ->
  String.eqb u "percentile" = true
  /\ (e = OverflowError \/ e = ValueError).
Proof.
  assert (Z100 : is_zero 100 = false) by reflexivity.
  intros H.
  unfold generate_binary_at_x, cutoff_index, truediv, fmul, to_float,
    of_int, div, to_int, hundred in H.
  destruct (String.eqb u "percentile"); [| discriminate].
  split; [reflexivity |].
  repeat (bind_step in H; rewrite ?Z100 in H;
          first [ discriminate
                | (inversion H; subst e; auto; fail)
                | match type of H with
                  | context [match ?y with _ => _ end] => destruct y
                  end ]).
Qed.

Lemma cutoff_index_0 (n : nat) :
  Z.of_nat n <= 2 ^ 63 -> cutoff_index n (PyInt 0) "percentile" = Ok (PyInt 0).
Proof.
  intros Hn. apply cutoff_index_percentile_Ok.
  destruct (to_float_bounded (PyInt (Z.of_nat n)) 63) as (vn & Rn & _).
  { unfold emax. lia. }
  { simpl. lia. }
  simpl in Rn. exists (Fin 0), (Fin 0), vn, 0%Q.
  split; [reflexivity |]. split; [reflexivity |]. split; [exact Rn |].
  split; [| reflexivity].
  simpl. apply round_of_zero. ring.
Qed.

End BinarizerMore.

Section BinarizerExtras.
Import Double DoubleFacts BinarizerFacts BinarizerMore.
Context {T : Type}.
Implicit Types (l : list T) (b : list Z) (i j : nat).

(** X1: the result has one entry per prediction, each 0 or 1, and the ones
    come first: a position marked 1 has every earlier position marked 1,
    whatever the cutoff and the unit. *)
Theorem binary_vector_is_prefix_of_ones l x u b :
  generate_binary_at_x l x u = Ok b ->
  length b = length l
  /\ (forall i v, b !! i = Some v -> v = 0 \/ v = 1)
  /\ (forall i j, (i <= j)%nat -> b !! j = Some 1 -> b !! i = Some 1).
Proof.
  intros H. apply generate_binary_at_x_Ok in H as (c & _ & ->).
  split; [apply marks_length |]. split.
  - intros i v Hi.
    assert (Hn : (i < length l)%nat).
    { apply lookup_lt_Some in Hi. rewrite marks_length in Hi. exact Hi. }
    rewrite marks_lookup in Hi by exact Hn. inversion Hi.
    apply mark_0_or_1.
  - intros i j Hij Hj. apply marks_lookup_1 in Hj as [Hn Hlt].
    apply marks_lookup_1. split; [lia |].
    apply (py_lt_down _ (Z.of_nat j)); [lia | exact Hlt].
Qed.

(** X2: with a unit other than ['percentile'] and an integer cutoff [k], the
    number of ones is [k] clamped between 0 and the number of
    predictions; [k <= 0] gives all zeros and [k] at least the length all
    ones. *)
Theorem top_n_marks_first_k l (k : Z) u :
  String.eqb u "percentile" = false ->
  exists b,
    generate_binary_at_x l (PyInt k) u = Ok b
    /\ Z.of_nat (count_occ Z.eq_dec b 1)
       = Z.min (Z.max k 0) (Z.of_nat (length l))
    /\ (k <= 0 -> b = replicate (length l) 0)
    /\ (Z.of_nat (length l) <= k -> b = replicate (length l) 1).
Proof.
  intros Hu. eexists. split; [apply generate_binary_at_x_top_n, Hu |].
  split; [| split].
  - rewrite count_occ_app, !count_occ_replicate.
    destruct (decide (1 = 1)); [| congruence].
    destruct (decide (0 = 1)); [discriminate |]. lia.
  - intros Hk. replace (Z.to_nat k) with 0%nat by lia. simpl.
    f_equal. lia.
  - intros Hk. replace (Nat.min (Z.to_nat k) (length l)) with (length l)
      by lia.
    replace (length l - length l)%nat with 0%nat by lia. apply app_nil_r.
Qed.

(** X3: with a unit other than ['percentile'] the call returns whatever the
    cutoff; a NaN or minus infinity cutoff marks nothing and plus
    infinity marks everything. *)
Theorem other_units_never_raise l x u :
  String.eqb u "percentile" = false ->
  exists b,
    generate_binary_at_x l x u = Ok b
    /\ length b = length l
    /\ (x = PyFloat NaN -> b = replicate (length l) 0)
    /\ (x = PyFloat (Inf true) -> b = replicate (length l) 0)
    /\ (x = PyFloat (Inf false) -> b = replicate (length l) 1).
Proof.
  intros Hu. exists (map (mark x) (range (length l))).
  split.
  { apply generate_binary_at_x_Ok. exists x.
    split; [apply cutoff_index_top_n, Hu | reflexivity]. }
  split; [apply marks_length |].
  assert (C : forall v, (forall z, mark x z = v) ->
                        map (mark x) (range (length l))
                        = replicate (length l) v).
  { intros v Hv. apply list_eq. intros i.
    destruct (decide (i < length l)%nat) as [Hi | Hi].
    - rewrite marks_lookup by exact Hi. rewrite Hv.
      symmetry. apply lookup_replicate_2. exact Hi.
    - rewrite !lookup_ge_None_2; [reflexivity | |].
      + rewrite length_replicate. lia.
      + rewrite marks_length. lia. }
  repeat split; intros ->; apply C; intros z; reflexivity.
Qed.

(** X4: in the percentile case the call raises nothing but [OverflowError]
    and [ValueError]; a NaN cutoff raises [ValueError], and an infinite
    one [OverflowError] when there is a prediction. *)
Theorem percentile_errors l :
  (forall x e, generate_binary_at_x l x "percentile" = Raise e ->
               e = OverflowError \/ e = ValueError)
  /\ (Z.of_nat (length l) <= 2 ^ 63 ->
      generate_binary_at_x l (PyFloat NaN) "percentile" = Raise ValueError)
  /\ (l <> [] -> forall s,
      generate_binary_at_x l (PyFloat (Inf s)) "percentile"
      = Raise OverflowError).
Proof.
  assert (Z100 : is_zero 100 = false) by reflexivity.
  split; [| split].
  - intros x e H. apply generate_binary_at_x_Raise in H as [_ H]. exact H.
  - intros Hn. unfold generate_binary_at_x, cutoff_index.
    change (String.eqb "percentile" "percentile") with true. cbv iota.
    unfold truediv, fmul. cbn [to_float hundred mbind result_bind div].
    rewrite Z100. bind_step.
    destruct (to_float_bounded (PyInt (Z.of_nat (length l))) 63)
      as (vn & Rn & _).
    { unfold emax. lia. }
    { simpl. lia. }
    simpl in Rn. rewrite Rn. reflexivity.
  - intros Hl s. unfold generate_binary_at_x, cutoff_index.
    change (String.eqb "percentile" "percentile") with true. cbv iota.
    unfold truediv, fmul. cbn [to_float hundred mbind result_bind div].
    rewrite Z100. bind_step.
    destruct (of_int (Z.of_nat (length l))) as [a | e] eqn:R.
    + apply of_int_pos in R as (v & -> & Hv).
      * bind_step. unfold mul.
        assert (Zv : is_zero v = false).
        { unfold is_zero. destruct (Qeq_bool v 0) eqn:B; [| reflexivity].
          apply Qeq_bool_iff in B. exfalso. lra. }
        rewrite Zv. reflexivity.
      * destruct l; [congruence | simpl; lia].
    + unfold of_int in R. destruct (round _); inversion R; reflexivity.
Qed.

(** X5: a percentile between 0 and 100, on up to [2^53] predictions, gives
    [k] ones followed by zeros for some [k] up to the length. *)
Theorem percentile_between_0_and_100 l p :
  num_between 0 100 p -> Z.of_nat (length l) <= 2 ^ 53 ->
  exists k : nat,
    (k <= length l)%nat
    /\ generate_binary_at_x l p "percentile"
       = Ok (replicate k 1 ++ replicate (length l - k) 0).
Proof.
  intros Hp Hn.
  assert (M : magnitude_le p 900).
  { destruct p as [z | [v | |]]; try contradiction.
    - change (0 <= z <= 100) in Hp. change (- 2 ^ 900 <= z <= 2 ^ 900).
      assert (100 <= 2 ^ 900) by (vm_compute; discriminate). lia.
    - change (0 <= v <= inject_Z 100)%Q in Hp.
      change (- pow2 900 <= v <= pow2 900)%Q.
      assert (H : (inject_Z 100 <= pow2 900)%Q).
      { rewrite pow2_nonneg_inject by lia. rewrite <- Zle_Qle.
        vm_compute. discriminate. }
      pose proof (pow2_pos 900). lra. }
  destruct (cutoff_index_percentile_total (length l) p ltac:(lia) M)
    as (k & K).
  assert (A : exists v, to_float p = Ok (Fin v) /\ (0 <= v <= inject_Z 100)%Q).
  { destruct p as [z | [v | |]]; try contradiction.
    - change (0 <= z <= 100) in Hp. cbn [to_float].
      destruct (of_int_small z ltac:(unfold prec; lia)) as (v & -> & E).
      exists v. split; [reflexivity |]. rewrite E.
      change 0%Q with (inject_Z 0). rewrite <- !Zle_Qle. lia.
    - eauto. }
  destruct A as (v & A & Hv).
  assert (K0 : 0 <= k).
  { apply (cutoff_index_percentile_fle (length l) (PyInt 0) p (Fin 0) (Fin v));
      [reflexivity | exact A | simpl; lra | | exact K].
    apply cutoff_index_0. lia. }
  assert (K1 : k <= Z.of_nat (length l)).
  { destruct (of_int_small 100 ltac:(unfold prec; lia)) as (w & W & Ew).
    apply (cutoff_index_percentile_fle (length l) p (PyInt 100) (Fin v)
             (Fin w)); [exact A | exact W | simpl; lra | exact K |].
    apply cutoff_index_100. exact Hn. }
  exists (Z.to_nat k). split; [lia |].
  apply generate_binary_at_x_Ok. exists (PyInt k). split; [exact K |].
  rewrite marks_prefix. replace (Nat.min (Z.to_nat k) (length l))
    with (Z.to_nat k) by lia. reflexivity.
Qed.

(** X6: a percentile of 0 or less marks nothing. *)
Theorem percentile_not_positive l p :
  num_between (- 2 ^ 900) 0 p -> Z.of_nat (length l) <= 2 ^ 63 ->
  generate_binary_at_x l p "percentile" = Ok (replicate (length l) 0).
Proof.
  intros Hp Hn.
  assert (M : magnitude_le p 900).
  { destruct p as [z | [v | |]]; try contradiction.
    - change (- 2 ^ 900 <= z <= 0) in Hp. change (- 2 ^ 900 <= z <= 2 ^ 900).
      assert (0 <= 2 ^ 900) by (vm_compute; discriminate). lia.
    - change (inject_Z (- 2 ^ 900) <= v <= 0)%Q in Hp.
      change (- pow2 900 <= v <= pow2 900)%Q.
      pose proof (pow2_pos 900).
      rewrite inject_Z_opp, <- pow2_nonneg_inject in Hp by lia. lra. }
  destruct (cutoff_index_percentile_total (length l) p Hn M) as (k & K).
  assert (A : exists a, to_float p = Ok a /\ fle a (Fin 0)).
  { destruct p as [z | [v | |]]; try contradiction.
    - change (- 2 ^ 900 <= z <= 0) in Hp.
      destruct (to_float_bounded (PyInt z) 900 ltac:(unfold emax; lia) M)
        as (v & R & _).
      cbn [to_float] in R |- *. rewrite R. exists (Fin v).
      split; [reflexivity |].
      apply of_int_Ok in R as (v' & E & R). inversion E; subst v'.
      pose proof (round_mono (inject_Z z) 0) as L. rewrite R in L.
      apply L. change 0%Q with (inject_Z 0). rewrite <- Zle_Qle. lia.
    - change (inject_Z (- 2 ^ 900) <= v <= 0)%Q in Hp.
      exists (Fin v). split; [reflexivity |]. apply Hp. }
  destruct A as (a & A & La).
  assert (K0 : k <= 0).
  { apply (cutoff_index_percentile_fle (length l) p (PyInt 0) a (Fin 0));
      [exact A | reflexivity | exact La | exact K |].
    apply cutoff_index_0. exact Hn. }
  apply generate_binary_at_x_Ok. exists (PyInt k). split; [exact K |].
  symmetry. apply marks_all_zero. exact K0.
Qed.

(** X7: for a percentile that is not negative, a position marked on a list of
    predictions is marked on every list that is at least as long. *)
Theorem more_predictions_select_no_fewer {U} l (l' : list U) p b b' :
  (length l <= length l')%nat ->
  py_lt p (PyInt 0) = false ->
  generate_binary_at_x l p "percentile" = Ok b ->
  generate_binary_at_x l' p "percentile" = Ok b' ->
  forall i, b !! i = Some 1 -> b' !! i = Some 1.
Proof.
  intros Hlen Hp H H' i Hi.
  apply generate_binary_at_x_Ok in H as (c & C & ->).
  apply generate_binary_at_x_Ok in H' as (c' & C' & ->).
  apply cutoff_index_percentile_Ok in C
    as (a & q & vn & t & A & Q & N & M & ->).
  apply cutoff_index_percentile_Ok in C'
    as (a' & q' & vn' & t' & A' & Q' & N' & M' & ->).
  rewrite A in A'. inversion A'; subst a'. rewrite Q in Q'.
  inversion Q'; subst q'. clear A' Q'.
  apply marks_lookup_1 in Hi as [Hn Hlt]. apply marks_lookup_1.
  split; [lia |]. simpl in Hlt |- *. apply Z.ltb_lt in Hlt.
  apply Z.ltb_lt. eapply Z.lt_le_trans; [exact Hlt |].
  apply Qtrunc_mono.
  assert (Hvn : (0 <= vn <= vn')%Q).
  { apply of_int_Ok in N as (v & E & R). inversion E; subst v.
    apply of_int_Ok in N' as (v' & E' & R'). inversion E'; subst v'.
    split.
    - apply (round_nonneg (inject_Z (Z.of_nat (length l)))); [| exact R].
      change 0%Q with (inject_Z 0). rewrite <- Zle_Qle. lia.
    - pose proof (round_mono (inject_Z (Z.of_nat (length l)))
                    (inject_Z (Z.of_nat (length l')))) as L.
      rewrite R, R' in L. apply L. rewrite <- Zle_Qle. lia. }
  destruct q as [x | s |]; simpl in M, M';
    try (destruct (is_zero vn); discriminate); try discriminate.
  assert (Hx : (0 <= x)%Q).
  { destruct a as [v | s |]; unfold div in Q;
      change (is_zero 100) with false in Q; cbv iota in Q;
      inversion Q as [R].
    apply (round_nonneg (v / 100)); [| exact R].
    assert (0 <= v)%Q.
    { destruct p as [z | f]; simpl in A, Hp.
      - apply of_int_Ok in A as (v' & E & R'). inversion E; subst v'.
        apply (round_nonneg (inject_Z z)); [| exact R'].
        change 0%Q with (inject_Z 0). rewrite <- Zle_Qle.
        apply Z.ltb_ge in Hp. exact Hp.
      - inversion A; subst f. simpl in Hp.
        apply negb_false_iff, Qle_bool_iff in Hp. exact Hp. }
    apply Qmult_le_0_compat; [assumption | discriminate]. }
  pose proof (round_mono (vn * x) (vn' * x)) as L. rewrite M, M' in L.
  apply L. apply Qmult_le_compat_r; [apply Hvn | exact Hx].
Qed.

End BinarizerExtras.

Lemma binary_vector_is_prefix_of_ones_witness :
  length [1; 1; 0; 0] = length (replicate 4 tt)
  /\ (forall (i : nat) v, [1; 1; 0; 0] !! i = Some v -> v = 0 \/ v = 1)
  /\ (forall i j : nat, (i <= j)%nat ->
        [1; 1; 0; 0] !! j = Some 1 -> [1; 1; 0; 0] !! i = Some 1).
Proof.
  apply (binary_vector_is_prefix_of_ones (replicate 4 tt)
           (PyFloat (Double.Fin 50)) "percentile" [1; 1; 0; 0]).
  vm_compute. reflexivity.
Defined.

Lemma top_n_marks_first_k_witness :
  exists b,
    generate_binary_at_x (replicate 4 tt) (PyInt 2) "top_n" = Ok b
    /\ Z.of_nat (count_occ Z.eq_dec b 1)
       = Z.min (Z.max 2 0) (Z.of_nat (length (replicate 4 tt)))
    /\ (2 <= 0 -> b = replicate (length (replicate 4 tt)) 0)
    /\ (Z.of_nat (length (replicate 4 tt)) <= 2
        -> b = replicate (length (replicate 4 tt)) 1).
Proof.
  apply (top_n_marks_first_k (replicate 4 tt) 2 "top_n"). reflexivity.
Defined.

Lemma other_units_never_raise_witness :
  exists b,
    generate_binary_at_x (replicate 3 tt) (PyFloat Double.NaN) "top_n" = Ok b
    /\ length b = length (replicate 3 tt)
    /\ (PyFloat Double.NaN = PyFloat Double.NaN
        -> b = replicate (length (replicate 3 tt)) 0)
    /\ (PyFloat Double.NaN = PyFloat (Double.Inf true)
        -> b = replicate (length (replicate 3 tt)) 0)
    /\ (PyFloat Double.NaN = PyFloat (Double.Inf false)
        -> b = replicate (length (replicate 3 tt)) 1).
Proof.
  apply (other_units_never_raise (replicate 3 tt) (PyFloat Double.NaN)
           "top_n"). reflexivity.
Defined.

Lemma percentile_between_0_and_100_witness :
  exists k : nat,
    (k <= length (replicate 100 tt))%nat
    /\ generate_binary_at_x (replicate 100 tt) (PyInt 29) "percentile"
       = Ok (replicate k 1 ++ replicate (length (replicate 100 tt) - k) 0).
Proof.
  apply (percentile_between_0_and_100 (replicate 100 tt) (PyInt 29)).
  - simpl. lia.
  - vm_compute. discriminate.
Defined.

Lemma percentile_not_positive_witness :
  generate_binary_at_x (replicate 5 tt) (PyInt (-3)) "percentile"
  = Ok (replicate (length (replicate 5 tt)) 0).
Proof.
  apply (percentile_not_positive (replicate 5 tt) (PyInt (-3))).
  - split; vm_compute; discriminate.
  - vm_compute. discriminate.
Defined.

Lemma more_predictions_select_no_fewer_witness :
  [1; 0; 0; 0] !! 0%nat = Some 1
  /\ [1; 1; 0; 0; 0; 0; 0; 0] !! 0%nat = Some 1.
Proof.
  split; [reflexivity |].
  apply (more_predictions_select_no_fewer (replicate 4 tt) (replicate 8 tt)
           (PyInt 25) [1; 0; 0; 0] [1; 1; 0; 0; 0; 0; 0; 0]).
  - vm_compute. lia.
  - reflexivity.
  - vm_compute. reflexivity.
  - vm_compute. reflexivity.
  - reflexivity.
Defined.

(** ** The engine: lemmas *)

Module EngineMore.
Import BinarizerFacts.

Lemma for_each_ext {A B} (f g : A -> result (list B)) l :
  (forall x, f x = g x) -> for_each f l = for_each g l.
Proof.
  intros H. induction l as [| x l IH]; simpl; [reflexivity |].
  rewrite H, IH. reflexivity.
Qed.

Lemma for_each_flat_map {A B C} (f : A -> result (list B)) (h : B -> C)
    (g : A -> list C) l out :
  (forall x es, f x = Ok es -> map h es = g x) ->
  for_each f l = Ok out -> map h out = flat_map g l.
Proof.
  intros Hf. revert out. induction l as [| x l IH]; intros out H; simpl in H.
  - inversion H. reflexivity.
  - apply bind_Ok in H as (e & He & H). apply bind_Ok in H as (es & Hes & H).
    inversion H; subst out. simpl. rewrite map_app, (Hf x e He), (IH es Hes).
    reflexivity.
Qed.


Lemma lower_ascii_idem c : lower_ascii (lower_ascii c) = lower_ascii c.
Proof.
  destruct c as [[] [] [] [] [] [] [] []]; vm_compute; reflexivity.
Qed.

Lemma lower_idem s : lower (lower s) = lower s.
Proof.
  induction s as [| c s IH]; simpl; [reflexivity |].
  rewrite lower_ascii_idem, IH. reflexivity.
Qed.

Lemma table_obj_lower mt : table_obj (lower mt) = table_obj mt.
Proof. unfold table_obj. rewrite lower_idem. reflexivity. Qed.

Lemma mask_select_Ok {A} (a : list A) mask r :
  mask_select a mask = Ok r ->
  length a = length mask
  /\ length r = length (List.filter (fun b : bool => b) mask).
Proof.
  revert mask r. induction a as [| x a IH]; intros [| b mask] r H;
    simpl in H; try discriminate.
  - inversion H. auto.
  - apply bind_Ok in H as (r' & Hr & H). inversion H; subst r.
    destruct (IH mask r' Hr) as [E1 E2]. simpl.
    destruct b; simpl; auto.
Qed.

Lemma mask_select_self {A} (p : A -> bool) (a : list A) :
  mask_select a (map p a) = Ok (List.filter p a).
Proof.
  induction a as [| x a IH]; simpl; [reflexivity |].
  rewrite IH. bind_step. destruct (p x); reflexivity.
Qed.

Lemma filter_map_id {A} (p : A -> bool) (a : list A) :
  length (List.filter (fun b : bool => b) (map p a))
  = length (List.filter p a).
Proof.
  induction a as [| x a IH]; simpl; [reflexivity |].
  destruct (p x); simpl; rewrite IH; reflexivity.
Qed.

Lemma count_occ_le_length (l : list Z) (x : Z) :
  (count_occ Z.eq_dec l x <= length l)%nat.
Proof.
  induction l as [| y l IH]; simpl; [lia |].
  destruct (Z.eq_dec y x); lia.
Qed.

Lemma count_ones_le_length (l : list pynum) :
  0 <= count_ones l <= Z.of_nat (length l).
Proof.
  unfold count_ones. split; [lia |].
  apply inj_le. apply length_filter.
Qed.

Lemma for_each_Ok_all {A B} (f : A -> result (list B)) l out :
  for_each f l = Ok out -> forall x, x ∈ l -> exists es, f x = Ok es.
Proof.
  revert out. induction l as [| y l IH]; intros out H x Hx; simpl in H.
  - inversion Hx.
  - apply bind_Ok in H as (e & He & H). apply bind_Ok in H as (es & Hes & H).
    apply elem_of_cons in Hx as [-> | Hx]; [eauto | exact (IH es Hes x Hx)].
Qed.

Lemma flat_map_unit {A B} (g : A -> B) (l : list A) :
  flat_map (fun x => [g x]) l = map g l.
Proof. induction l as [| x l IH]; simpl; [| rewrite IH]; reflexivity. Qed.

Section GeneratorMore.
Variable format : pyval -> string.

Lemma _generate_evaluations_each self registry metrics parameters
    threshold_config predictions_proba predictions_binary labels
    matrix_type evaluations :
  _generate_evaluations format self registry metrics parameters
    threshold_config predictions_proba predictions_binary labels
    matrix_type = Ok evaluations ->
  Forall (fun ev => exists m fn pc t,
    m ∈ metrics /\ pc ∈ parameters /\ registry !! m = Some fn
    /\ table_obj matrix_type = Ok t
    /\ ev = {| results_schema.class := t;
               results_schema.metric := m;
               results_schema.parameter :=
                 parameter_string format (dict_update pc threshold_config);
               results_schema.value :=
                 metric_call fn predictions_proba predictions_binary labels
                   pc;
               results_schema.num_labeled_examples :=
                 Z.of_nat (length labels);
               results_schema.num_labeled_above_threshold :=
                 count_ones (map PyInt predictions_binary);
               results_schema.num_positive_labels := count_ones labels;
               results_schema.sort_seed := sort_seed self;
               results_schema.model_id := None;
               results_schema.evaluation_start_time := None;
               results_schema.evaluation_end_time := None;
               results_schema.as_of_date_frequency := None |}) evaluations.
Proof.
  unfold _generate_evaluations.
  apply for_each_Ok_Forall. intros m es Hm.
  destruct (registry !! m) as [fn |] eqn:R; [| discriminate].
  apply for_each_Ok_Forall. intros pc es' Hpc H.
  apply bind_Ok in H as (t & Ht & H). inversion H; subst es'.
  constructor; [| constructor]. exists m, fn, pc, t. auto.
Qed.

Lemma _generate_evaluations_names self registry metrics parameters
    threshold_config predictions_proba predictions_binary labels
    matrix_type evaluations :
  _generate_evaluations format self registry metrics parameters
    threshold_config predictions_proba predictions_binary labels
    matrix_type = Ok evaluations ->
  map (fun ev => (results_schema.metric ev, results_schema.parameter ev))
    evaluations
  = flat_map (fun m =>
      map (fun pc =>
             (m, parameter_string format (dict_update pc threshold_config)))
        parameters) metrics.
Proof.
  unfold _generate_evaluations.
  apply for_each_flat_map. intros m es.
  destruct (registry !! m) as [fn |]; [| discriminate].
  intros H.
  rewrite <- (flat_map_unit
                (fun pc => (m, parameter_string format
                                 (dict_update pc threshold_config)))).
  revert H. apply for_each_flat_map. intros pc es' H.
  apply bind_Ok in H as (t & Ht & H). inversion H. reflexivity.
Qed.

Lemma flat_map_map_length {A B C} (g : A -> B -> C) (ps : list B)
    (ms : list A) :
  length (flat_map (fun m => map (g m) ps) ms)
  = (length ms * length ps)%nat.
Proof.
  induction ms as [| m ms IH]; simpl; [reflexivity |].
  rewrite length_app, length_map, IH. reflexivity.
Qed.

Lemma _generate_evaluations_length self registry metrics parameters
    threshold_config predictions_proba predictions_binary labels
    matrix_type evaluations :
  _generate_evaluations format self registry metrics parameters
    threshold_config predictions_proba predictions_binary labels
    matrix_type = Ok evaluations ->
  length evaluations = (length metrics * length parameters)%nat.
Proof.
  intros H. apply _generate_evaluations_names in H.
  apply (f_equal length) in H. rewrite length_map in H. rewrite H.
  apply (flat_map_map_length
           (fun m pc => (m, parameter_string format
                              (dict_update pc threshold_config)))).
Qed.

End GeneratorMore.
Section OrchestratorMore.
Variable format : pyval -> string.
Variable sort_predictions_and_labels :
  list pynum -> list pynum -> pyval -> result (list pynum * list pynum).

Lemma _generate_evaluations_lower self registry metrics parameters
    threshold_config predictions_proba predictions_binary labels
    matrix_type :
  _generate_evaluations format self registry metrics parameters
    threshold_config predictions_proba predictions_binary labels
    (lower matrix_type)
  = _generate_evaluations format self registry metrics parameters
      threshold_config predictions_proba predictions_binary labels
      matrix_type.
Proof.
  unfold _generate_evaluations. apply for_each_ext. intros m.
  destruct (registry !! m); [| reflexivity].
  apply for_each_ext. intros pc. rewrite table_obj_lower. reflexivity.
Qed.

Lemma bind_ext {A B} (r : result A) (k k' : A -> result B) :
  (forall a, k a = k' a) -> r ≫= k = r ≫= k'.
Proof. intros H. destruct r; bind_step; [apply H | reflexivity]. Qed.

Lemma bind_cong {A B} (r r' : result A) (k k' : A -> result B) :
  r = r' -> (forall a, k a = k' a) -> r ≫= k = r' ≫= k'.
Proof. intros -> H. apply bind_ext, H. Qed.

Lemma evaluate_group_lower self registry predictions_proba
    predictions_proba_sorted labels_sorted matrix_type group :
  evaluate_group format self registry predictions_proba
    predictions_proba_sorted labels_sorted (lower matrix_type) group
  = evaluate_group format self registry predictions_proba
      predictions_proba_sorted labels_sorted matrix_type group.
Proof.
  unfold evaluate_group. apply bind_cong.
  - destruct (group_thresholds group); [reflexivity |].
    apply bind_ext. intros b. apply _generate_evaluations_lower.
  - intros full. apply bind_cong.
    + apply for_each_ext. intros thresh. repeat (apply bind_ext; intros ?).
      apply _generate_evaluations_lower.
    + intros pct. apply bind_cong; [| reflexivity].
      apply for_each_ext. intros thresh. repeat (apply bind_ext; intros ?).
      apply _generate_evaluations_lower.
Qed.

Lemma _write_to_db_lower self model_id start_time end_time frequency
    evaluations matrix_type db :
  _write_to_db self model_id start_time end_time frequency evaluations
    (lower matrix_type) db
  = _write_to_db self model_id start_time end_time frequency evaluations
      matrix_type db.
Proof. unfold _write_to_db. rewrite table_obj_lower. reflexivity. Qed.

Lemma evaluate_group_Forall (P : Evaluation -> Prop) self registry
    predictions_proba predictions_proba_sorted labels_sorted matrix_type
    group evaluations :
  (forall metrics parameters threshold_config scores binary labels es,
      _generate_evaluations format self registry metrics parameters
        threshold_config scores binary labels matrix_type = Ok es ->
      Forall P es) ->
  evaluate_group format self registry predictions_proba
    predictions_proba_sorted labels_sorted matrix_type group
  = Ok evaluations ->
  Forall P evaluations.
Proof.
  intros G. unfold evaluate_group. intros H.
  apply bind_Ok in H as (full & Hfull & H).
  apply bind_Ok in H as (pct & Hpct & H).
  apply bind_Ok in H as (top & Htop & H).
  inversion H; subst evaluations. clear H.
  repeat (apply Forall_app; split).
  - destruct (group_thresholds group).
    + inversion Hfull. constructor.
    + apply bind_Ok in Hfull as (b & _ & H). exact (G _ _ _ _ _ _ _ H).
  - eapply for_each_Ok_Forall; [| exact Hpct]. intros x es _ H.
    apply bind_Ok in H as (b & _ & H). apply bind_Ok in H as (pc & _ & H).
    apply bind_Ok in H as (pl & _ & H). exact (G _ _ _ _ _ _ _ H).
  - eapply for_each_Ok_Forall; [| exact Htop]. intros x es _ H.
    apply bind_Ok in H as (b & _ & H). apply bind_Ok in H as (pc & _ & H).
    apply bind_Ok in H as (pl & _ & H). exact (G _ _ _ _ _ _ _ H).
Qed.

(** The groups that [evaluate] reads for a [matrix_type]. *)
Lemma evaluate_Ok_inv self registry predictions_proba labels model_id
    start_time end_time frequency matrix_type db db' :
  evaluate format sort_predictions_and_labels self registry
    predictions_proba labels model_id start_time end_time frequency
    matrix_type db = (Ok tt, db') ->
  exists t evaluations,
    table_obj matrix_type = Ok t
    /\ sessionmaker self = true
    /\ Forall (fun ev => results_schema.class ev = t
                         /\ results_schema.sort_seed ev = sort_seed self)
         evaluations
    /\ db' = results_schema.set_rows t
               (List.filter
                  (results_schema.keep model_id start_time end_time frequency)
                  (results_schema.rows t db)
                ++ map (results_schema.bind_key model_id start_time end_time
                          frequency) evaluations) db.
Proof.
  unfold evaluate.
  destruct (sort_predictions_and_labels _ _ _)
    as [[sorted labels_sorted] | e0]; [| discriminate].
  destruct (_ ≫= _) as [evaluations | e] eqn:G; [| discriminate].
  intros W.
  assert (Hs : sessionmaker self = true).
  { unfold _write_to_db in W. destruct (sessionmaker self);
      [reflexivity | discriminate]. }
  assert (exists t, table_obj matrix_type = Ok t) as [t Ht].
  { unfold _write_to_db in W. rewrite Hs in W. simpl in W.
    destruct (table_obj matrix_type); [eauto | discriminate]. }
  assert (Hc : Forall (fun ev => results_schema.class ev = t
                                 /\ results_schema.sort_seed ev
                                    = sort_seed self) evaluations).
  { apply bind_Ok in G as (groups & _ & G).
    eapply for_each_Ok_Forall; [| exact G]. intros g es _.
    apply evaluate_group_Forall.
    intros metrics parameters tc scores binary lbls es' H.
    apply _generate_evaluations_records in H.
    eapply Forall_impl; [exact H |].
    intros ev (_ & _ & _ & Hseed & Hcl & _). split; [congruence | exact Hseed]. }
  exists t, evaluations. split; [exact Ht |]. split; [exact Hs |].
  split; [exact Hc |].
  rewrite (WriterFacts._write_to_db_Ok model_id start_time end_time frequency
             self evaluations matrix_type db t Hs Ht) in W.
  - inversion W. reflexivity.
  - eapply Forall_impl; [exact Hc |]. intros ev [H _]. exact H.
Qed.


End OrchestratorMore.
End EngineMore.

(** ** The engine: properties *)

Section ConstructorExtras.
Import EngineMore.

(** X8: [_validate_metrics] returns or raises [ValueError]; it returns exactly
    when every function has the attribute and the attribute is equal,
    with [==], to [True] or to [False]. *)
Theorem validation_accepts_exactly (custom_metrics : gmap string metric_function) :
  (_validate_metrics custom_metrics = Ok tt
   \/ _validate_metrics custom_metrics = Raise ValueError)
  /\ (_validate_metrics custom_metrics = Ok tt <->
      forall name met, custom_metrics !! name = Some met ->
        exists g, greater_is_better met = Some g
                  /\ (py_eqb g (VBool true) = true
                      \/ py_eqb g (VBool false) = true)).
Proof.
  split.
  - destruct (_validate_metrics custom_metrics) as [[] | e] eqn:V;
      [left; reflexivity | right].
    unfold _validate_metrics in V.
    rewrite (validate_items_Raise _ _ V). reflexivity.
  - rewrite _validate_metrics_Ok. split; intros H name met Hm.
    + specialize (H name met Hm). unfold passes_validation in H.
      destruct (greater_is_better met) as [g |]; [| discriminate].
      exists g. split; [reflexivity |]. apply orb_true_iff. exact H.
    + destruct (H name met Hm) as (g & Hg & Hb). unfold passes_validation.
      rewrite Hg. apply orb_true_iff. exact Hb.
Qed.

(** X9: when one of the custom metrics fails the validation, the
    construction raises [ValueError] and the registry is as before: the
    functions that pass are not registered either. *)
Theorem failed_validation_registers_nothing
    (metric_groups training_metric_groups : list metric_group)
    (db_engine : bool) (seed : pyval)
    (custom_metrics : gmap string metric_function) (now : Q)
    (registry : gmap string metric_function) (name : string)
    (met : metric_function) :
  custom_metrics !! name = Some met ->
  passes_validation met = false ->
  __init__ metric_groups training_metric_groups db_engine seed
    (Some custom_metrics) now registry = (Raise ValueError, registry).
Proof. apply __init___rejects. Qed.

(** X10: a construction that returns leaves in the registry the custom
    metrics, in place of earlier entries of the same names, and every
    other entry as it was; the evaluator has the groups it was given, and
    a session maker exactly when it was given an engine. *)
Theorem construction_updates_registry
    (groups training_groups : list metric_group)
    (db_engine : bool) (seed : pyval)
    (custom_metrics : option (gmap string metric_function)) (now : Q)
    (registry registry' : gmap string metric_function)
    (self : ModelEvaluator) :
  __init__ groups training_groups db_engine seed custom_metrics now registry
  = (Ok self, registry') ->
  (forall name,
      registry' !! name
      = match default ∅ custom_metrics !! name with
        | Some fn => Some fn
        | None => registry !! name
        end)
  /\ metric_groups self = groups
  /\ training_metric_groups self = training_groups
  /\ sessionmaker self = db_engine.
Proof.
  intros H. pose proof (__init___Ok _ _ _ _ _ _ _ _ _ H) as [_ ->].
  split.
  - intros name. rewrite lookup_union.
    destruct (default ∅ custom_metrics !! name) as [fn |];
      destruct (registry !! name); reflexivity.
  - unfold __init__ in H. destruct custom_metrics as [cm |].
    + destruct (bool_decide (cm = ∅)); [inversion H; auto |].
      destruct (_validate_metrics cm); inversion H; auto.
    + inversion H; auto.
Qed.

End ConstructorExtras.

Lemma failed_validation_registers_nothing_witness :
  __init__ [] [] true VNone
    (Some (<[ "unflagged" :=
                {| metric_call := fun _ _ _ _ => PyInt 0;
                   greater_is_better := None |} ]> sample_registry))
    0 sample_registry
  = (Raise ValueError, sample_registry).
Proof.
  apply (failed_validation_registers_nothing [] [] true VNone
           (<[ "unflagged" :=
                 {| metric_call := fun _ _ _ _ => PyInt 0;
                    greater_is_better := None |} ]> sample_registry)
           0 sample_registry "unflagged"
           {| metric_call := fun _ _ _ _ => PyInt 0;
              greater_is_better := None |}).
  - vm_compute. reflexivity.
  - reflexivity.
Defined.

Lemma construction_updates_registry_witness :
  (forall name,
      (sample_registry ∪ (∅ : gmap string metric_function)) !! name
      = match default ∅ (Some sample_registry) !! name with
        | Some fn => Some fn
        | None => (∅ : gmap string metric_function) !! name
        end)
  /\ metric_groups
       {| metric_groups := [plain_group "first_score"];
          training_metric_groups := []; sort_seed := VNum (PyInt 5);
          sessionmaker := true |} = [plain_group "first_score"]
  /\ training_metric_groups
       {| metric_groups := [plain_group "first_score"];
          training_metric_groups := []; sort_seed := VNum (PyInt 5);
          sessionmaker := true |} = []
  /\ sessionmaker
       {| metric_groups := [plain_group "first_score"];
          training_metric_groups := []; sort_seed := VNum (PyInt 5);
          sessionmaker := true |} = true.
Proof.
  apply (construction_updates_registry [plain_group "first_score"] [] true
           (VNum (PyInt 5)) (Some sample_registry) 0 ∅
           (sample_registry ∪ ∅)).
  vm_compute. reflexivity.
Defined.

Section GeneratorExtras.
Import EngineMore.
Variable format : pyval -> string.

(** X11: with a recognized [matrix_type] the generator returns exactly when
    every metric name is registered, and raises [AttributeError]
    otherwise. *)
Theorem generator_returns_iff_registered (self : ModelEvaluator)
    (registry : gmap string metric_function) (metrics : list string)
    (parameters : list dict) (threshold_config : dict)
    (predictions_proba : option (list pynum)) (predictions_binary : list Z)
    (labels : list pynum) (matrix_type : string) (t : table) :
  table_obj matrix_type = Ok t ->
  ((forall m, m ∈ metrics -> is_Some (registry !! m))
   /\ exists evaluations,
        _generate_evaluations format self registry metrics parameters
          threshold_config predictions_proba predictions_binary labels
          matrix_type = Ok evaluations)
  \/ ((exists m, m ∈ metrics /\ registry !! m = None)
      /\ _generate_evaluations format self registry metrics parameters
           threshold_config predictions_proba predictions_binary labels
           matrix_type = Raise AttributeError).
Proof.
  intros Ht.
  destruct (_generate_evaluations format self registry metrics parameters
              threshold_config predictions_proba predictions_binary labels
              matrix_type) as [evs | e] eqn:G.
  - left. split; [| eauto]. intros m Hm.
    unfold _generate_evaluations in G.
    destruct (for_each_Ok_all _ _ _ G m Hm) as (es & Hes).
    destruct (registry !! m); [eauto | discriminate].
  - right. unfold _generate_evaluations in G.
    apply for_each_Raise in G as (m & Hm & G).
    destruct (registry !! m) as [fn |] eqn:R.
    + apply for_each_Raise in G as (pc & _ & G). rewrite Ht in G.
      discriminate.
    + inversion G. split; [eauto | reflexivity].
Qed.

(** X12: the records of the generator come metric by metric and, for each
    metric, parameter combination by parameter combination, each with the
    parameter string of its combination: one record per pair. *)
Theorem generator_records_in_order (self : ModelEvaluator)
    (registry : gmap string metric_function) (metrics : list string)
    (parameters : list dict) (threshold_config : dict)
    (predictions_proba : option (list pynum)) (predictions_binary : list Z)
    (labels : list pynum) (matrix_type : string)
    (evaluations : list Evaluation) :
  _generate_evaluations format self registry metrics parameters
    threshold_config predictions_proba predictions_binary labels
    matrix_type = Ok evaluations ->
  map (fun ev => (results_schema.metric ev, results_schema.parameter ev))
    evaluations
  = flat_map (fun m =>
      map (fun pc =>
             (m, parameter_string format (dict_update pc threshold_config)))
        parameters) metrics
  /\ length evaluations = (length metrics * length parameters)%nat.
Proof.
  intros H. pose proof (_generate_evaluations_names format _ _ _ _ _ _ _ _ _ _ H)
    as E.
  split; [exact E |].
  exact (_generate_evaluations_length format _ _ _ _ _ _ _ _ _ _ H).
Qed.

(** X13: a record of the generator is of the class that [matrix_type] selects,
    carries the evaluator's seed and the value of the registered function
    of its metric, has no key column set, and its counts are in range. *)
Theorem generator_records_unbound (self : ModelEvaluator)
    (registry : gmap string metric_function) (metrics : list string)
    (parameters : list dict) (threshold_config : dict)
    (predictions_proba : option (list pynum)) (predictions_binary : list Z)
    (labels : list pynum) (matrix_type : string)
    (evaluations : list Evaluation) :
  _generate_evaluations format self registry metrics parameters
    threshold_config predictions_proba predictions_binary labels
    matrix_type = Ok evaluations ->
  Forall (fun ev =>
    table_obj matrix_type = Ok (results_schema.class ev)
    /\ results_schema.sort_seed ev = sort_seed self
    /\ results_schema.model_id ev = None
    /\ results_schema.evaluation_start_time ev = None
    /\ results_schema.evaluation_end_time ev = None
    /\ results_schema.as_of_date_frequency ev = None
    /\ (exists fn pc,
          registry !! results_schema.metric ev = Some fn
          /\ pc ∈ parameters
          /\ results_schema.value ev
             = metric_call fn predictions_proba predictions_binary labels pc)
    /\ 0 <= results_schema.num_positive_labels ev
       <= results_schema.num_labeled_examples ev
    /\ 0 <= results_schema.num_labeled_above_threshold ev
       <= Z.of_nat (length predictions_binary)) evaluations.
Proof.
  intros H. apply _generate_evaluations_each in H.
  eapply Forall_impl; [exact H |].
  intros ev (m & fn & pc & t & Hm & Hpc & R & Ht & ->). simpl.
  repeat (split; [done |]).
  split; [eauto |]. split; [apply count_ones_le_length |].
  rewrite count_ones_ints. split; [lia |].
  apply inj_le, count_occ_le_length.
Qed.

End GeneratorExtras.

Lemma generator_returns_iff_registered_witness :
  ((forall m, m ∈ ["first_score"] -> is_Some (sample_registry !! m))
   /\ exists evaluations,
        _generate_evaluations format_sample (sample_evaluator [])
          sample_registry ["first_score"] [[]] [] (Some [quarter]) [1]
          [PyInt 1] "Test" = Ok evaluations)
  \/ ((exists m, m ∈ ["first_score"] /\ sample_registry !! m = None)
      /\ _generate_evaluations format_sample (sample_evaluator [])
           sample_registry ["first_score"] [[]] [] (Some [quarter]) [1]
           [PyInt 1] "Test" = Raise AttributeError).
Proof.
  apply (generator_returns_iff_registered format_sample (sample_evaluator [])
           sample_registry ["first_score"] [[]] [] (Some [quarter]) [1]
           [PyInt 1] "Test" TestEvaluation).
  reflexivity.
Defined.

Lemma generator_records_in_order_witness :
  map (fun ev => (results_schema.metric ev, results_schema.parameter ev))
    (generated sample_generation)
  = flat_map (fun m =>
      map (fun pc =>
             (m, parameter_string format_sample
                   (dict_update pc [("abs", VNum (PyInt 3))])))
        [[("beta", VNum (PyInt 2))]; []]) ["first_score"; "first_score"]
  /\ length (generated sample_generation)
     = (length ["first_score"; "first_score"]
        * length [[("beta", VNum (PyInt 2))]; ([] : dict)])%nat.
Proof.
  apply (generator_records_in_order format_sample (sample_evaluator [])
           sample_registry ["first_score"; "first_score"]
           [[("beta", VNum (PyInt 2))]; []] [("abs", VNum (PyInt 3))] None
           [1; 1; 1; 0] [PyInt 1; PyInt 1; PyInt 0; PyInt 0] "Test").
  vm_compute. reflexivity.
Defined.

Lemma generator_records_unbound_witness :
  Forall (fun ev =>
    table_obj "Test" = Ok (results_schema.class ev)
    /\ results_schema.sort_seed ev = sort_seed (sample_evaluator [])
    /\ results_schema.model_id ev = None
    /\ results_schema.evaluation_start_time ev = None
    /\ results_schema.evaluation_end_time ev = None
    /\ results_schema.as_of_date_frequency ev = None
    /\ (exists fn pc,
          sample_registry !! results_schema.metric ev = Some fn
          /\ pc ∈ [[("beta", VNum (PyInt 2))]; []]
          /\ results_schema.value ev
             = metric_call fn None [1; 1; 1; 0]
                 [PyInt 1; PyInt 1; PyInt 0; PyInt 0] pc)
    /\ 0 <= results_schema.num_positive_labels ev
       <= results_schema.num_labeled_examples ev
    /\ 0 <= results_schema.num_labeled_above_threshold ev
       <= Z.of_nat (length [1; 1; 1; 0])) (generated sample_generation).
Proof.
  apply (generator_records_unbound format_sample (sample_evaluator [])
           sample_registry ["first_score"; "first_score"]
           [[("beta", VNum (PyInt 2))]; []] [("abs", VNum (PyInt 3))] None
           [1; 1; 1; 0] [PyInt 1; PyInt 1; PyInt 0; PyInt 0] "Test").
  vm_compute. reflexivity.
Defined.

Section OrchestratorExtras.
Import EngineMore BinarizerMore.
Variable format : pyval -> string.
Variable sort_predictions_and_labels :
  list pynum -> list pynum -> pyval -> result (list pynum * list pynum).


(** X14: [evaluate] reads [matrix_type] through [lower] only: the call with
    [matrix_type.lower()] is the same call. *)
Theorem evaluate_ignores_case (self : ModelEvaluator)
    (registry : gmap string metric_function)
    (predictions_proba labels : list pynum)
    (model_id start_time end_time : Z) (frequency matrix_type : string)
    (db : database) :
  evaluate format sort_predictions_and_labels self registry
      predictions_proba labels model_id start_time end_time
    frequency (lower matrix_type) db
  = evaluate format sort_predictions_and_labels self registry
      predictions_proba labels model_id start_time end_time
      frequency matrix_type db.
Proof.
  unfold evaluate.
  destruct (sort_predictions_and_labels _ _ _)
    as [[sorted labels_sorted] | e0]; [| reflexivity].
  rewrite lower_idem.
  assert (G : forall groups,
    for_each (evaluate_group format self registry predictions_proba sorted
                labels_sorted (lower matrix_type)) groups
    = for_each (evaluate_group format self registry predictions_proba sorted
                  labels_sorted matrix_type) groups).
  { intros groups. apply for_each_ext. intros g. apply evaluate_group_lower. }
  rewrite (bind_ext _ _ _ G).
  destruct (_ ≫= _); [apply _write_to_db_lower | reflexivity].
Qed.

(** X15: [evaluate] leaves every row that is not under its key as it was, in
    both tables, whether it returns or raises. *)
Theorem evaluate_touches_only_its_key (self : ModelEvaluator)
    (registry : gmap string metric_function)
    (predictions_proba labels : list pynum)
    (model_id start_time end_time : Z) (frequency matrix_type : string)
    (db : database) (t : table) :
  List.filter (results_schema.keep model_id start_time end_time frequency)
    (results_schema.rows t
       (evaluate format sort_predictions_and_labels self registry
           predictions_proba labels model_id start_time
          end_time frequency matrix_type db).2)
  = List.filter (results_schema.keep model_id start_time end_time frequency)
      (results_schema.rows t db).
Proof.
  destruct (evaluate format sort_predictions_and_labels self registry
      predictions_proba labels model_id start_time
              end_time frequency matrix_type db) as [[[] | e] db'] eqn:E.
  - apply evaluate_Ok_inv in E as (t0 & evs & _ & _ & _ & ->). simpl.
    destruct t, t0; simpl; try reflexivity;
      rewrite List.filter_app, WriterFacts.filter_keep_idem,
        WriterFacts.filter_keep_bound, app_nil_r; reflexivity.
  - apply evaluate_Raise_unchanged in E. subst db'. reflexivity.
Qed.

(** X16: a call for the train matrix does not read [metric_groups] and leaves
    the test table as it was. *)
Theorem train_reads_training_groups (self : ModelEvaluator)
    (registry : gmap string metric_function)
    (predictions_proba labels : list pynum)
    (model_id start_time end_time : Z) (frequency matrix_type : string)
    (db : database) (groups : list metric_group) :
  lower matrix_type = "train" ->
  evaluate format sort_predictions_and_labels self registry
      predictions_proba labels model_id start_time end_time
    frequency matrix_type db
  = evaluate format sort_predictions_and_labels {| metric_groups := groups;
           training_metric_groups := training_metric_groups self;
           sort_seed := sort_seed self;
           sessionmaker := sessionmaker self |}
      registry predictions_proba labels model_id start_time end_time
      frequency matrix_type db
  /\ results_schema.test_evaluations
       (evaluate format sort_predictions_and_labels self registry
           predictions_proba labels model_id start_time
          end_time frequency matrix_type db).2
     = results_schema.test_evaluations db.
Proof.
  intros Hm. split.
  - unfold evaluate. rewrite Hm. reflexivity.
  - destruct (evaluate format sort_predictions_and_labels self registry
      predictions_proba labels model_id start_time
                end_time frequency matrix_type db) as [[[] | e] db'] eqn:E.
    + apply evaluate_Ok_inv in E as (t & evs & Ht & _ & _ & ->).
      unfold table_obj in Ht. rewrite Hm in Ht. inversion Ht. reflexivity.
    + apply evaluate_Raise_unchanged in E. subst db'. reflexivity.
Qed.

(** X17: with no metric group, [evaluate] for the test matrix does one of
    two things.  When the co-sort of the inputs returns, the call returns
    and deletes the rows under its key: an empty configuration clears the
    earlier results.  When the co-sort raises, the call raises that error
    and deletes nothing. *)
Theorem empty_configuration_clears_key (self : ModelEvaluator)
    (registry : gmap string metric_function)
    (predictions_proba labels : list pynum)
    (model_id start_time end_time : Z) (frequency matrix_type : string)
    (db : database) :
  lower matrix_type = "test" -> metric_groups self = [] ->
  sessionmaker self = true ->
  evaluate format sort_predictions_and_labels self registry
      predictions_proba labels model_id start_time end_time
    frequency matrix_type db
  = match
      sort_predictions_and_labels predictions_proba labels (sort_seed self)
    with
    | Ok _ =>
        (Ok tt,
         results_schema.delete_by TestEvaluation model_id start_time
           end_time frequency db)
    | Raise e => (Raise e, db)
    end.
Proof.
  intros Hm Hg Hs. unfold evaluate.
  destruct (sort_predictions_and_labels _ _ _)
    as [[sorted labels_sorted] | e]; [| reflexivity].
  rewrite Hm, Hg. simpl. unfold _write_to_db, table_obj.
  rewrite Hs, Hm. reflexivity.
Qed.

(** X18: a group with a ['thresholds'] key and neither percentiles nor top_n
    values gives no record and does not raise, even when its metrics are
    not registered. *)
Theorem empty_thresholds_group_is_skipped (self : ModelEvaluator)
    (registry : gmap string metric_function)
    (predictions_proba predictions_proba_sorted labels_sorted : list pynum)
    (matrix_type : string) (group : metric_group) (th : thresholds) :
  group_thresholds group = Some th ->
  default [] (percentiles th) = [] -> default [] (top_n th) = [] ->
  evaluate_group format self registry predictions_proba
    predictions_proba_sorted labels_sorted matrix_type group = Ok [].
Proof.
  intros Ht Hp Hn. unfold evaluate_group. rewrite Ht. simpl.
  rewrite Hp, Hn. reflexivity.
Qed.


End OrchestratorExtras.

Lemma train_reads_training_groups_witness :
  sample_run (sample_evaluator [plain_group "first_score"]) "Train"
    populated_database
  = sample_run
      {| metric_groups := [];
         training_metric_groups :=
           training_metric_groups
             (sample_evaluator [plain_group "first_score"]);
         sort_seed := sort_seed (sample_evaluator [plain_group "first_score"]);
         sessionmaker :=
           sessionmaker (sample_evaluator [plain_group "first_score"]) |}
      "Train" populated_database
  /\ results_schema.test_evaluations
       (sample_run (sample_evaluator [plain_group "first_score"]) "Train"
          populated_database).2
     = results_schema.test_evaluations populated_database.
Proof.
  apply (train_reads_training_groups format_sample sample_sort
           (sample_evaluator [plain_group "first_score"]) sample_registry
           [quarter; three_quarters] [PyInt 1; unlabeled] 7 0 10 "1d" "Train"
           populated_database []).
  reflexivity.
Defined.

Lemma empty_configuration_clears_key_witness :
  sample_run (sample_evaluator []) "Test" populated_database
  = match
      sample_sort [quarter; three_quarters] [PyInt 1; unlabeled]
        (sort_seed (sample_evaluator []))
    with
    | Ok _ =>
        (Ok tt,
         results_schema.delete_by TestEvaluation 7 0 10 "1d"
           populated_database)
    | Raise e => (Raise e, populated_database)
    end.
Proof.
  apply (empty_configuration_clears_key format_sample sample_sort
           (sample_evaluator []) sample_registry [quarter; three_quarters]
           [PyInt 1; unlabeled] 7 0 10 "1d" "Test" populated_database);
    reflexivity.
Defined.

Lemma empty_thresholds_group_is_skipped_witness :
  sample_group_run
    {| group_metrics := ["no such metric"];
       group_parameters := None;
       group_thresholds := Some {| percentiles := None; top_n := Some [] |} |}
  = Ok [].
Proof.
  apply (empty_thresholds_group_is_skipped format_sample (sample_evaluator [])
           sample_registry [quarter; three_quarters]
           [three_quarters; quarter] [unlabeled; PyInt 1] "Test"
           {| group_metrics := ["no such metric"];
              group_parameters := None;
              group_thresholds :=
                Some {| percentiles := None; top_n := Some [] |} |}
           {| percentiles := None; top_n := Some [] |}); reflexivity.
Defined.


Section OrchestratorExtras2.
Import EngineMore BinarizerMore.
Variable format : pyval -> string.
Variable sort_predictions_and_labels :
  list pynum -> list pynum -> pyval -> result (list pynum * list pynum).

(** X20: the records of a thresholded group count as labeled examples the
    labels that are finite, and no more examples above the threshold
    than that; the records of a group without thresholds count all
    labels. *)
Theorem thresholded_counts_skip_missing_labels (self : ModelEvaluator)
    (registry : gmap string metric_function)
    (predictions_proba predictions_proba_sorted labels_sorted : list pynum)
    (matrix_type : string) (group : metric_group)
    (evaluations : list Evaluation) :
  evaluate_group format self registry predictions_proba
    predictions_proba_sorted labels_sorted matrix_type group
  = Ok evaluations ->
  (forall th, group_thresholds group = Some th ->
     Forall (fun ev =>
       results_schema.num_labeled_examples ev
       = Z.of_nat (length (List.filter num_isfinite labels_sorted))
       /\ results_schema.num_labeled_above_threshold ev
          <= results_schema.num_labeled_examples ev) evaluations)
  /\ (group_thresholds group = None ->
      Forall (fun ev =>
        results_schema.num_labeled_examples ev
        = Z.of_nat (length labels_sorted)) evaluations).
Proof.
  unfold evaluate_group. intros H.
  apply BinarizerFacts.bind_Ok in H as (full & Hfull & H).
  apply BinarizerFacts.bind_Ok in H as (pct & Hpct & H).
  apply BinarizerFacts.bind_Ok in H as (top & Htop & H).
  inversion H; subst evaluations. clear H.
  assert (T : forall key unit_ thresh es,
    (binary ← generate_binary_at_x predictions_proba_sorted thresh unit_;
     predicted_classes ←
       mask_select binary (map num_isfinite labels_sorted);
     present_labels_sorted ←
       mask_select labels_sorted (map num_isfinite labels_sorted);
     _generate_evaluations format self registry (group_metrics group)
       (default [[]] (group_parameters group)) [(key, VNum thresh)] None
       predicted_classes present_labels_sorted matrix_type) = Ok es ->
    Forall (fun ev =>
       results_schema.num_labeled_examples ev
       = Z.of_nat (length (List.filter num_isfinite labels_sorted))
       /\ results_schema.num_labeled_above_threshold ev
          <= results_schema.num_labeled_examples ev) es).
  { intros key unit_ thresh es H.
    apply BinarizerFacts.bind_Ok in H as (b & _ & H).
    apply BinarizerFacts.bind_Ok in H as (pc & Hpc & H).
    rewrite mask_select_self in H. bind_step in H.
    apply mask_select_Ok in Hpc as [_ Lpc]. rewrite filter_map_id in Lpc.
    apply _generate_evaluations_records in H.
    eapply Forall_impl; [exact H |].
    intros ev (E1 & E2 & _). rewrite E1, E2. split; [reflexivity |].
    apply inj_le. rewrite <- Lpc. apply count_occ_le_length. }
  split.
  - intros th Hth. rewrite Hth in Hfull. inversion Hfull.
    apply Forall_app. split; [constructor |]. apply Forall_app. split.
    + eapply for_each_Ok_Forall; [| exact Hpct]. intros x es _. apply T.
    + eapply for_each_Ok_Forall; [| exact Htop]. intros x es _. apply T.
  - intros Hth. rewrite Hth in Hfull, Hpct, Htop.
    change (Ok [] = Ok pct) in Hpct. change (Ok [] = Ok top) in Htop.
    inversion Hpct; inversion Htop. rewrite !app_nil_r.
    apply BinarizerFacts.bind_Ok in Hfull as (b & _ & H).
    apply _generate_evaluations_records in H.
    eapply Forall_impl; [exact H |]. intros ev (E1 & _). exact E1.
Qed.

(** X21: an evaluator without a session maker writes nothing: [evaluate]
    raises and the database is as before. *)
Theorem without_engine_nothing_is_written (self : ModelEvaluator)
    (registry : gmap string metric_function)
    (predictions_proba labels : list pynum)
    (model_id start_time end_time : Z) (frequency matrix_type : string)
    (db : database) :
  sessionmaker self = false ->
  exists e,
    evaluate format sort_predictions_and_labels self registry
      predictions_proba labels model_id start_time end_time frequency
      matrix_type db = (Raise e, db).
Proof.
  intros Hs. unfold evaluate.
  destruct (sort_predictions_and_labels _ _ _)
    as [[sorted labels_sorted] | e0]; [| eauto].
  destruct (_ ≫= _) as [evaluations | e]; [| eauto].
  unfold _write_to_db. rewrite Hs. simpl. eauto.
Qed.

(** X23: a call of [evaluate] that returned, run again on the database it
    left, returns and leaves that database. *)
Theorem evaluate_again_changes_nothing (self : ModelEvaluator)
    (registry : gmap string metric_function)
    (predictions_proba labels : list pynum)
    (model_id start_time end_time : Z) (frequency matrix_type : string)
    (db db1 : database) :
  evaluate format sort_predictions_and_labels self registry
    predictions_proba labels model_id start_time end_time frequency
    matrix_type db = (Ok tt, db1) ->
  evaluate format sort_predictions_and_labels self registry
    predictions_proba labels model_id start_time end_time frequency
    matrix_type db1 = (Ok tt, db1).
Proof. apply evaluate_twice. Qed.

(** X24: after a call of [evaluate] that returned, every row under its key in
    the table of its [matrix_type] is of that table's class and carries
    the evaluator's seed. *)
Theorem rows_under_key_carry_seed (self : ModelEvaluator)
    (registry : gmap string metric_function)
    (predictions_proba labels : list pynum)
    (model_id start_time end_time : Z) (frequency matrix_type : string)
    (db db' : database) :
  evaluate format sort_predictions_and_labels self registry
    predictions_proba labels model_id start_time end_time frequency
    matrix_type db = (Ok tt, db') ->
  exists t,
    table_obj matrix_type = Ok t
    /\ Forall (fun ev =>
         results_schema.has_key model_id start_time end_time frequency ev
         = true ->
         results_schema.sort_seed ev = sort_seed self
         /\ results_schema.class ev = t)
         (results_schema.rows t db').
Proof.
  intros H. apply evaluate_Ok_inv in H as (t & evs & Ht & _ & Hc & ->).
  exists t. split; [exact Ht |]. rewrite WriterFacts.rows_set_rows.
  apply Forall_app. split.
  - apply Forall_forall. intros ev Hev Hk. apply list_elem_of_In in Hev.
    apply List.filter_In in Hev as [_ K]. unfold results_schema.keep in K.
    rewrite Hk in K. discriminate.
  - apply Forall_forall. intros ev Hev _.
    apply list_elem_of_In, List.in_map_iff in Hev as (ev0 & <- & Hev0).
    rewrite Forall_forall in Hc. apply list_elem_of_In in Hev0.
    destruct (Hc ev0 Hev0) as [C S]. simpl. auto.
Qed.

End OrchestratorExtras2.

Lemma thresholded_counts_skip_missing_labels_witness :
  (forall th, group_thresholds (thresholded_group "first_score") = Some th ->
     Forall (fun ev =>
       results_schema.num_labeled_examples ev
       = Z.of_nat (length (List.filter num_isfinite [unlabeled; PyInt 1]))
       /\ results_schema.num_labeled_above_threshold ev
          <= results_schema.num_labeled_examples ev)
       (generated (sample_group_run (thresholded_group "first_score"))))
  /\ (group_thresholds (thresholded_group "first_score") = None ->
      Forall (fun ev =>
        results_schema.num_labeled_examples ev
        = Z.of_nat (length [unlabeled; PyInt 1]))
        (generated (sample_group_run (thresholded_group "first_score")))).
Proof.
  apply (thresholded_counts_skip_missing_labels format_sample
           (sample_evaluator []) sample_registry [quarter; three_quarters]
           [three_quarters; quarter] [unlabeled; PyInt 1] "Test"
           (thresholded_group "first_score")).
  vm_compute. reflexivity.
Defined.

Lemma without_engine_nothing_is_written_witness :
  exists e,
    sample_run
      {| metric_groups := [plain_group "first_score"];
         training_metric_groups := []; sort_seed := VNum (PyInt 1);
         sessionmaker := false |} "Test" populated_database
    = (Raise e, populated_database).
Proof.
  apply (without_engine_nothing_is_written format_sample sample_sort
           {| metric_groups := [plain_group "first_score"];
              training_metric_groups := []; sort_seed := VNum (PyInt 1);
              sessionmaker := false |} sample_registry
           [quarter; three_quarters] [PyInt 1; unlabeled] 7 0 10 "1d" "Test"
           populated_database).
  reflexivity.
Defined.

Lemma evaluate_again_changes_nothing_witness :
  sample_run (sample_evaluator [thresholded_group "first_score"]) "Test"
    (sample_run (sample_evaluator [thresholded_group "first_score"]) "Test"
       populated_database).2
  = (Ok tt,
     (sample_run (sample_evaluator [thresholded_group "first_score"]) "Test"
        populated_database).2).
Proof.
  apply (evaluate_again_changes_nothing format_sample sample_sort
           (sample_evaluator [thresholded_group "first_score"])
           sample_registry [quarter; three_quarters] [PyInt 1; unlabeled]
           7 0 10 "1d" "Test" populated_database).
  vm_compute. reflexivity.
Defined.

Lemma rows_under_key_carry_seed_witness :
  exists t,
    table_obj "Test" = Ok t
    /\ Forall (fun ev =>
         results_schema.has_key 7 0 10 "1d" ev = true ->
         results_schema.sort_seed ev
         = sort_seed (sample_evaluator [thresholded_group "first_score"])
         /\ results_schema.class ev = t)
         (results_schema.rows t
            (sample_run (sample_evaluator [thresholded_group "first_score"])
               "Test" populated_database).2).
Proof.
  apply (rows_under_key_carry_seed format_sample sample_sort
           (sample_evaluator [thresholded_group "first_score"])
           sample_registry [quarter; three_quarters] [PyInt 1; unlabeled]
           7 0 10 "1d" "Test" populated_database).
  vm_compute. reflexivity.
Defined.

Section ParameterString.
Variable format : pyval -> string.

Lemma dict_set_fresh (k : string) (v : pyval) (d : dict) :
  k ∉ d.*1 -> dict_set k v d = d ++ [(k, v)].
Proof.
  induction d as [| [k' v'] d IH]; intros H; simpl; [reflexivity |].
  rewrite fmap_cons in H. apply not_elem_of_cons in H as [Hne Hd].
  simpl in Hne. destruct (String.eqb_spec k k') as [E | _]; [congruence |].
  rewrite (IH Hd). reflexivity.
Qed.

Lemma string_app_assoc (a b c : string) : (a +:+ b) +:+ c = a +:+ b +:+ c.
Proof.
  induction a as [| x a IH]; [reflexivity |].
  change (String x ((a +:+ b) +:+ c) = String x (a +:+ b +:+ c)).
  rewrite IH. reflexivity.
Qed.

Lemma join_snoc (sep : string) (l : list string) (s : string) :
  l <> [] -> join sep (l ++ [s]) = join sep l +:+ sep +:+ s.
Proof.
  induction l as [| x l IH]; intros H; [congruence |].
  destruct l as [| y l]; [reflexivity |].
  change (join sep ((x :: y :: l) ++ [s]))
    with (x +:+ sep +:+ join sep ((y :: l) ++ [s])).
  rewrite IH by discriminate.
  change (join sep (x :: y :: l)) with (x +:+ sep +:+ join sep (y :: l)).
  rewrite !string_app_assoc. reflexivity.
Qed.

(** X25: when the threshold key is not a parameter name, the threshold is the
    last entry of the merged dictionary and the last segment of the
    parameter string. *)
Theorem threshold_is_rendered_last (d : dict) (k : string) (v : pyval) :
  k ∉ d.*1 ->
  dict_update d [(k, v)] = d ++ [(k, v)]
  /\ parameter_string format (dict_update d [(k, v)])
     = match d with
       | [] => format v +:+ "_" +:+ k
       | _ => parameter_string format d +:+ "/" +:+ format v +:+ "_" +:+ k
       end.
Proof.
  intros H. assert (E : dict_update d [(k, v)] = d ++ [(k, v)]).
  { unfold dict_update. simpl. apply dict_set_fresh, H. }
  split; [exact E |]. rewrite E. unfold parameter_string.
  rewrite map_app. destruct d as [| kv d]; [reflexivity |].
  apply join_snoc. discriminate.
Qed.

End ParameterString.

Lemma threshold_is_rendered_last_witness :
  dict_update [("beta", VNum (PyInt 2))] [("pct", VNum (PyInt 5))]
  = [("beta", VNum (PyInt 2))] ++ [("pct", VNum (PyInt 5))]
  /\ parameter_string format_sample
       (dict_update [("beta", VNum (PyInt 2))] [("pct", VNum (PyInt 5))])
     = match [("beta", VNum (PyInt 2))] with
       | [] => format_sample (VNum (PyInt 5)) +:+ "_" +:+ "pct"
       | _ => parameter_string format_sample [("beta", VNum (PyInt 2))]
              +:+ "/" +:+ format_sample (VNum (PyInt 5)) +:+ "_" +:+ "pct"
       end.
Proof.
  apply (threshold_is_rendered_last format_sample [("beta", VNum (PyInt 2))]
           "pct" (VNum (PyInt 5))).
  refine (bool_decide_unpack _ _). vm_compute. exact I.
Defined.
